(** * Excel-Art: pixel-to-styled-cell conversion (script.py and scriptV2.py)

    A shallow embedding of the two conversion scripts.  Python values are
    modelled as the scripts use them: channel values and formatted numbers
    are unbounded integers ([Z]), image sizes and loop indices are natural
    numbers, [str] is [string] (ASCII range), the [fill_cache] dict is a
    [gmap string Handle], the worksheet dictionaries are [gmap]s, and
    Python objects with identity (the [PatternFill] instances) live in a
    heap addressed by handles.  Effects -- printing, [input()], the PIL and
    openpyxl calls, uncaught exceptions -- are threaded through a small
    state-and-exception monad whose store keeps the event log, the heap
    and the remaining standard input. *)

From stdpp Require Import gmap strings list fin_maps.
From Stdlib Require Import ZArith QArith Ascii Lia.

Close Scope Q_scope.
Open Scope Z_scope.

(* ================================================================== *)
(** * Python string primitives used by the scripts *)
(* ================================================================== *)

Module Py.

(** One uppercase hexadecimal digit (format code [X]). *)
Definition hex_digit (d : Z) : ascii :=
  match d with
  | 0 => "0" | 1 => "1" | 2 => "2" | 3 => "3" | 4 => "4" | 5 => "5"
  | 6 => "6" | 7 => "7" | 8 => "8" | 9 => "9" | 10 => "A" | 11 => "B"
  | 12 => "C" | 13 => "D" | 14 => "E" | _ => "F"
  end%char.

(** Digits of a non-negative integer in base 16, most significant first. *)
Fixpoint to_hex_go (fuel : nat) (n : Z) (acc : string) : string :=
  match fuel with
  | O => acc
  | S fuel' =>
      let acc' := String (hex_digit (n mod 16)) acc in
      if n / 16 =? 0 then acc' else to_hex_go fuel' (n / 16) acc'
  end.

Definition to_hex (n : Z) : string :=
  to_hex_go (S (Z.to_nat (Z.log2 n))) n "".

(** Left padding with ["0"] up to [width] characters. *)
Definition zfill (width : nat) (s : string) : string :=
  String.concat "" (replicate (width - String.length s)%nat "0"%string) +:+ s.

(** [format(n, "02X")]: sign-aware zero padding to a total width of two. *)
Definition format_02X (n : Z) : string :=
  if n <? 0 then "-" +:+ zfill 1 (to_hex (- n)) else zfill 2 (to_hex n).

(** [str.lower()] on the ASCII range. *)
Definition lower_char (a : ascii) : ascii :=
  let n := Ascii.nat_of_ascii a in
  if ((65 <=? n) && (n <=? 90))%nat then Ascii.ascii_of_nat (n + 32) else a.

Fixpoint lower (s : string) : string :=
  match s with
  | EmptyString => EmptyString
  | String a s' => String (lower_char a) (lower s')
  end.

(** [str.endswith(ext)]. *)
Definition endswith (s ext : string) : bool :=
  String.prefix (String.rev ext) (String.rev s).

(** Whitespace as [str.strip()] sees it on the ASCII range. *)
Definition is_space (a : ascii) : bool :=
  let n := Ascii.nat_of_ascii a in
  (((9 <=? n) && (n <=? 13)) || ((28 <=? n) && (n <=? 32)))%nat.

Fixpoint lstrip (s : string) : string :=
  match s with
  | EmptyString => EmptyString
  | String a s' => if is_space a then lstrip s' else s
  end.

Definition strip (s : string) : string :=
  String.rev (lstrip (String.rev (lstrip s))).

End Py.

(* ================================================================== *)
(** * Color codec: [rgb_to_hex] (identical in both scripts) *)
(* ================================================================== *)

(** A pixel as [getpixel] returns it for an RGB image: a 3-tuple. *)
Abbreviation Pixel := (Z * Z * Z)%type (only parsing).

(** [f"{rgb[0]:02X}{rgb[1]:02X}{rgb[2]:02X}"] *)
Definition rgb_to_hex (rgb : Pixel) : string :=
  let '(r, g, b) := rgb in
  Py.format_02X r +:+ Py.format_02X g +:+ Py.format_02X b.

(** Reading a Color Key back: the value of one hexadecimal digit, of a
    two-digit field, and of the three fields of a six-character key. *)
Definition hex_value (a : ascii) : option Z :=
  let n := Z.of_nat (Ascii.nat_of_ascii a) in
  if (48 <=? n) && (n <=? 57) then Some (n - 48)        (* '0'..'9' *)
  else if (65 <=? n) && (n <=? 70) then Some (n - 55)   (* 'A'..'F' *)
  else None.

Definition is_upper_hex (a : ascii) : bool :=
  match hex_value a with Some _ => true | None => false end.

Definition parse_hex2 (hi lo : ascii) : option Z :=
  match hex_value hi, hex_value lo with
  | Some h, Some l => Some (16 * h + l)
  | _, _ => None
  end.

Definition hex_to_rgb (s : string) : option Pixel :=
  match s with
  | String r1 (String r0 (String g1 (String g0 (String b1 (String b0 EmptyString))))) =>
      match parse_hex2 r1 r0, parse_hex2 g1 g0, parse_hex2 b1 b0 with
      | Some r, Some g, Some b => Some (r, g, b)
      | _, _, _ => None
      end
  | _ => None
  end.

Fixpoint string_forall (p : ascii -> bool) (s : string) : bool :=
  match s with
  | EmptyString => true
  | String a s' => p a && string_forall p s'
  end.

Definition channel_ok (c : Z) : Prop := 0 <= c <= 255.

Definition two_digits (c : Z) : string :=
  String (Py.hex_digit (c / 16)) (String (Py.hex_digit (c mod 16)) EmptyString).

Close Scope Z_scope.

(* ================================================================== *)
(** * Collaborators, events and the store *)
(* ================================================================== *)

(** A decoded PIL image: its mode, its [size] and its pixel accessor. *)
Record Image := mkImage {
  mode : string;
  image_size : nat * nat;           (* image.size = (width, height) *)
  getpixel : nat * nat -> Pixel
}.

Definition width_of (image : Image) : nat := fst (image_size image).
Definition height_of (image : Image) : nat := snd (image_size image).

(** [PatternFill(start_color=.., end_color=.., fill_type=..)] *)
Record PatternFill := mkPatternFill {
  start_color : string;
  end_color : string;
  fill_type : string
}.

(** A reference to a [PatternFill] object: its index in the heap. *)
Abbreviation Handle := nat (only parsing).

(** The active worksheet of a workbook, as far as the scripts touch it. *)
Record Worksheet := mkWorksheet {
  title : string;
  column_dimensions : gmap string Q;   (* column letter -> width *)
  row_dimensions : gmap nat Q;         (* row -> height *)
  cells : gmap (nat * nat) Handle      (* (row, column) -> cell.fill *)
}.

Record Workbook := mkWorkbook {
  active : Worksheet;
  calcMode : string
}.

(** One constructor per [print] statement (and per [input] prompt) of the
    scripts; the interpolated values are kept as arguments. *)
Inductive Msg :=
| MsgLoadError                        (* "Error al cargar la imagen: {e}" *)
| MsgProcessing (w h : nat)           (* "Procesando imagen de {w}x{h} pixels..." *)
| MsgCreating                         (* "Creando archivo Excel..." *)
| MsgRows (done total : nat)          (* "Procesadas {y + 1}/{height} filas..." *)
| MsgRowsUnique (done total processed total_cells uniq : nat)
                                      (* "Procesadas .. filas ({progress:.1f}% - {n} colores únicos)" *)
| MsgTotalUnique (n : nat)            (* "Total de colores únicos encontrados: {n}" *)
| MsgSaved (path : string)            (* "Archivo Excel guardado como: {path}" *)
| MsgNote (total_cells : nat)         (* "NOTA: El archivo puede tardar en abrir ..." *)
| MsgSaveError                        (* "Error al guardar el archivo Excel: {e}" *)
| MsgReducing (max_colors : nat)      (* "Reduciendo colores a máximo {n} ..." *)
| MsgNotExist (path : string)         (* "Error: El archivo {path} no existe." *)
| MsgBadExtension                     (* "Error: El archivo debe ser PNG o JPG/JPEG." *)
| MsgLoading (path : string)          (* "Cargando imagen: {path}" *)
| MsgCancelled                        (* "Operación cancelada." *)
| MsgPixels (total : Z)               (* "La imagen tiene {total:,} pixels." *)
| MsgRecommend                        (* "Para mejor rendimiento, se recomienda:" *)
| MsgOption (n : nat)                 (* "1. Reducir ..." / "2. Continuar ..." / "3. Cancelar" *)
| MsgDone                             (* "¡Conversión completada!" *)
| MsgProcessed (w h : nat)            (* "Imagen procesada: {w}x{h} pixels" *)
| MsgCreated (path : string)          (* "Archivo Excel creado: {path}" *)
| MsgTips (line : nat)                (* the four "TIPS" lines of scriptV2 *)
| PromptContinue (total : Z)          (* "La imagen tiene {total} pixels. ... ¿Continuar? (s/n): " *)
| PromptChoice.                       (* "Elige una opción (1/2/3): " *)

(** Messages that report an error (their text starts with "Error"). *)
Definition is_error_msg (m : Msg) : bool :=
  match m with
  | MsgLoadError | MsgSaveError | MsgNotExist _ | MsgBadExtension => true
  | _ => false
  end.

(** Observable effects, in the order the scripts perform them. *)
Inductive Event :=
| EvPrint (m : Msg)                       (* print(..) *)
| EvInput (prompt : Msg)                  (* input(..) *)
| EvExists (path : string)                (* os.path.exists(path) *)
| EvOpen (path : string)                  (* Image.open(path) *)
| EvConvert (mode : string)               (* image.convert(mode) *)
| EvQuantize (colors : nat)               (* image.quantize(colors=..) *)
| EvGetPixel (x y : nat)                  (* image.getpixel((x, y)) *)
| EvSave (wb : Workbook) (path : string). (* workbook.save(path) *)

Inductive Exn :=
| IndexError | KeyError | ValueError | ZeroDivisionError | EOFError
| LibraryError.

Inductive Outcome (A : Type) :=
| Ret (a : A)
| Raise (e : Exn).
Arguments Ret {A} a.
Arguments Raise {A} e.

(** The store: the event log (most recent event first), every
    [PatternFill] object constructed so far, and the lines still to be
    read from standard input. *)
Record Store := mkStore {
  events : list Event;
  heap : list PatternFill;
  stdin : list string
}.

(** What the scripts' environment answers: the file system, PIL and
    openpyxl.  [None] (or [false] for [Workbook_save]) stands for the
    call raising an exception. *)
Record World := mkWorld {
  os_path_exists : string -> bool;
  os_path_splitext : string -> string * string;
  Image_open : string -> option Image;
  Image_convert : Image -> string -> option Image;
  Image_quantize : Image -> nat -> option Image;
  get_column_letter : nat -> option string;
  Workbook_save : Workbook -> string -> bool
}.

(* ------------------------------------------------------------------ *)
(** ** The monad *)

Definition M (A : Type) : Type := Store -> Outcome A * Store.

Definition ret {A} (a : A) : M A := fun st => (Ret a, st).

Definition raise {A} (e : Exn) : M A := fun st => (Raise e, st).

Definition bind {A B} (m : M A) (k : A -> M B) : M B :=
  fun st =>
    match m st with
    | (Ret a, st') => k a st'
    | (Raise e, st') => (Raise e, st')
    end.

Declare Scope py_scope.
Delimit Scope py_scope with py.
Notation "x <- m ;; k" := (bind m (fun x => k))
  (at level 100, m at next level, right associativity) : py_scope.
Notation "m ;; k" := (bind m (fun _ => k))
  (at level 100, right associativity) : py_scope.
Open Scope py_scope.

(** [for x in xs: s = body(x, s)], threading the loop's local variables. *)
Fixpoint for_ {S : Type} (xs : list nat) (body : nat -> S -> M S) (s : S) : M S :=
  match xs with
  | [] => ret s
  | x :: xs' => s' <- body x s ;; for_ xs' body s'
  end.

Definition emit (e : Event) : M unit :=
  fun st => (Ret tt, mkStore (e :: events st) (heap st) (stdin st)).

Definition print (m : Msg) : M unit := emit (EvPrint m).

(** [input(prompt)]: the next line of standard input, [EOFError] at its end. *)
Definition input (prompt : Msg) : M string :=
  fun st =>
    let st' := mkStore (EvInput prompt :: events st) (heap st) in
    match stdin st with
    | [] => (Raise EOFError, st' [])
    | line :: rest => (Ret line, st' rest)
    end.

(** Constructing a [PatternFill]: a new object on the heap. *)
Definition new_PatternFill (start_c end_c ftype : string) : M Handle :=
  fun st =>
    (Ret (length (heap st)),
     mkStore (events st) (heap st ++ [mkPatternFill start_c end_c ftype]) (stdin st)).

(** [pixel_colors[y][x]] *)
Definition index2 (pixel_colors : list (list Pixel)) (y x : nat) : M Pixel :=
  match pixel_colors !! y with
  | None => raise IndexError
  | Some row =>
      match row !! x with
      | None => raise IndexError
      | Some rgb => ret rgb
      end
  end.

(** [range(n)] and [range(1, n + 1)] *)
Definition range (n : nat) : list nat := seq 0 n.
Definition range1 (n : nat) : list nat := seq 1 n.

(* ================================================================== *)
(** * Functions shared verbatim by script.py and scriptV2.py *)
(* ================================================================== *)

(** [load_image]: any exception of PIL is caught and turned into [None]. *)
Definition load_image (W : World) (image_path : string) : M (option Image) :=
  emit (EvOpen image_path) ;;
  match Image_open W image_path with
  | None => print MsgLoadError ;; ret None
  | Some image =>
      if bool_decide (mode image <> "RGB"%string) then
        emit (EvConvert "RGB") ;;
        match Image_convert W image "RGB" with
        | None => print MsgLoadError ;; ret None
        | Some image' => ret (Some image')
        end
      else ret (Some image)
  end.

(** [get_pixel_colors] *)
Definition get_pixel_colors (image : Image)
  : M (list (list Pixel) * nat * nat) :=
  let '(width, height) := image_size image in
  print (MsgProcessing width height) ;;
  pixel_colors <-
    for_ (range height) (fun y pixel_colors =>
      row_colors <-
        for_ (range width) (fun x row_colors =>
          emit (EvGetPixel x y) ;;
          let pixel_color := getpixel image (x, y) in
          ret (row_colors ++ [pixel_color])) [] ;;
      ret (pixel_colors ++ [row_colors])) [] ;;
  ret (pixel_colors, width, height).

Definition new_worksheet : Worksheet := mkWorksheet "Sheet" ∅ ∅ ∅.

Definition set_title (ws : Worksheet) (t : string) : Worksheet :=
  mkWorksheet t (column_dimensions ws) (row_dimensions ws) (cells ws).

Definition set_column_width (ws : Worksheet) (letter : string) (w : Q) : Worksheet :=
  mkWorksheet (title ws) (<[letter := w]> (column_dimensions ws))
              (row_dimensions ws) (cells ws).

Definition set_row_height (ws : Worksheet) (row : nat) (h : Q) : Worksheet :=
  mkWorksheet (title ws) (column_dimensions ws)
              (<[row := h]> (row_dimensions ws)) (cells ws).

(** [worksheet.cell(row=.., column=..).fill = fill] *)
Definition set_cell_fill (ws : Worksheet) (row col : nat) (fill : Handle) : Worksheet :=
  mkWorksheet (title ws) (column_dimensions ws) (row_dimensions ws)
              (<[(row, col) := fill]> (cells ws)).

(** [openpyxl.utils.get_column_letter(col)]; it raises [ValueError]
    outside the range of column names. *)
Definition column_letter (W : World) (col : nat) : M string :=
  match get_column_letter W col with
  | Some letter => ret letter
  | None => raise ValueError
  end.

(** [valid_extensions] and the test
    [any(image_path.lower().endswith(ext) for ext in valid_extensions)]. *)
Definition valid_extensions : list string :=
  [".png"; ".jpg"; ".jpeg"; ".PNG"; ".JPG"; ".JPEG"]%string.

Definition has_valid_extension (image_path : string) : bool :=
  existsb (fun ext => Py.endswith (Py.lower image_path) ext) valid_extensions.

(** The size-guard threshold of both scripts. *)
Definition threshold : Z := 10000%Z.

(** [os.path.splitext(image_path)[0]] followed by [".xlsx"]. *)
Definition output_path_of (W : World) (image_path : string) : string :=
  fst (os_path_splitext W image_path) +:+ ".xlsx".

Definition when (b : bool) (m : M unit) : M unit := if b then m else ret tt.

(** [emits P m]: whatever its outcome, [m] only adds events satisfying
    [P] to the log. *)
Definition emits {A} (P : Event -> Prop) (m : M A) : Prop :=
  forall st, exists es, events (m st).2 = es ++ events st /\ Forall P es.

(* ================================================================== *)
(** * script.py *)
(* ================================================================== *)

Module Script.

(** Body of the inner fill loop (lines 61-69): one cell, one new fill.
    The cell is bound to the object just constructed.  openpyxl keeps a
    cell's fill by value, so of a cell of script.py it is the fill it
    carries that is observable, not which of several equal objects it
    names; the statements on script.py below are about the objects
    constructed and the fills carried. *)
Definition fill_cell (pixel_colors : list (list Pixel)) (y x : nat)
    (ws : Worksheet) : M Worksheet :=
  rgb_color <- index2 pixel_colors y x ;;
  let hex_color := rgb_to_hex rgb_color in
  fill <- new_PatternFill hex_color hex_color "solid" ;;
  ret (set_cell_fill ws (y + 1) (x + 1) fill).

(** Body of the outer fill loop (lines 60-73): one row, then the
    progress message every tenth row. *)
Definition fill_row (pixel_colors : list (list Pixel)) (width height y : nat)
    (ws : Worksheet) : M Worksheet :=
  ws <- for_ (range width) (fill_cell pixel_colors y) ws ;;
  when ((y + 1) mod 10 =? 0) (print (MsgRows (y + 1) height)) ;;
  ret ws.

Definition create_excel_with_colors (W : World)
    (pixel_colors : list (list Pixel)) (width height : nat)
    (output_path : string) : M bool :=
  print MsgCreating ;;
  let worksheet := set_title new_worksheet "Imagen_Pixeles" in
  worksheet <-
    for_ (range1 width) (fun col ws =>
      letter <- column_letter W col ;;
      ret (set_column_width ws letter 2%Q)) worksheet ;;
  worksheet <-
    for_ (range1 height) (fun row ws =>
      ret (set_row_height ws row 15%Q)) worksheet ;;
  worksheet <-
    for_ (range height) (fill_row pixel_colors width height) worksheet ;;
  let workbook := mkWorkbook worksheet "auto" in
  emit (EvSave workbook output_path) ;;
  if Workbook_save W workbook output_path then
    print (MsgSaved output_path) ;; ret true
  else
    print MsgSaveError ;; ret false.

(** Steps 3 and 4 of [image_to_excel] (lines 115-128), reached when the
    size guard lets the conversion through. *)
Definition convert (W : World) (image_path : string)
    (pixel_colors : list (list Pixel)) (width height : nat) : M bool :=
  let output_path := output_path_of W image_path in
  success <- create_excel_with_colors W pixel_colors width height output_path ;;
  if success then
    print MsgDone ;;
    print (MsgProcessed width height) ;;
    print (MsgCreated output_path) ;;
    ret true
  else ret false.

(** The size guard of [image_to_excel] (lines 107-113): above the
    threshold the user is asked, and anything but "s"/"S" cancels. *)
Definition size_guard (W : World) (image_path : string)
    (pixel_colors : list (list Pixel)) (width height : nat) : M bool :=
  let total_pixels := (Z.of_nat width * Z.of_nat height)%Z in
  if (threshold <? total_pixels)%Z then
    response <- input (PromptContinue total_pixels) ;;
    if bool_decide (Py.lower response <> "s"%string) then
      print MsgCancelled ;; ret false
    else convert W image_path pixel_colors width height
  else convert W image_path pixel_colors width height.

Definition image_to_excel (W : World) (image_path : string) : M bool :=
  emit (EvExists image_path) ;;
  if negb (os_path_exists W image_path) then
    print (MsgNotExist image_path) ;; ret false
  else if negb (has_valid_extension image_path) then
    print MsgBadExtension ;; ret false
  else
    print (MsgLoading image_path) ;;
    image <- load_image W image_path ;;
    match image with
    | None => ret false
    | Some image =>
        extracted <- get_pixel_colors image ;;
        let '(pixel_colors, width, height) := extracted in
        size_guard W image_path pixel_colors width height
    end.

End Script.

(* ================================================================== *)
(** * scriptV2.py *)
(* ================================================================== *)

(** The local variables the fill loops of scriptV2 update:
    [worksheet], [fill_cache] and [processed]. *)
Abbreviation Locals := (Worksheet * gmap string nat * nat)%type (only parsing).

Module ScriptV2.

(** [if hex_color not in fill_cache: fill_cache[hex_color] = PatternFill(..)] *)
Definition cache_fill (hex_color : string) (fill_cache : gmap string Handle)
  : M (gmap string Handle) :=
  match fill_cache !! hex_color with
  | None =>
      fill <- new_PatternFill hex_color hex_color "solid" ;;
      ret (<[hex_color := fill]> fill_cache)
  | Some _ => ret fill_cache
  end.

(** [fill_cache[hex_color]] *)
Definition cache_get (hex_color : string) (fill_cache : gmap string Handle)
  : M Handle :=
  match fill_cache !! hex_color with
  | Some fill => ret fill
  | None => raise KeyError
  end.

(** Body of the inner fill loop (lines 67-82): one cell, reusing the
    cached fill of its colour. *)
Definition fill_cell (pixel_colors : list (list Pixel)) (y x : nat)
    (locals : Locals) : M Locals :=
  let '(ws, fill_cache, processed) := locals in
  rgb_color <- index2 pixel_colors y x ;;
  let hex_color := rgb_to_hex rgb_color in
  fill_cache <- cache_fill hex_color fill_cache ;;
  fill <- cache_get hex_color fill_cache ;;
  let ws := set_cell_fill ws (y + 1) (x + 1) fill in
  ret (ws, fill_cache, processed + 1).

(** Body of the outer fill loop (lines 66-87): one row, then the
    progress report every tenth row; the report divides by
    [total_cells]. *)
Definition fill_row (pixel_colors : list (list Pixel))
    (width height total_cells y : nat) (locals : Locals) : M Locals :=
  locals <- for_ (range width) (fill_cell pixel_colors y) locals ;;
  let '(ws, fill_cache, processed) := locals in
  (if (y + 1) mod 10 =? 0 then
     (* progress = (processed / total_cells) * 100 *)
     if total_cells =? 0 then raise ZeroDivisionError
     else print (MsgRowsUnique (y + 1) height processed total_cells
                               (size fill_cache))
   else ret tt) ;;
  ret locals.

Definition create_excel_with_colors (W : World)
    (pixel_colors : list (list Pixel)) (width height : nat)
    (output_path : string) : M bool :=
  print MsgCreating ;;
  let worksheet := set_title new_worksheet "Imagen_Pixeles" in
  let fill_cache : gmap string Handle := ∅ in
  worksheet <-
    for_ (range1 width) (fun col ws =>
      letter <- column_letter W col ;;
      ret (set_column_width ws letter (3 # 2)%Q)) worksheet ;;
  worksheet <-
    for_ (range1 height) (fun row ws =>
      ret (set_row_height ws row 12%Q)) worksheet ;;
  let total_cells := width * height in
  let processed := 0 in
  locals <-
    for_ (range height) (fill_row pixel_colors width height total_cells)
         (worksheet, fill_cache, processed) ;;
  let '(worksheet, fill_cache, processed) := locals in
  print (MsgTotalUnique (size fill_cache)) ;;
  let workbook := mkWorkbook worksheet "manual" in
  emit (EvSave workbook output_path) ;;
  if Workbook_save W workbook output_path then
    print (MsgSaved output_path) ;;
    print (MsgNote total_cells) ;;
    ret true
  else
    print MsgSaveError ;; ret false.

(** [reduce_colors(image, max_colors=256)] *)
Definition reduce_colors (W : World) (image : Image) (max_colors : nat)
  : M Image :=
  print (MsgReducing max_colors) ;;
  if bool_decide (mode image <> "P"%string) then
    emit (EvQuantize max_colors) ;;
    match Image_quantize W image max_colors with
    | None => raise LibraryError
    | Some quantized =>
        emit (EvConvert "RGB") ;;
        match Image_convert W quantized "RGB" with
        | None => raise LibraryError
        | Some image' => ret image'
        end
    end
  else ret image.

(** Steps 2 to 4 of [image_to_excel] (lines 149-169), reached when the
    size guard lets the conversion through. *)
Definition convert (W : World) (image_path : string) (image : Image) : M bool :=
  extracted <- get_pixel_colors image ;;
  let '(pixel_colors, width, height) := extracted in
  let output_path := output_path_of W image_path in
  success <- create_excel_with_colors W pixel_colors width height output_path ;;
  if success then
    print MsgDone ;;
    print (MsgProcessed width height) ;;
    print (MsgCreated output_path) ;;
    print (MsgTips 0) ;;
    print (MsgTips 1) ;;
    print (MsgTips 2) ;;
    print (MsgTips 3) ;;
    ret true
  else ret false.

(** The size guard of [image_to_excel] (lines 132-147): above the
    threshold the user chooses; "1" reduces the colours first, "3"
    cancels, anything else continues unchanged. *)
Definition size_guard (W : World) (image_path : string) (image : Image) : M bool :=
  let total_pixels :=
    (Z.of_nat (width_of image) * Z.of_nat (height_of image))%Z in
  if (threshold <? total_pixels)%Z then
    print (MsgPixels total_pixels) ;;
    print MsgRecommend ;;
    print (MsgOption 1) ;;
    print (MsgOption 2) ;;
    print (MsgOption 3) ;;
    response <- input PromptChoice ;;
    let choice := Py.strip response in
    if bool_decide (choice = "1"%string) then
      image <- reduce_colors W image 256 ;;
      convert W image_path image
    else if bool_decide (choice = "3"%string) then
      print MsgCancelled ;; ret false
    else convert W image_path image
  else convert W image_path image.

Definition image_to_excel (W : World) (image_path : string) : M bool :=
  emit (EvExists image_path) ;;
  if negb (os_path_exists W image_path) then
    print (MsgNotExist image_path) ;; ret false
  else if negb (has_valid_extension image_path) then
    print MsgBadExtension ;; ret false
  else
    print (MsgLoading image_path) ;;
    image <- load_image W image_path ;;
    match image with
    | None => ret false
    | Some image =>
        size_guard W image_path image
    end.

End ScriptV2.

(* ================================================================== *)
(** * A concrete environment and concrete inputs *)
(* ================================================================== *)

(** Column names as openpyxl numbers them: A..Z, AA..ZZ, AAA..ZZZ
    (1 to 18278). *)
Fixpoint column_name_go (fuel idx : nat) (acc : string) : string :=
  match fuel with
  | O => acc
  | S fuel' =>
      if (idx =? 0)%nat then acc
      else
        let r := (idx mod 26)%nat in
        let q := (idx / 26)%nat in
        if (r =? 0)%nat
        then column_name_go fuel' (q - 1)%nat (String "Z"%char acc)
        else column_name_go fuel' q (String (ascii_of_nat (r + 64)) acc)
  end.

Definition column_name (col : nat) : option string :=
  if ((1 <=? col) && (col <=? 26 + 26 * 26 + 26 * 26 * 26))%nat
  then Some (column_name_go 3 col "")
  else None.

(** The part of a path before its last dot (the whole path without one). *)
Fixpoint cut_at_last_dot (s : string) : option string :=
  match s with
  | EmptyString => None
  | String a s' =>
      match cut_at_last_dot s' with
      | Some base => Some (String a base)
      | None => if Ascii.eqb a "."%char then Some EmptyString else None
      end
  end.

Definition splitext_base (s : string) : string :=
  match cut_at_last_dot s with Some base => base | None => s end.

(** A world holding one image file at [path]; saving succeeds. *)
Definition one_file_world (path : string) (image : Image) : World :=
  {| os_path_exists := fun p => bool_decide (p = path);
     os_path_splitext := fun p => (splitext_base p, EmptyString);
     Image_open := fun p => if bool_decide (p = path) then Some image else None;
     Image_convert := fun im m => Some (mkImage m (image_size im) (getpixel im));
     Image_quantize := fun im _ => Some (mkImage "P" (image_size im) (getpixel im));
     get_column_letter := column_name;
     Workbook_save := fun _ _ => true |}.

(** A world in which the file exists but [Image.open] raises on it. *)
Definition broken_file_world (path : string) : World :=
  {| os_path_exists := fun p => bool_decide (p = path);
     os_path_splitext := fun p => (splitext_base p, EmptyString);
     Image_open := fun _ => None;
     Image_convert := fun _ _ => None;
     Image_quantize := fun _ _ => None;
     get_column_letter := column_name;
     Workbook_save := fun _ _ => true |}.

Definition red : Pixel := (255, 0, 0)%Z.
Definition green : Pixel := (0, 255, 0)%Z.
Definition blue : Pixel := (0, 0, 255)%Z.

(** The 2x2 scenario grid: red, green / blue, red. *)
Definition grid_2x2 : list (list Pixel) := [[red; green]; [blue; red]].

Definition image_of_grid (w h : nat) (grid : list (list Pixel)) : Image :=
  mkImage "RGB" (w, h)
          (fun xy => default (0, 0, 0)%Z (grid !! snd xy ≫= fun row => row !! fst xy)).

(** A single-colour image of the given size. *)
Definition solid_image (w h : nat) (c : Pixel) : Image :=
  mkImage "RGB" (w, h) (fun _ => c).

Definition empty_store : Store := mkStore [] [] [].

Definition store_with_input (lines : list string) : Store := mkStore [] [] lines.

(* ================================================================== *)
(** * Vocabulary of the specification *)
(* ================================================================== *)

(** The coordinates [(x, y)] of a [w] by [h] grid in row-major order:
    [y] outer, [x] inner. *)
Definition row_major (w h : nat) : list (nat * nat) :=
  flat_map (fun y => map (fun x => (x, y)) (range w)) (range h).

(** The grid [get_pixel_colors] is to build: position [[y][x]] holds the
    pixel read at [(x, y)]. *)
Definition grid_of (image : Image) : list (list Pixel) :=
  map (fun y => map (fun x => getpixel image (x, y)) (range (width_of image)))
      (range (height_of image)).

(** The [getpixel] calls of an event log, oldest first. *)
Definition pixel_visits (es : list Event) : list (nat * nat) :=
  rev (omap (fun e => match e with EvGetPixel x y => Some (x, y) | _ => None end) es).

(** [pixel_colors[y][x]] when both indices are in range. *)
Definition pixel_at (pixel_colors : list (list Pixel)) (y x : nat) : option Pixel :=
  pixel_colors !! y ≫= fun row => row !! x.

(** The grid has an entry at every coordinate the loops visit. *)
Definition grid_covers (pixel_colors : list (list Pixel)) (width height : nat) : Prop :=
  forall y x, y < height -> x < width -> is_Some (pixel_at pixel_colors y x).

(** openpyxl names every column the sizing loop asks for. *)
Definition letters_ok (W : World) (width : nat) : Prop :=
  forall col, 1 <= col <= width -> is_Some (get_column_letter W col).

(** The Color Keys met at the given coordinates, in order. *)
Definition keys_at (pixel_colors : list (list Pixel)) (d : list (nat * nat)) : list string :=
  omap (fun xy => rgb_to_hex <$> pixel_at pixel_colors (snd xy) (fst xy)) d.

(** The Color Keys encountered by a conversion of the grid. *)
Definition color_keys (pixel_colors : list (list Pixel)) (width height : nat) : list string :=
  keys_at pixel_colors (row_major width height).

Definition distinct (keys : list string) : nat :=
  size (list_to_set keys : gset string).

Definition solid_fill (hex_color : string) : PatternFill :=
  mkPatternFill hex_color hex_color "solid".

(** The fill object bound to a cell of a worksheet. *)
Definition fill_at (st : Store) (ws : Worksheet) (row col : nat) : option PatternFill :=
  cells ws !! (row, col) ≫= fun fill => heap st !! fill.

(** The fill colour of a cell: the colour of the fill object bound to it. *)
Definition fill_color_at (st : Store) (ws : Worksheet) (row col : nat) : option string :=
  start_color <$> fill_at st ws row col.

(** The [workbook.save] calls of an event log, most recent first. *)
Definition saves (es : list Event) : list (Workbook * string) :=
  omap (fun e => match e with EvSave wb p => Some (wb, p) | _ => None end) es.

(** The [input] calls of an event log. *)
Definition prompts (es : list Event) : list Msg :=
  omap (fun e => match e with EvInput p => Some p | _ => None end) es.

(** The messages printed, most recent first. *)
Definition printed (es : list Event) : list Msg :=
  omap (fun e => match e with EvPrint m => Some m | _ => None end) es.

Definition is_print (e : Event) : Prop :=
  match e with EvPrint _ => True | _ => False end.

Definition is_print_or_save (e : Event) : Prop :=
  match e with EvPrint _ | EvSave _ _ => True | _ => False end.

(** Events of building and saving a workbook: saving, and printing
    anything but the cancellation notice. *)
Definition is_work_event (e : Event) : Prop :=
  match e with
  | EvPrint MsgCancelled => False
  | EvPrint _ | EvSave _ _ => True
  | _ => False
  end.

(** What [load_image] returns in a given world. *)
Definition decoded (W : World) (image_path : string) : option Image :=
  match Image_open W image_path with
  | None => None
  | Some image =>
      if bool_decide (mode image <> "RGB"%string)
      then Image_convert W image "RGB"
      else Some image
  end.

(** The sizing of a worksheet: every column named for [1..width] has
    width [cw], every row in [1..height] has height [rh], and nothing
    else is sized. *)
Definition sized (W : World) (ws : Worksheet) (width height : nat) (cw rh : Q) : Prop :=
  (forall k u, column_dimensions ws !! k = Some u <->
     u = cw /\ exists col, 1 <= col <= width /\ get_column_letter W col = Some k)
  /\ (forall r u, row_dimensions ws !! r = Some u <-> u = rh /\ 1 <= r <= height).

(** The fill a cell is to carry: inside the image, the solid fill of the
    Color Key of the pixel one row up and one column left; none outside. *)
Definition expected_fill (pixel_colors : list (list Pixel)) (width height : nat)
    (row col : nat) : option PatternFill :=
  if decide (1 <= row <= height /\ 1 <= col <= width)
  then (fun p => solid_fill (rgb_to_hex p)) <$> pixel_at pixel_colors (row - 1) (col - 1)
  else None.

Definition painted (pixel_colors : list (list Pixel)) (width height : nat)
    (st : Store) (ws : Worksheet) : Prop :=
  forall row col, fill_at st ws row col = expected_fill pixel_colors width height row col.

(** Invariant of script.py's fill loops once the coordinates [d] have
    been processed, starting from store [st0] and worksheet [ws0]: one
    fill object was appended per processed pixel, and every bound cell
    holds a fill of its pixel's Color Key. *)
Definition fill_inv_v1 (pixel_colors : list (list Pixel)) (st0 : Store)
    (ws0 : Worksheet) (d : list (nat * nat)) (ws : Worksheet) (st : Store) : Prop :=
  heap st = heap st0 ++ map solid_fill (keys_at pixel_colors d)
  /\ stdin st = stdin st0
  /\ (exists es, events st = es ++ events st0 /\ Forall is_print es)
  /\ title ws = title ws0
  /\ column_dimensions ws = column_dimensions ws0
  /\ row_dimensions ws = row_dimensions ws0
  /\ (forall r c hd, cells ws !! (r, c) = Some hd ->
        exists x y p, (x, y) ∈ d /\ r = y + 1 /\ c = x + 1
                      /\ pixel_at pixel_colors y x = Some p
                      /\ heap st !! hd = Some (solid_fill (rgb_to_hex p)))
  /\ (forall x y, (x, y) ∈ d -> is_Some (cells ws !! (y + 1, x + 1))).

(** Invariant of scriptV2's fill loops: the cache holds exactly the
    Color Keys met so far, each bound to a fill object of that colour,
    one object was constructed per cache entry, and every bound cell
    holds the cached handle of its pixel's Color Key. *)
Definition fill_inv_v2 (pixel_colors : list (list Pixel)) (st0 : Store)
    (ws0 : Worksheet) (d : list (nat * nat)) (locals : Locals)
    (st : Store) : Prop :=
  let '(ws, fill_cache, processed) := locals in
  (exists new, heap st = heap st0 ++ new /\ length new = size fill_cache)
  /\ stdin st = stdin st0
  /\ (exists es, events st = es ++ events st0 /\ Forall is_print es)
  /\ title ws = title ws0
  /\ column_dimensions ws = column_dimensions ws0
  /\ row_dimensions ws = row_dimensions ws0
  /\ processed = length d
  /\ (forall k, is_Some (fill_cache !! k) <-> k ∈ keys_at pixel_colors d)
  /\ (forall k hd, fill_cache !! k = Some hd -> heap st !! hd = Some (solid_fill k))
  /\ (forall r c hd, cells ws !! (r, c) = Some hd ->
        exists x y p, (x, y) ∈ d /\ r = y + 1 /\ c = x + 1
                      /\ pixel_at pixel_colors y x = Some p
                      /\ fill_cache !! rgb_to_hex p = Some hd)
  /\ (forall x y, (x, y) ∈ d -> is_Some (cells ws !! (y + 1, x + 1))).

(** No division by zero in the progress report of scriptV2: the report
    is printed every tenth row and divides by [width * height]. *)
Definition progress_ok (width height : nat) : Prop :=
  0 < width \/ height < 10.
(** The worksheet of the most recent [workbook.save]. *)
Definition saved_worksheet (st : Store) : option Worksheet :=
  (fun s => active s.1) <$> head (saves (events st)).

(** The mapper's offset translation: the cell at row [y + 1], column
    [x + 1] carries the fill of the pixel at [[y][x]], and no other cell
    is bound. *)
Definition offset_mapping (pixel_colors : list (list Pixel)) (width height : nat)
    (st : Store) (ws : Worksheet) : Prop :=
  (forall x y, x < width -> y < height ->
     exists p, pixel_at pixel_colors y x = Some p
               /\ fill_at st ws (y + 1) (x + 1) = Some (solid_fill (rgb_to_hex p)))
  /\ (forall r c, is_Some (cells ws !! (r, c)) <->
                  exists x y, x < width /\ y < height /\ r = y + 1 /\ c = x + 1).

(** Two worksheets with the same column widths and row heights. *)
Definition same_sizing (ws1 ws2 : Worksheet) : Prop :=
  column_dimensions ws1 = column_dimensions ws2
  /\ row_dimensions ws1 = row_dimensions ws2.

(** An image of exactly 10,000 pixels and one of 10,100 pixels. *)
Definition threshold_world : World :=
  one_file_world "image.png" (solid_image 100 100 red).

Definition big_world : World :=
  one_file_world "big.png" (solid_image 101 100 red).

(** The 2x2 scenario: the file [image.png] decodes to [grid_2x2]. *)
Definition scenario_world : World :=
  one_file_world "image.png" (image_of_grid 2 2 grid_2x2).

(** The [Image.open] and [quantize] calls of an event log. *)
Definition opens (es : list Event) : list string :=
  omap (fun e => match e with EvOpen p => Some p | _ => None end) es.

Definition quantizes (es : list Event) : list nat :=
  omap (fun e => match e with EvQuantize n => Some n | _ => None end) es.

(** The error messages printed. *)
Definition errors_printed (es : list Event) : list Msg :=
  filter (fun m => is_error_msg m = true) (printed es).

Definition is_open_or_convert (e : Event) : Prop :=
  match e with EvOpen _ | EvConvert _ => True | _ => False end.

(** Events of a conversion that got past the guard in scriptV2. *)
Definition is_convert_event (e : Event) : Prop :=
  match e with
  | EvPrint MsgCancelled => False
  | EvPrint _ | EvSave _ _ | EvGetPixel _ _ => True
  | _ => False
  end.

(** Any event but a prompt. *)
Definition no_prompt (e : Event) : Prop :=
  match e with EvInput _ => False | _ => True end.

(** The five lines scriptV2 prints before asking for a choice. *)
Definition menu (total : Z) : list Event :=
  [EvPrint (MsgOption 3); EvPrint (MsgOption 2); EvPrint (MsgOption 1);
   EvPrint MsgRecommend; EvPrint (MsgPixels total)].

(** The two scripts. *)
Inductive Variant := V1 | V2.

Definition image_to_excel_of (v : Variant) : World -> string -> M bool :=
  match v with
  | V1 => Script.image_to_excel
  | V2 => ScriptV2.image_to_excel
  end.

Definition guard_prompt (v : Variant) (total : Z) : Msg :=
  match v with
  | V1 => PromptContinue total
  | V2 => PromptChoice
  end.

Definition total_pixels_of (image : Image) : Z :=
  (Z.of_nat (width_of image) * Z.of_nat (height_of image))%Z.

(** The accepted extensions, compared case-insensitively. *)
Definition accepted_extension (image_path : string) : Prop :=
  Py.endswith (Py.lower image_path) ".png" = true
  \/ Py.endswith (Py.lower image_path) ".jpg" = true
  \/ Py.endswith (Py.lower image_path) ".jpeg" = true.

(** The user's answer at the guard that cancels the conversion. *)
Definition cancels (v : Variant) (response : string) : Prop :=
  match v with
  | V1 => Py.lower response <> "s"%string
  | V2 => Py.strip response = "3"%string
  end.

(** The failures [image_to_excel] reports to its caller by returning
    [False]: a missing path, a rejected extension, [load_image] giving
    up ([Image.open] or the conversion to RGB raised inside its [try],
    and it returned [None]), and a cancellation at the guard.  Pixel
    data that cannot be read once [load_image] has returned the image
    is not among them: see [Lazy] below. *)
Inductive Failure := NotFound | BadExtension | LoadFailure | Cancelled.

Definition failure (v : Variant) (W : World) (image_path : string) (st : Store)
    (f : Failure) : Prop :=
  match f with
  | NotFound => os_path_exists W image_path = false
  | BadExtension =>
      os_path_exists W image_path = true /\ ~ accepted_extension image_path
  | LoadFailure =>
      os_path_exists W image_path = true /\ accepted_extension image_path
      /\ decoded W image_path = None
  | Cancelled =>
      os_path_exists W image_path = true /\ accepted_extension image_path
      /\ exists image response rest,
           decoded W image_path = Some image
           /\ (threshold < total_pixels_of image)%Z
           /\ stdin st = response :: rest
           /\ cancels v response
  end.

(** The message that reports each failure. *)
Definition report (f : Failure) (image_path : string) : Msg :=
  match f with
  | NotFound => MsgNotExist image_path
  | BadExtension => MsgBadExtension
  | LoadFailure => MsgLoadError
  | Cancelled => MsgCancelled
  end.


Definition uppercase_char (a : ascii) : bool :=
  let n := Ascii.nat_of_ascii a in (65 <=? n) && (n <=? 90).

(* ================================================================== *)
(** * [main] (identical in both scripts) *)
(* ================================================================== *)

(** What [main] itself prints and asks before it calls [image_to_excel]:
    the three banner lines, the prompt for the path, and the notice that
    no path was given. *)
Inductive MainEvent :=
| MainBanner (line : nat)   (* "=== Conversor de Imagen a Excel ===" and the two lines after it *)
| MainAskPath               (* input("Ingresa la ruta de la imagen: ") *)
| MainNoPath.               (* "No se proporcionó ninguna ruta." *)

(** How [main] ends: argparse leaves through [SystemExit], [main]
    returns, or an exception escapes. *)
Inductive MainOutcome :=
| MainExit
| MainReturn
| MainRaise (e : Exn).

(** [image_to_excel(image_path)] as [main] calls it: the boolean it
    returns is dropped. *)
Definition call_image_to_excel (v : Variant) (W : World) (image_path : string)
    (log : list MainEvent) (st : Store) : MainOutcome * list MainEvent * Store :=
  match image_to_excel_of v W image_path st with
  | (Ret _, st') => (MainReturn, log, st')
  | (Raise e, st') => (MainRaise e, log, st')
  end.

(** [main()], with [sys.argv] as [argv] and [parser.parse_args()] as the
    collaborator [parse_args] ([None]: argparse exits).  The events of
    [main] itself are returned most recent first. *)
Definition main (v : Variant) (W : World)
    (parse_args : list string -> option string) (argv : list string)
    (st : Store) : MainOutcome * list MainEvent * Store :=
  if length argv =? 1 then
    let log := [MainAskPath; MainBanner 2; MainBanner 1; MainBanner 0] in
    match stdin st with
    | [] => (MainRaise EOFError, log, st)
    | line :: rest =>
        let image_path := Py.strip line in
        let st1 := mkStore (events st) (heap st) rest in
        if bool_decide (image_path = ""%string)
        then (MainReturn, MainNoPath :: log, st1)
        else call_image_to_excel v W image_path log st1
    end
  else
    match parse_args argv with
    | None => (MainExit, [], st)
    | Some image_path => call_image_to_excel v W image_path [] st
    end.

(* ================================================================== *)
(** * Further vocabulary and environments *)
(* ================================================================== *)

(** The [convert] calls of an event log. *)
Definition converts (es : list Event) : list string :=
  omap (fun e => match e with EvConvert m => Some m | _ => None end) es.

(** A colour value openpyxl can take as an RGB key: six upper-case
    hexadecimal digits. *)
Definition valid_key (s : string) : Prop :=
  String.length s = 6 /\ string_forall is_upper_hex s = true.

(** Saving to the given path fails whatever the workbook. *)
Definition save_fails (W : World) (path : string) : Prop :=
  forall wb, Workbook_save W wb path = false.

(** Saving to the given path succeeds whatever the workbook. *)
Definition save_succeeds (W : World) (path : string) : Prop :=
  forall wb, Workbook_save W wb path = true.

(** The world of one image file in which saving fails. *)
Definition readonly_world (path : string) (image : Image) : World :=
  {| os_path_exists := os_path_exists (one_file_world path image);
     os_path_splitext := os_path_splitext (one_file_world path image);
     Image_open := Image_open (one_file_world path image);
     Image_convert := Image_convert (one_file_world path image);
     Image_quantize := Image_quantize (one_file_world path image);
     get_column_letter := column_name;
     Workbook_save := fun _ _ => false |}.

(** The world of one image file in which no column can be named. *)
Definition nameless_world (path : string) (image : Image) : World :=
  {| os_path_exists := os_path_exists (one_file_world path image);
     os_path_splitext := os_path_splitext (one_file_world path image);
     Image_open := Image_open (one_file_world path image);
     Image_convert := Image_convert (one_file_world path image);
     Image_quantize := Image_quantize (one_file_world path image);
     get_column_letter := fun _ => None;
     Workbook_save := fun _ _ => true |}.

(** The world of one image file whose colours cannot be reduced. *)
Definition unquantizable_world (path : string) (image : Image) : World :=
  {| os_path_exists := os_path_exists (one_file_world path image);
     os_path_splitext := os_path_splitext (one_file_world path image);
     Image_open := Image_open (one_file_world path image);
     Image_convert := Image_convert (one_file_world path image);
     Image_quantize := fun _ _ => None;
     get_column_letter := column_name;
     Workbook_save := fun _ _ => true |}.

(** What [create_excel_with_colors] may log: its own messages and the
    call to [workbook.save]. *)
Definition is_create_event (e : Event) : Prop :=
  match e with
  | EvPrint (MsgCreating | MsgRows _ _ | MsgRowsUnique _ _ _ _ _
             | MsgTotalUnique _ | MsgSaved _ | MsgNote _ | MsgSaveError)
  | EvSave _ _ => True
  | _ => False
  end.

(** The three channels of a pixel are valid. *)
Definition valid_pixel (p : Pixel) : Prop :=
  channel_ok p.1.1 /\ channel_ok p.1.2 /\ channel_ok p.2.

(** The messages that close a successful conversion, most recent first. *)
Definition completion (v : Variant) (width height : nat) (output_path : string)
  : list Msg :=
  match v with
  | V1 => [MsgCreated output_path; MsgProcessed width height; MsgDone]
  | V2 => [MsgTips 3; MsgTips 2; MsgTips 1; MsgTips 0;
           MsgCreated output_path; MsgProcessed width height; MsgDone]
  end.

(** An argument parser taking the single positional argument. *)
Definition one_argument (argv : list string) : option string :=
  match argv with
  | [_; image_path] => Some image_path
  | _ => None
  end.

(** What [reduce_colors] returns in a given world: a palette image as it
    is, any other image quantized and converted back to RGB. *)
Definition reduced (W : World) (image : Image) (max_colors : nat) : option Image :=
  if bool_decide (mode image <> "P"%string) then
    match Image_quantize W image max_colors with
    | None => None
    | Some quantized => Image_convert W quantized "RGB"
    end
  else Some image.

(** The progress reports of the fill loops. *)
Definition is_progress (m : Msg) : bool :=
  match m with
  | MsgRows _ _ | MsgRowsUnique _ _ _ _ _ => true
  | _ => false
  end.

(** The progress reports of an event log, oldest first. *)
Definition progress_reports (es : list Event) : list Msg :=
  rev (filter (fun m => is_progress m = true) (printed es)).

(** The row counts in [1..height] that are multiples of ten. *)
Definition tenth_rows (height : nat) : list nat :=
  filter (fun n => n mod 10 = 0) (seq 1 height).

(** What scriptV2 reports after row [n]: the cells processed so far out
    of all, and the colours met so far. *)
Definition report_v2 (pixel_colors : list (list Pixel)) (width height n : nat) : Msg :=
  MsgRowsUnique n height (width * n) (width * height)
                (distinct (color_keys pixel_colors width n)).

(* ================================================================== *)
(** * Pixel data read lazily *)
(* ================================================================== *)

(** [Image.open] reads the header of the file, its mode and size; PIL
    reads the pixel data when an operation first needs it.  [convert]
    and [quantize] are calls of the [World] and fail there.
    [image.getpixel] is the third operation that reads the data: on a
    file whose pixel data cannot be read, a truncated file, it raises
    [OSError].  Above, [getpixel] is the pixel access of a decoded
    image and always answers.  In this module [pixels_load image] says
    whether the pixel data of [image] can be read, and [get_pixel_colors]
    and its callers are the functions above with [getpixel] raising
    when it cannot. *)
Module Lazy.

(** [image.getpixel((x, y))] *)
Definition get_pixel (pixels_load : Image -> bool) (image : Image) (x y : nat)
  : M Pixel :=
  emit (EvGetPixel x y) ;;
  if pixels_load image then ret (getpixel image (x, y)) else raise LibraryError.

(** [get_pixel_colors] (lines 24-39) *)
Definition get_pixel_colors (pixels_load : Image -> bool) (image : Image)
  : M (list (list Pixel) * nat * nat) :=
  let '(width, height) := image_size image in
  print (MsgProcessing width height) ;;
  pixel_colors <-
    for_ (range height) (fun y pixel_colors =>
      row_colors <-
        for_ (range width) (fun x row_colors =>
          pixel_color <- get_pixel pixels_load image x y ;;
          ret (row_colors ++ [pixel_color])) [] ;;
      ret (pixel_colors ++ [row_colors])) [] ;;
  ret (pixel_colors, width, height).

Module Script.

(** [image_to_excel] of script.py (lines 84-128) *)
Definition image_to_excel (pixels_load : Image -> bool) (W : World)
    (image_path : string) : M bool :=
  emit (EvExists image_path) ;;
  if negb (os_path_exists W image_path) then
    print (MsgNotExist image_path) ;; ret false
  else if negb (has_valid_extension image_path) then
    print MsgBadExtension ;; ret false
  else
    print (MsgLoading image_path) ;;
    image <- load_image W image_path ;;
    match image with
    | None => ret false
    | Some image =>
        extracted <- get_pixel_colors pixels_load image ;;
        let '(pixel_colors, width, height) := extracted in
        Script.size_guard W image_path pixel_colors width height
    end.

End Script.

Module ScriptV2.

(** Steps 2 to 4 of [image_to_excel] of scriptV2 (lines 149-169) *)
Definition convert (pixels_load : Image -> bool) (W : World) (image_path : string)
    (image : Image) : M bool :=
  extracted <- get_pixel_colors pixels_load image ;;
  let '(pixel_colors, width, height) := extracted in
  let output_path := output_path_of W image_path in
  success <-
    ScriptV2.create_excel_with_colors W pixel_colors width height output_path ;;
  if success then
    print MsgDone ;;
    print (MsgProcessed width height) ;;
    print (MsgCreated output_path) ;;
    print (MsgTips 0) ;;
    print (MsgTips 1) ;;
    print (MsgTips 2) ;;
    print (MsgTips 3) ;;
    ret true
  else ret false.

(** The size guard of scriptV2 (lines 132-147) *)
Definition size_guard (pixels_load : Image -> bool) (W : World)
    (image_path : string) (image : Image) : M bool :=
  let total_pixels :=
    (Z.of_nat (width_of image) * Z.of_nat (height_of image))%Z in
  if (threshold <? total_pixels)%Z then
    print (MsgPixels total_pixels) ;;
    print MsgRecommend ;;
    print (MsgOption 1) ;;
    print (MsgOption 2) ;;
    print (MsgOption 3) ;;
    response <- input PromptChoice ;;
    let choice := Py.strip response in
    if bool_decide (choice = "1"%string) then
      image <- ScriptV2.reduce_colors W image 256 ;;
      convert pixels_load W image_path image
    else if bool_decide (choice = "3"%string) then
      print MsgCancelled ;; ret false
    else convert pixels_load W image_path image
  else convert pixels_load W image_path image.

(** [image_to_excel] of scriptV2 (lines 112-169) *)
Definition image_to_excel (pixels_load : Image -> bool) (W : World)
    (image_path : string) : M bool :=
  emit (EvExists image_path) ;;
  if negb (os_path_exists W image_path) then
    print (MsgNotExist image_path) ;; ret false
  else if negb (has_valid_extension image_path) then
    print MsgBadExtension ;; ret false
  else
    print (MsgLoading image_path) ;;
    image <- load_image W image_path ;;
    match image with
    | None => ret false
    | Some image =>
        size_guard pixels_load W image_path image
    end.

End ScriptV2.

Definition image_to_excel_of (pixels_load : Image -> bool) (v : Variant)
  : World -> string -> M bool :=
  match v with
  | V1 => Script.image_to_excel pixels_load
  | V2 => ScriptV2.image_to_excel pixels_load
  end.

End Lazy.

(** [pixels_load] when the file is truncated: no pixel data can be
    read. *)
Definition truncated : Image -> bool := fun _ => false.

(* ================================================================== *)
(** * The color codec *)
(* ================================================================== *)

Section Codec.
Open Scope Z_scope.

(** A boolean property checked on all 256 channel values holds on
    every valid channel. *)
Lemma channel_cases (P : Z -> bool) :
  forallb P (map Z.of_nat (seq 0 256)) = true ->
  forall c, channel_ok c -> P c = true.
Proof.
  intros Hall c [Hlo Hhi].
  rewrite forallb_forall in Hall. apply Hall.
  rewrite <- (Z2Nat.id c) by exact Hlo.
  apply in_map, in_seq. lia.
Qed.

Lemma format_02X_channel c :
  channel_ok c -> Py.format_02X c = two_digits c.
Proof.
  intros Hc.
  pose proof (channel_cases
    (fun c => bool_decide (Py.format_02X c = two_digits c))) as H.
  specialize (H ltac:(vm_compute; reflexivity) c Hc).
  by apply bool_decide_eq_true_1 in H.
Qed.

Lemma parse_two_digits c :
  channel_ok c ->
  parse_hex2 (Py.hex_digit (c / 16)) (Py.hex_digit (c mod 16)) = Some c.
Proof.
  intros Hc.
  pose proof (channel_cases
    (fun c => bool_decide
       (parse_hex2 (Py.hex_digit (c / 16)) (Py.hex_digit (c mod 16)) = Some c))) as H.
  specialize (H ltac:(vm_compute; reflexivity) c Hc).
  by apply bool_decide_eq_true_1 in H.
Qed.

Lemma two_digits_upper_hex c :
  channel_ok c -> string_forall is_upper_hex (two_digits c) = true.
Proof.
  intros Hc.
  pose proof (channel_cases
    (fun c => string_forall is_upper_hex (two_digits c))) as H.
  apply H; [vm_compute; reflexivity | exact Hc].
Qed.

Lemma rgb_to_hex_channels r g b :
  channel_ok r -> channel_ok g -> channel_ok b ->
  rgb_to_hex (r, g, b) = two_digits r +:+ two_digits g +:+ two_digits b.
Proof.
  intros Hr Hg Hb. unfold rgb_to_hex.
  by rewrite !format_02X_channel.
Qed.

Lemma hex_to_rgb_two_digits r g b :
  channel_ok r -> channel_ok g -> channel_ok b ->
  hex_to_rgb (two_digits r +:+ two_digits g +:+ two_digits b) = Some (r, g, b).
Proof.
  intros Hr Hg Hb. cbv [two_digits String.append hex_to_rgb].
  by rewrite !parse_two_digits.
Qed.

End Codec.

(** C2.  For channels in [0,255], [rgb_to_hex] yields six uppercase
    hexadecimal characters, namely the two-digit zero-padded renderings of
    red, green and blue in that order; reading the three two-digit fields
    back returns the channels; hence equal keys come from equal pixels. *)
Theorem rgb_to_hex_roundtrip (r g b : Z) :
  channel_ok r -> channel_ok g -> channel_ok b ->
  String.length (rgb_to_hex (r, g, b)) = 6
  /\ string_forall is_upper_hex (rgb_to_hex (r, g, b)) = true
  /\ rgb_to_hex (r, g, b) = two_digits r +:+ two_digits g +:+ two_digits b
  /\ hex_to_rgb (rgb_to_hex (r, g, b)) = Some (r, g, b)
  /\ (forall r' g' b',
        channel_ok r' -> channel_ok g' -> channel_ok b' ->
        rgb_to_hex (r', g', b') = rgb_to_hex (r, g, b) ->
        (r', g', b') = (r, g, b)).
Proof.
  intros Hr Hg Hb.
  rewrite rgb_to_hex_channels by assumption.
  split_and!.
  - reflexivity.
  - pose proof (two_digits_upper_hex r Hr) as H1.
    pose proof (two_digits_upper_hex g Hg) as H2.
    pose proof (two_digits_upper_hex b Hb) as H3.
    cbv [two_digits String.append string_forall] in *.
    rewrite !andb_true_iff in *. tauto.
  - reflexivity.
  - by apply hex_to_rgb_two_digits.
  - intros r' g' b' Hr' Hg' Hb' Heq.
    rewrite rgb_to_hex_channels in Heq by assumption.
    apply (f_equal hex_to_rgb) in Heq.
    rewrite !hex_to_rgb_two_digits in Heq by assumption.
    congruence.
Qed.

Lemma rgb_to_hex_roundtrip_witness :
  hex_to_rgb (rgb_to_hex (255, 0, 10)%Z) = Some (255, 0, 10)%Z.
Proof.
  apply (rgb_to_hex_roundtrip 255 0 10); unfold channel_ok; lia.
Defined.

(* ================================================================== *)
(** * Reasoning about the monad *)
(* ================================================================== *)

Lemma bind_Ret {A B} (m : M A) (k : A -> M B) st a st1 :
  m st = (Ret a, st1) -> bind m k st = k a st1.
Proof. unfold bind. by intros ->. Qed.

Lemma bind_Raise {A B} (m : M A) (k : A -> M B) st e st1 :
  m st = (Raise e, st1) -> bind m k st = (Raise e, st1).
Proof. unfold bind. by intros ->. Qed.

(** The loop rule: an invariant indexed by the list of indices already
    processed, kept by every iteration, holds of the whole loop, and the
    loop completes without raising. *)
Lemma for_invariant {S : Type} (I : list nat -> S -> Store -> Prop)
    (body : nat -> S -> M S) (xs : list nat) :
  (forall d x s st, x ∈ xs -> I d s st ->
     exists s' st', body x s st = (Ret s', st') /\ I (d ++ [x]) s' st') ->
  forall d s st, I d s st ->
    exists s' st', for_ xs body s st = (Ret s', st') /\ I (d ++ xs) s' st'.
Proof.
  induction xs as [|x xs IH]; intros Hbody d s st HI.
  - exists s, st. by rewrite app_nil_r.
  - destruct (Hbody d x s st) as (s1 & st1 & Hrun & HI1); [left | done |].
    destruct (IH (fun d x s st Hx => Hbody d x s st (list_elem_of_further _ _ _ Hx))
                 (d ++ [x]) s1 st1 HI1) as (s2 & st2 & Hrun2 & HI2).
    exists s2, st2. split.
    + cbn [for_]. by rewrite (bind_Ret _ _ _ _ _ Hrun).
    + by rewrite <- app_assoc in HI2.
Qed.

(** ** Frames on the event log *)

Lemma emits_ret {A} P (a : A) : emits P (ret a).
Proof. intros st. by exists []. Qed.

Lemma emits_raise {A} P e : emits P (@raise A e).
Proof. intros st. by exists []. Qed.

Lemma emits_bind {A B} P (m : M A) (k : A -> M B) :
  emits P m -> (forall a, emits P (k a)) -> emits P (bind m k).
Proof.
  intros Hm Hk st. unfold bind.
  destruct (Hm st) as (es1 & E1 & F1).
  destruct (m st) as [[a|e] st1]; cbn [snd] in *.
  - destruct (Hk a st1) as (es2 & E2 & F2).
    exists (es2 ++ es1). rewrite E2, E1, app_assoc. split; [done|].
    by apply Forall_app.
  - by exists es1.
Qed.

Lemma emits_for {S} P (body : nat -> S -> M S) xs :
  (forall x s, emits P (body x s)) -> forall s, emits P (for_ xs body s).
Proof.
  intros Hbody. induction xs as [|x xs IH]; intros s; cbn [for_].
  - apply emits_ret.
  - apply emits_bind; [apply Hbody | exact IH].
Qed.

Lemma emits_emit P e : P e -> emits P (emit e).
Proof. intros He st. exists [e]. split; [done|]. by constructor. Qed.

Lemma emits_print P m : P (EvPrint m) -> emits P (print m).
Proof. apply emits_emit. Qed.

Lemma emits_input P p : P (EvInput p) -> emits P (input p).
Proof.
  intros He st. exists [EvInput p]. unfold input.
  split; [by destruct (stdin st) | by constructor].
Qed.

Lemma emits_new_PatternFill P a b c : emits P (new_PatternFill a b c).
Proof. intros st. by exists []. Qed.

Lemma emits_index2 P g y x : emits P (index2 g y x).
Proof.
  unfold index2. destruct (g !! y) as [row|]; [|apply emits_raise].
  destruct (row !! x); [apply emits_ret | apply emits_raise].
Qed.

Lemma emits_column_letter P W col : emits P (column_letter W col).
Proof.
  unfold column_letter.
  destruct (get_column_letter W col); [apply emits_ret | apply emits_raise].
Qed.

Lemma emits_when P (b : bool) m : emits P m -> emits P (when b m).
Proof. destruct b; [done | intros _; apply emits_ret]. Qed.

Lemma emits_weaken {A} (P Q : Event -> Prop) (m : M A) :
  (forall e, P e -> Q e) -> emits P m -> emits Q m.
Proof.
  intros HPQ Hm st. destruct (Hm st) as (es & E & F).
  exists es. split; [done|]. eapply Forall_impl; eauto.
Qed.

(** Decomposing a goal [emits P m] along the structure of [m]. *)
Ltac emits_step :=
  lazymatch goal with
  | |- emits _ (bind _ _) => apply emits_bind; [|intros ?]
  | |- emits _ (ret _) => apply emits_ret
  | |- emits _ (raise _) => apply emits_raise
  | |- emits _ (for_ _ _ _) => apply emits_for; intros ? ?
  | |- emits _ (print _) => apply emits_print; exact I
  | |- emits _ (emit _) => apply emits_emit; exact I
  | |- emits _ (input _) => apply emits_input; exact I
  | |- emits _ (new_PatternFill _ _ _) => apply emits_new_PatternFill
  | |- emits _ (index2 _ _ _) => apply emits_index2
  | |- emits _ (column_letter _ _) => apply emits_column_letter
  | |- emits _ (when _ _) => apply emits_when
  | |- emits _ (if ?b then _ else _) => destruct b
  | |- emits _ (match ?x with _ => _ end) => destruct x
  | |- emits _ (let '(_, _) := ?p in _) => destruct p
  end.

Ltac solve_emits := repeat emits_step.

(* ================================================================== *)
(** * The pixel grid extractor *)
(* ================================================================== *)

Lemma row_loop_run (image : Image) (y : nat) (xs : list nat) :
  forall row st,
    for_ xs (fun x row_colors =>
               emit (EvGetPixel x y) ;;
               let pixel_color := getpixel image (x, y) in
               ret (row_colors ++ [pixel_color])) row st
    = (Ret (row ++ map (fun x => getpixel image (x, y)) xs),
       mkStore (rev (map (fun x => EvGetPixel x y) xs) ++ events st)
               (heap st) (stdin st)).
Proof.
  induction xs as [|x xs IH]; intros row st.
  - cbn. rewrite app_nil_r. by destruct st.
  - cbn [for_]. erewrite bind_Ret by reflexivity.
    rewrite IH. cbn. by rewrite <- !app_assoc.
Qed.

Lemma grid_loop_run (image : Image) (w : nat) (ys : list nat) :
  forall grid st,
    for_ ys (fun y pixel_colors =>
               row_colors <-
                 for_ (range w) (fun x row_colors =>
                   emit (EvGetPixel x y) ;;
                   let pixel_color := getpixel image (x, y) in
                   ret (row_colors ++ [pixel_color])) [] ;;
               ret (pixel_colors ++ [row_colors])) grid st
    = (Ret (grid ++ map (fun y => map (fun x => getpixel image (x, y)) (range w)) ys),
       mkStore (rev (flat_map (fun y => map (fun x => EvGetPixel x y) (range w)) ys)
                  ++ events st)
               (heap st) (stdin st)).
Proof.
  induction ys as [|y ys IH]; intros grid st.
  - cbn. rewrite app_nil_r. by destruct st.
  - cbn [for_]. erewrite bind_Ret; last first.
    { erewrite bind_Ret by apply row_loop_run. reflexivity. }
    rewrite IH. cbn [events heap stdin flat_map map].
    rewrite rev_app_distr. repeat rewrite <- app_assoc. reflexivity.
Qed.

Lemma visits_row_major (w : nat) (ys : list nat) :
  flat_map (fun y => map (fun x => EvGetPixel x y) (range w)) ys
  = map (fun xy => EvGetPixel xy.1 xy.2)
        (flat_map (fun y => map (fun x => (x, y)) (range w)) ys).
Proof.
  induction ys as [|y ys IH]; [done|].
  cbn [flat_map]. rewrite map_app, map_map. by rewrite IH.
Qed.

(** [get_pixel_colors] in closed form: it never raises, returns the grid
    of the image with the image's size, and logs one [getpixel] per
    coordinate after its progress message. *)
Lemma get_pixel_colors_run (image : Image) (st : Store) :
  get_pixel_colors image st
  = (Ret (grid_of image, width_of image, height_of image),
     mkStore (rev (map (fun xy => EvGetPixel xy.1 xy.2)
                       (row_major (width_of image) (height_of image)))
                ++ EvPrint (MsgProcessing (width_of image) (height_of image))
                     :: events st)
             (heap st) (stdin st)).
Proof.
  unfold get_pixel_colors, grid_of, width_of, height_of, row_major.
  destruct (image_size image) as [w h]. cbn [fst snd].
  erewrite bind_Ret by reflexivity.
  erewrite bind_Ret by apply grid_loop_run.
  cbn [events heap stdin app]. by rewrite visits_row_major.
Qed.

Lemma row_major_elem w h x y :
  (x, y) ∈ row_major w h <-> x < w /\ y < h.
Proof.
  unfold row_major, range. rewrite list_elem_of_In, in_flat_map. split.
  - intros (y' & Hy & Hx). apply in_map_iff in Hx as (x' & [= <- <-] & Hx).
    apply in_seq in Hy, Hx. lia.
  - intros [Hx Hy]. exists y. split; [apply in_seq; lia|].
    apply in_map_iff. exists x. split; [done | apply in_seq; lia].
Qed.

Lemma row_major_NoDup w h : NoDup (row_major w h).
Proof.
  unfold row_major, range. generalize 0 at 2. intros y0.
  revert y0. induction h as [|h IH]; intros y0; cbn; [constructor|].
  apply NoDup_app. split_and!.
  - apply NoDup_fmap_2; [by intros ?? [=] | apply NoDup_seq].
  - intros [x y] Hx Hy. apply list_elem_of_In, in_map_iff in Hx as (? & [= <- <-] & _).
    apply list_elem_of_In, in_flat_map in Hy as (y' & Hy' & Hin).
    apply in_map_iff in Hin as (? & [= _ ->] & _).
    apply in_seq in Hy'. lia.
  - apply IH.
Qed.

Lemma pixel_visits_app es1 es2 :
  pixel_visits (es1 ++ es2) = pixel_visits es2 ++ pixel_visits es1.
Proof. unfold pixel_visits. by rewrite omap_app, rev_app_distr. Qed.

Lemma pixel_visits_rev_map (d : list (nat * nat)) :
  pixel_visits (rev (map (fun xy => EvGetPixel xy.1 xy.2) d)) = d.
Proof.
  unfold pixel_visits. induction d as [|[x y] d IH]; [done|].
  cbn [map rev fst snd]. rewrite omap_app, rev_app_distr. cbn.
  by rewrite IH.
Qed.

Lemma grid_of_lookup image y x :
  y < height_of image -> x < width_of image ->
  pixel_at (grid_of image) y x = Some (getpixel image (x, y)).
Proof.
  intros Hy Hx. unfold pixel_at, grid_of, range.
  rewrite list_lookup_fmap, lookup_seq_lt by done. cbn.
  by rewrite list_lookup_fmap, lookup_seq_lt by done.
Qed.

(** C3.  [get_pixel_colors] returns, without raising, a grid with
    [height] rows of [width] entries together with the image's size; the
    entry at [[y][x]] is the pixel read at [(x, y)]; and its [getpixel]
    calls are exactly the coordinates of the image in row-major order
    ([y] outer, [x] inner), each in-range coordinate once and no other. *)
Theorem get_pixel_colors_grid (image : Image) (st : Store) :
  exists grid st',
    get_pixel_colors image st = (Ret (grid, width_of image, height_of image), st')
    /\ length grid = height_of image
    /\ (forall row, row ∈ grid -> length row = width_of image)
    /\ (forall x y, x < width_of image -> y < height_of image ->
          pixel_at grid y x = Some (getpixel image (x, y)))
    /\ pixel_visits (events st')
       = pixel_visits (events st) ++ row_major (width_of image) (height_of image)
    /\ NoDup (row_major (width_of image) (height_of image))
    /\ (forall x y, (x, y) ∈ row_major (width_of image) (height_of image)
                    <-> x < width_of image /\ y < height_of image)
    /\ heap st' = heap st /\ stdin st' = stdin st.
Proof.
  eexists _, _. split; [apply get_pixel_colors_run|].
  split_and!.
  - unfold grid_of, range. by rewrite length_map, length_seq.
  - intros row Hrow. unfold grid_of in Hrow.
    apply list_elem_of_fmap in Hrow as (y & -> & _).
    unfold range. by rewrite length_map, length_seq.
  - intros x y Hx Hy. by apply grid_of_lookup.
  - cbn [events]. rewrite pixel_visits_app. cbn [pixel_visits omap].
    change (pixel_visits (events st) ++ ?l = _)
      with (pixel_visits (events st) ++ l = pixel_visits (events st) ++ row_major (width_of image) (height_of image)).
    f_equal. apply pixel_visits_rev_map.
  - apply row_major_NoDup.
  - intros x y. apply row_major_elem.
  - done.
  - done.
Qed.

(* ================================================================== *)
(** * Sizing the columns and rows *)
(* ================================================================== *)

Lemma range1_elem n x : x ∈ range1 n <-> 1 <= x <= n.
Proof. unfold range1. rewrite list_elem_of_In, in_seq. lia. Qed.

Lemma range_elem n x : x ∈ range n <-> x < n.
Proof. unfold range. rewrite list_elem_of_In, in_seq. lia. Qed.

Lemma column_loop_run (W : World) (v : Q) (w : nat) (ws : Worksheet) (st : Store) :
  letters_ok W w ->
  column_dimensions ws = ∅ ->
  exists ws',
    for_ (range1 w) (fun col ws =>
      letter <- column_letter W col ;;
      ret (set_column_width ws letter v)) ws st = (Ret ws', st)
    /\ title ws' = title ws
    /\ row_dimensions ws' = row_dimensions ws
    /\ cells ws' = cells ws
    /\ (forall k u, column_dimensions ws' !! k = Some u <->
          u = v /\ exists col, 1 <= col <= w /\ get_column_letter W col = Some k).
Proof.
  intros Hok Hempty.
  pose (I := fun (d : list nat) (ws' : Worksheet) (st' : Store) =>
    st' = st /\ title ws' = title ws /\ row_dimensions ws' = row_dimensions ws
    /\ cells ws' = cells ws
    /\ (forall k u, column_dimensions ws' !! k = Some u <->
          u = v /\ exists col, col ∈ d /\ get_column_letter W col = Some k)).
  edestruct (for_invariant I) with (d := @nil nat) as (ws' & st' & Hrun & HI);
    last first.
  - destruct HI as (-> & Ht & Hr & Hc & Hcd).
    exists ws'. split; [exact Hrun|]. split_and!; try done.
    intros k u. rewrite Hcd. cbn [app].
    split; intros [-> (c & Hc' & Hg)]; (split; [done|]); exists c;
      (split; [by apply range1_elem | done]).
  - unfold I. split_and!; try done.
    intros k u. rewrite Hempty, lookup_empty. split; [done|].
    intros (_ & col & Hcol & _). by apply elem_of_nil in Hcol.
  - intros d col ws1 st1 Hcol (-> & Ht & Hr & Hc & Hcd).
    apply range1_elem in Hcol. destruct (Hok col Hcol) as [letter Hl].
    eexists _, _. split.
    { unfold column_letter. rewrite Hl. reflexivity. }
    split_and!; try done.
    intros k u. cbn [set_column_width column_dimensions].
    rewrite lookup_insert. case_decide as Hk.
    + subst k. split.
      * intros [= <-]. split; [done|]. exists col. split; [|done].
        apply elem_of_app. right. by apply list_elem_of_singleton.
      * intros [-> _]. done.
    + rewrite Hcd. split.
      * intros [-> (c & Hc' & Hg)]. split; [done|]. exists c. split; [|done].
        apply elem_of_app. by left.
      * intros [-> (c & Hc' & Hg)]. split; [done|]. exists c. split; [|done].
        apply elem_of_app in Hc' as [Hc'|Hc']; [done|].
        apply list_elem_of_singleton in Hc'. subst c. congruence.
Qed.

Lemma row_loop_sizes (v : Q) (h : nat) (ws : Worksheet) (st : Store) :
  row_dimensions ws = ∅ ->
  exists ws',
    for_ (range1 h) (fun row ws => ret (set_row_height ws row v)) ws st = (Ret ws', st)
    /\ title ws' = title ws
    /\ column_dimensions ws' = column_dimensions ws
    /\ cells ws' = cells ws
    /\ (forall r u, row_dimensions ws' !! r = Some u <-> u = v /\ 1 <= r <= h).
Proof.
  intros Hempty.
  pose (I := fun (d : list nat) (ws' : Worksheet) (st' : Store) =>
    st' = st /\ title ws' = title ws
    /\ column_dimensions ws' = column_dimensions ws
    /\ cells ws' = cells ws
    /\ (forall r u, row_dimensions ws' !! r = Some u <-> u = v /\ r ∈ d)).
  edestruct (for_invariant I) with (d := @nil nat) as (ws' & st' & Hrun & HI);
    last first.
  - destruct HI as (-> & Ht & Hc & Hce & Hrd).
    exists ws'. split; [exact Hrun|]. split_and!; try done.
    intros r u. rewrite Hrd. cbn [app]. by rewrite range1_elem.
  - unfold I. split_and!; try done.
    intros r u. rewrite Hempty, lookup_empty. split; [done|].
    intros [_ Hr]. by apply elem_of_nil in Hr.
  - intros d row ws1 st1 _ (-> & Ht & Hc & Hce & Hrd).
    eexists _, _. split; [reflexivity|].
    split_and!; try done.
    intros r u. cbn [set_row_height row_dimensions].
    rewrite lookup_insert, elem_of_app, list_elem_of_singleton.
    case_decide as Hk.
    + subst r. split; [intros [= <-]; auto | by intros [-> _]].
    + rewrite Hrd. split; [intros [-> ?]; auto | intros [-> [?|?]]; [done | congruence]].
Qed.

(* ================================================================== *)
(** * The fill loops of script.py *)
(* ================================================================== *)

Lemma keys_at_snoc grid d x y p :
  pixel_at grid y x = Some p ->
  keys_at grid (d ++ [(x, y)]) = keys_at grid d ++ [rgb_to_hex p].
Proof.
  intros Hp. unfold keys_at. rewrite omap_app. cbn. by rewrite Hp.
Qed.

Lemma index2_run grid y x p st :
  pixel_at grid y x = Some p -> index2 grid y x st = (Ret p, st).
Proof.
  unfold pixel_at, index2. destruct (grid !! y) as [row|]; [|done].
  cbn. by intros ->.
Qed.

Lemma fill_cell_v1 grid st0 ws0 d y x p ws st :
  fill_inv_v1 grid st0 ws0 d ws st ->
  pixel_at grid y x = Some p ->
  exists ws' st',
    Script.fill_cell grid y x ws st = (Ret ws', st')
    /\ fill_inv_v1 grid st0 ws0 (d ++ [(x, y)]) ws' st'.
Proof.
  intros (Hheap & Hin & Hev & Ht & Hcd & Hrd & Hcells & Hsome) Hp.
  eexists _, _. split.
  { unfold Script.fill_cell.
    erewrite bind_Ret by (by apply index2_run).
    erewrite bind_Ret by reflexivity. reflexivity. }
  unfold fill_inv_v1. cbn [heap stdin events set_cell_fill title
    column_dimensions row_dimensions cells].
  split_and!; try done.
  - rewrite (keys_at_snoc _ _ _ _ _ Hp), map_app, Hheap, app_assoc. done.
  - intros r c hd. rewrite lookup_insert. case_decide as Hk.
    + injection Hk as <- <-. intros [= <-].
      exists x, y, p. split_and!; try done.
      * apply elem_of_app. right. by apply list_elem_of_singleton.
      * by rewrite lookup_app_r, Nat.sub_diag.
    + intros Hc. destruct (Hcells r c hd Hc) as (x' & y' & p' & ? & ? & ? & ? & Hh).
      exists x', y', p'. split_and!; try done.
      * apply elem_of_app. by left.
      * by apply lookup_app_l_Some.
  - intros x' y' Hd. rewrite lookup_insert. case_decide; [by eexists|].
    apply elem_of_app in Hd as [Hd|Hd]; [by apply Hsome|].
    apply list_elem_of_singleton in Hd. congruence.
Qed.

Lemma fill_row_v1 grid st0 ws0 d w h y ws st :
  fill_inv_v1 grid st0 ws0 d ws st ->
  (forall x, x < w -> is_Some (pixel_at grid y x)) ->
  exists ws' st',
    Script.fill_row grid w h y ws st = (Ret ws', st')
    /\ fill_inv_v1 grid st0 ws0 (d ++ map (fun x => (x, y)) (range w)) ws' st'.
Proof.
  intros Hinv Hrow.
  pose (I := fun (dx : list nat) (ws' : Worksheet) (st' : Store) =>
    fill_inv_v1 grid st0 ws0 (d ++ map (fun x => (x, y)) dx) ws' st').
  destruct (for_invariant I (Script.fill_cell grid y) (range w)) with (d := @nil nat)
    (s := ws) (st := st) as (ws1 & st1 & Hrun & HI).
  - intros dx x ws' st' Hx HI. apply range_elem in Hx.
    destruct (Hrow x Hx) as [p Hp].
    destruct (fill_cell_v1 _ _ _ _ _ _ _ _ _ HI Hp) as (ws2 & st2 & Hrun & HI2).
    exists ws2, st2. split; [done|].
    unfold I. by rewrite map_app, app_assoc.
  - unfold I. cbn [map]. by rewrite app_nil_r.
  - unfold I in HI. cbn [app] in HI.
    unfold Script.fill_row. erewrite bind_Ret by exact Hrun.
    destruct ((y + 1) mod 10 =? 0); cbn [when].
    + eexists _, _. split; [reflexivity|].
      destruct HI as (? & ? & (es & Hes & Hf) & ? & ? & ? & ? & ?).
      unfold fill_inv_v1. cbn [heap stdin events].
      split_and!; try done.
      exists (EvPrint (MsgRows (y + 1) h) :: es).
      split; [by rewrite Hes | by constructor].
    + eexists _, _. split; [reflexivity|]. done.
Qed.

Lemma fill_loop_v1 grid st0 ws0 w h :
  grid_covers grid w h ->
  cells ws0 = ∅ ->
  exists ws' st',
    for_ (range h) (Script.fill_row grid w h) ws0 st0 = (Ret ws', st')
    /\ fill_inv_v1 grid st0 ws0 (row_major w h) ws' st'.
Proof.
  intros Hcov Hempty.
  pose (I := fun (dy : list nat) (ws' : Worksheet) (st' : Store) =>
    fill_inv_v1 grid st0 ws0
      (flat_map (fun y => map (fun x => (x, y)) (range w)) dy) ws' st').
  destruct (for_invariant I (Script.fill_row grid w h) (range h)) with (d := @nil nat)
    (s := ws0) (st := st0) as (ws1 & st1 & Hrun & HI).
  - intros dy y ws' st' Hy HI. apply range_elem in Hy.
    destruct (fill_row_v1 grid st0 ws0 _ w h y ws' st' HI) as (ws2 & st2 & Hrun & HI2).
    { intros x Hx. by apply Hcov. }
    exists ws2, st2. split; [done|].
    unfold I. rewrite flat_map_app. cbn [flat_map]. by rewrite app_nil_r.
  - unfold I, fill_inv_v1. cbn [flat_map keys_at omap map].
    split_and!; try done.
    + by rewrite app_nil_r.
    + by exists [].
    + intros r c hd. by rewrite Hempty, lookup_empty.
    + intros x y Hxy. by apply elem_of_nil in Hxy.
  - exists ws1, st1. split; [done|]. exact HI.
Qed.

(** From the invariant at the end of the loops to the contents of the
    cells: every cell carries the fill expected of its position. *)
Lemma fill_inv_v1_painted grid st0 ws0 w h ws st :
  fill_inv_v1 grid st0 ws0 (row_major w h) ws st ->
  painted grid w h st ws.
Proof.
  intros (_ & _ & _ & _ & _ & _ & Hcells & Hsome) r c.
  unfold fill_at, expected_fill. case_decide as Hin.
  - assert ((c - 1, r - 1) ∈ row_major w h) as Hd by (apply row_major_elem; lia).
    destruct (Hsome _ _ Hd) as [hd Hhd].
    replace (r - 1 + 1) with r in Hhd by lia.
    replace (c - 1 + 1) with c in Hhd by lia.
    rewrite Hhd. cbn.
    destruct (Hcells _ _ _ Hhd) as (x & y & p & _ & -> & -> & Hp & Hh).
    replace (y + 1 - 1) with y by lia. replace (x + 1 - 1) with x by lia.
    by rewrite Hp, Hh.
  - destruct (cells ws !! (r, c)) as [hd|] eqn:Hhd; [|done].
    destruct (Hcells _ _ _ Hhd) as (x & y & p & Hd & -> & -> & _).
    apply row_major_elem in Hd. lia.
Qed.

(** Exactly the cells of the image are bound. *)
Lemma fill_inv_v1_populated grid st0 ws0 w h ws st :
  fill_inv_v1 grid st0 ws0 (row_major w h) ws st ->
  forall r c, is_Some (cells ws !! (r, c)) <-> 1 <= r <= h /\ 1 <= c <= w.
Proof.
  intros (_ & _ & _ & _ & _ & _ & Hcells & Hsome) r c. split.
  - intros [hd Hhd].
    destruct (Hcells _ _ _ Hhd) as (x & y & p & Hd & -> & -> & _).
    apply row_major_elem in Hd. lia.
  - intros Hin.
    assert ((c - 1, r - 1) ∈ row_major w h) as Hd by (apply row_major_elem; lia).
    apply Hsome in Hd.
    replace (r - 1 + 1) with r in Hd by lia.
    by replace (c - 1 + 1) with c in Hd by lia.
Qed.

(* ================================================================== *)
(** * The fill loops of scriptV2.py *)
(* ================================================================== *)

(** Resolving a Color Key: the cache afterwards binds the key, and a fill
    object is constructed only when the key was absent. *)
Lemma cache_fill_hit k (cache : gmap string nat) hd st :
  cache !! k = Some hd ->
  ScriptV2.cache_fill k cache st = (Ret cache, st).
Proof. unfold ScriptV2.cache_fill. by intros ->. Qed.

Lemma cache_fill_miss k (cache : gmap string nat) st :
  cache !! k = None ->
  ScriptV2.cache_fill k cache st
  = (Ret (<[k := length (heap st)]> cache),
     mkStore (events st) (heap st ++ [solid_fill k]) (stdin st)).
Proof. unfold ScriptV2.cache_fill. by intros ->. Qed.

Lemma cache_get_hit k (cache : gmap string nat) hd st :
  cache !! k = Some hd -> ScriptV2.cache_get k cache st = (Ret hd, st).
Proof. unfold ScriptV2.cache_get. by intros ->. Qed.

Lemma fill_cell_v2 grid st0 ws0 d y x p locals st :
  fill_inv_v2 grid st0 ws0 d locals st ->
  pixel_at grid y x = Some p ->
  exists locals' st',
    ScriptV2.fill_cell grid y x locals st = (Ret locals', st')
    /\ fill_inv_v2 grid st0 ws0 (d ++ [(x, y)]) locals' st'.
Proof.
  destruct locals as [[ws cache] processed].
  intros ((new & Hheap & Hlen) & Hin & Hev & Ht & Hcd & Hrd & Hproc & Hdom
          & Hobj & Hcells & Hsome) Hp.
  unfold ScriptV2.fill_cell.
  erewrite bind_Ret by (by apply index2_run).
  destruct (cache !! rgb_to_hex p) as [hd|] eqn:Hk.
  - (* the colour is cached: its fill is reused *)
    erewrite bind_Ret by (by eapply cache_fill_hit).
    erewrite bind_Ret by (by eapply cache_get_hit).
    eexists _, _. split; [reflexivity|].
    unfold fill_inv_v2. cbn [set_cell_fill title column_dimensions
      row_dimensions cells].
    split_and!; try done.
    + by exists new.
    + rewrite length_app. cbn. lia.
    + intros k. rewrite Hdom, (keys_at_snoc _ _ _ _ _ Hp), elem_of_app,
        list_elem_of_singleton.
      split; [by left | intros [?| ->]; [done|]].
      apply Hdom. by eexists.
    + intros r c hd'. rewrite lookup_insert. case_decide as Heq.
      * injection Heq as <- <-. intros [= <-].
        exists x, y, p. split_and!; try done.
        apply elem_of_app. right. by apply list_elem_of_singleton.
      * intros Hc. destruct (Hcells r c hd' Hc) as (x' & y' & p' & ? & ? & ? & ? & ?).
        exists x', y', p'. split_and!; try done.
        apply elem_of_app. by left.
    + intros x' y' Hd. rewrite lookup_insert. case_decide; [by eexists|].
      apply elem_of_app in Hd as [Hd|Hd]; [by apply Hsome|].
      apply list_elem_of_singleton in Hd. congruence.
  - (* a new colour: one fill object is constructed and cached *)
    erewrite bind_Ret by (by apply cache_fill_miss).
    erewrite bind_Ret by (eapply cache_get_hit; apply lookup_insert_eq).
    eexists _, _. split; [reflexivity|].
    unfold fill_inv_v2. cbn [heap stdin events set_cell_fill title
      column_dimensions row_dimensions cells].
    split_and!; try done.
    + exists (new ++ [solid_fill (rgb_to_hex p)]).
      rewrite Hheap, app_assoc. split; [done|].
      rewrite length_app, map_size_insert_None by done. cbn. lia.
    + rewrite length_app. cbn. lia.
    + intros k. rewrite (keys_at_snoc _ _ _ _ _ Hp), elem_of_app,
        list_elem_of_singleton, <- Hdom, lookup_insert.
      case_decide as Heq.
      * subst k. split; [by right | by eexists].
      * split; [by left | intros [?|?]; [done | congruence]].
    + intros k hd. rewrite lookup_insert. case_decide as Heq.
      * subst k. intros [= <-]. by rewrite lookup_app_r, Nat.sub_diag.
      * intros Hc. by apply lookup_app_l_Some, Hobj.
    + intros r c hd'. rewrite lookup_insert. case_decide as Heq.
      * injection Heq as <- <-. intros [= <-].
        exists x, y, p. split_and!; try done.
        -- apply elem_of_app. right. by apply list_elem_of_singleton.
        -- apply lookup_insert_eq.
      * intros Hc. destruct (Hcells r c hd' Hc) as (x' & y' & p' & ? & ? & ? & ? & Hc').
        exists x', y', p'. split_and!; try done.
        -- apply elem_of_app. by left.
        -- rewrite lookup_insert_ne; [done|]. intros E. rewrite <- E in Hc'. congruence.
    + intros x' y' Hd. rewrite lookup_insert. case_decide; [by eexists|].
      apply elem_of_app in Hd as [Hd|Hd]; [by apply Hsome|].
      apply list_elem_of_singleton in Hd. congruence.
Qed.

Lemma fill_row_v2 grid st0 ws0 d w h total y locals st :
  fill_inv_v2 grid st0 ws0 d locals st ->
  (forall x, x < w -> is_Some (pixel_at grid y x)) ->
  ((y + 1) mod 10 = 0 -> total <> 0) ->
  exists locals' st',
    ScriptV2.fill_row grid w h total y locals st = (Ret locals', st')
    /\ fill_inv_v2 grid st0 ws0 (d ++ map (fun x => (x, y)) (range w)) locals' st'.
Proof.
  intros Hinv Hrow Hdiv.
  pose (I := fun (dx : list nat) (l : Locals) (st' : Store) =>
    fill_inv_v2 grid st0 ws0 (d ++ map (fun x => (x, y)) dx) l st').
  destruct (for_invariant I (ScriptV2.fill_cell grid y) (range w)) with (d := @nil nat)
    (s := locals) (st := st) as (l1 & st1 & Hrun & HI).
  - intros dx x l' st' Hx HI. apply range_elem in Hx.
    destruct (Hrow x Hx) as [p Hp].
    destruct (fill_cell_v2 _ _ _ _ _ _ _ _ _ HI Hp) as (l2 & st2 & Hrun & HI2).
    exists l2, st2. split; [done|].
    unfold I. by rewrite map_app, app_assoc.
  - unfold I. cbn [map]. by rewrite app_nil_r.
  - unfold I in HI. cbn [app] in HI.
    unfold ScriptV2.fill_row. erewrite bind_Ret by exact Hrun.
    destruct l1 as [[ws1 cache1] processed1].
    destruct ((y + 1) mod 10 =? 0) eqn:Hten.
    + apply Nat.eqb_eq in Hten. specialize (Hdiv Hten).
      apply Nat.eqb_neq in Hdiv. rewrite Hdiv.
      eexists _, _. split; [reflexivity|].
      destruct HI as (? & ? & (es & Hes & Hf) & ? & ? & ? & ? & ? & ? & ? & ?).
      unfold fill_inv_v2. cbn [heap stdin events].
      split_and!; try done.
      eexists (_ :: es).
      split; [by rewrite Hes | by constructor].
    + eexists _, _. split; [reflexivity|]. done.
Qed.

Lemma fill_loop_v2 grid st0 ws0 w h :
  grid_covers grid w h ->
  progress_ok w h ->
  cells ws0 = ∅ ->
  exists locals' st',
    for_ (range h) (ScriptV2.fill_row grid w h (w * h)) (ws0, ∅, 0) st0
    = (Ret locals', st')
    /\ fill_inv_v2 grid st0 ws0 (row_major w h) locals' st'.
Proof.
  intros Hcov Hprog Hempty.
  pose (I := fun (dy : list nat) (l : Locals) (st' : Store) =>
    fill_inv_v2 grid st0 ws0
      (flat_map (fun y => map (fun x => (x, y)) (range w)) dy) l st').
  destruct (for_invariant I (ScriptV2.fill_row grid w h (w * h)) (range h))
    with (d := @nil nat) (s := (ws0, (∅ : gmap string nat), 0)) (st := st0)
    as (l1 & st1 & Hrun & HI).
  - intros dy y l' st' Hy HI. apply range_elem in Hy.
    destruct (fill_row_v2 grid st0 ws0 _ w h (w * h) y l' st' HI)
      as (l2 & st2 & Hrun & HI2).
    { intros x Hx. by apply Hcov. }
    { intros Hten. destruct Hprog as [Hw|Hh]; [nia|].
      assert (y + 1 < 10) as Hlt by lia.
      rewrite Nat.mod_small in Hten by done. lia. }
    exists l2, st2. split; [done|].
    unfold I. rewrite flat_map_app. cbn [flat_map]. by rewrite app_nil_r.
  - unfold I, fill_inv_v2. cbn [flat_map keys_at omap map length].
    split_and!; try done.
    + exists []. by rewrite app_nil_r, map_size_empty.
    + by exists [].
    + intros k. rewrite lookup_empty. split; [by intros [? ?] | by intros ?%elem_of_nil].
    + intros r c hd. by rewrite Hempty, lookup_empty.
    + intros x y Hxy. by apply elem_of_nil in Hxy.
  - exists l1, st1. split; [done|]. exact HI.
Qed.

Lemma fill_inv_v2_painted grid st0 ws0 w h ws cache processed st :
  fill_inv_v2 grid st0 ws0 (row_major w h) (ws, cache, processed) st ->
  painted grid w h st ws.
Proof.
  intros (_ & _ & _ & _ & _ & _ & _ & _ & Hobj & Hcells & Hsome) r c.
  unfold fill_at, expected_fill. case_decide as Hin.
  - assert ((c - 1, r - 1) ∈ row_major w h) as Hd by (apply row_major_elem; lia).
    destruct (Hsome _ _ Hd) as [hd Hhd].
    replace (r - 1 + 1) with r in Hhd by lia.
    replace (c - 1 + 1) with c in Hhd by lia.
    rewrite Hhd. cbn.
    destruct (Hcells _ _ _ Hhd) as (x & y & p & _ & -> & -> & Hp & Hh).
    replace (y + 1 - 1) with y by lia. replace (x + 1 - 1) with x by lia.
    rewrite Hp. cbn. by apply Hobj.
  - destruct (cells ws !! (r, c)) as [hd|] eqn:Hhd; [|done].
    destruct (Hcells _ _ _ Hhd) as (x & y & p & Hd & -> & -> & _).
    apply row_major_elem in Hd. lia.
Qed.

Lemma fill_inv_v2_populated grid st0 ws0 w h ws (cache : gmap string nat) processed st :
  fill_inv_v2 grid st0 ws0 (row_major w h) (ws, cache, processed) st ->
  forall r c, is_Some (cells ws !! (r, c)) <-> 1 <= r <= h /\ 1 <= c <= w.
Proof.
  intros (_ & _ & _ & _ & _ & _ & _ & _ & _ & Hcells & Hsome) r c. split.
  - intros [hd Hhd].
    destruct (Hcells _ _ _ Hhd) as (x & y & p & Hd & -> & -> & _).
    apply row_major_elem in Hd. lia.
  - intros Hin.
    assert ((c - 1, r - 1) ∈ row_major w h) as Hd by (apply row_major_elem; lia).
    apply Hsome in Hd.
    replace (r - 1 + 1) with r in Hd by lia.
    by replace (c - 1 + 1) with c in Hd by lia.
Qed.

(** The cache has one entry per distinct Color Key met. *)
Lemma fill_inv_v2_size grid st0 ws0 d ws (cache : gmap string nat) processed st :
  fill_inv_v2 grid st0 ws0 d (ws, cache, processed) st ->
  size cache = distinct (keys_at grid d).
Proof.
  intros (_ & _ & _ & _ & _ & _ & _ & Hdom & _).
  unfold distinct. rewrite <- size_dom. f_equal.
  apply set_eq. intros k. rewrite elem_of_dom, Hdom, elem_of_list_to_set. done.
Qed.

(** Cells whose pixels have the same Color Key hold the same handle. *)
Lemma fill_inv_v2_shared grid st0 ws0 w h ws (cache : gmap string nat) processed st x y p :
  fill_inv_v2 grid st0 ws0 (row_major w h) (ws, cache, processed) st ->
  x < w -> y < h -> pixel_at grid y x = Some p ->
  is_Some (cells ws !! (y + 1, x + 1))
  /\ cells ws !! (y + 1, x + 1) = cache !! rgb_to_hex p.
Proof.
  intros (_ & _ & _ & _ & _ & _ & _ & _ & _ & Hcells & Hsome) Hx Hy Hp.
  assert ((x, y) ∈ row_major w h) as Hd by (by apply row_major_elem).
  destruct (Hsome _ _ Hd) as [hd Hhd]. split; [by eexists|].
  rewrite Hhd.
  destruct (Hcells _ _ _ Hhd) as (x' & y' & p' & _ & Hr & Hc & Hp' & Hh).
  assert (y' = y) as -> by lia. assert (x' = x) as -> by lia.
  congruence.
Qed.

(* ================================================================== *)
(** * [create_excel_with_colors] as a whole *)
(* ================================================================== *)

Lemma saves_prints es es0 :
  Forall is_print es -> saves (es ++ es0) = saves es0.
Proof.
  induction 1 as [|e es He _ IH]; [done|].
  destruct e; try done.
Qed.

Lemma saves_cons_print m es : saves (EvPrint m :: es) = saves es.
Proof. reflexivity. Qed.

Lemma saves_cons_save wb p es : saves (EvSave wb p :: es) = (wb, p) :: saves es.
Proof. reflexivity. Qed.

(** script.py: on a grid covering the image, with every column named,
    the function returns what [workbook.save] answers; the workbook it
    saves is sized 2 by 15, every cell carries the fill of its pixel,
    and one fill object per pixel was constructed. *)
Lemma create_v1_run (W : World) grid w h path st :
  grid_covers grid w h -> letters_ok W w ->
  exists ws st',
    Script.create_excel_with_colors W grid w h path st
    = (Ret (Workbook_save W (mkWorkbook ws "auto") path), st')
    /\ saves (events st') = (mkWorkbook ws "auto", path) :: saves (events st)
    /\ heap st' = heap st ++ map solid_fill (color_keys grid w h)
    /\ stdin st' = stdin st
    /\ title ws = "Imagen_Pixeles"%string
    /\ sized W ws w h 2%Q 15%Q
    /\ painted grid w h st' ws
    /\ (forall r c, is_Some (cells ws !! (r, c)) <-> 1 <= r <= h /\ 1 <= c <= w).
Proof.
  intros Hcov Hok. unfold Script.create_excel_with_colors.
  erewrite bind_Ret by reflexivity.
  edestruct (column_loop_run W 2%Q w) as (ws1 & Hrun1 & Ht1 & Hr1 & Hc1 & Hcd1);
    [exact Hok | | erewrite bind_Ret by exact Hrun1]; [reflexivity|].
  edestruct (row_loop_sizes 15%Q h ws1) as (ws2 & Hrun2 & Ht2 & Hc2 & Hce2 & Hrd2);
    [| erewrite bind_Ret by exact Hrun2]; [by rewrite Hr1|].
  edestruct (fill_loop_v1 grid) as (ws3 & st3 & Hrun3 & Hinv);
    [exact Hcov | | erewrite bind_Ret by exact Hrun3]; [by rewrite Hce2, Hc1|].
  pose proof (fill_inv_v1_painted _ _ _ _ _ _ _ Hinv) as Hpaint.
  pose proof (fill_inv_v1_populated _ _ _ _ _ _ _ Hinv) as Hpop.
  destruct Hinv as (Hheap & Hin & (es & Hes & Hf) & Ht3 & Hcd3 & Hrd3 & _).
  erewrite bind_Ret by reflexivity.
  exists ws3.
  destruct (Workbook_save W {| active := ws3; calcMode := "auto" |} path);
    (eexists; split; [reflexivity|]); cbn [events heap stdin];
    (split_and!;
     [ rewrite saves_cons_print, saves_cons_save, Hes, (saves_prints _ _ Hf); done
     | exact Hheap | exact Hin
     | by rewrite Ht3, Ht2, Ht1
     | split; [intros k u; rewrite Hcd3, Hc2; apply Hcd1
              | intros r u; rewrite Hrd3; apply Hrd2]
     | exact Hpaint
     | exact Hpop ]).
Qed.

(** scriptV2.py: as above with sizes 1.5 by 12 and [calcMode] manual;
    the fill objects constructed are as many as the distinct Color Keys
    of the grid, and every cell holds the cached handle of its key. *)
Lemma create_v2_run (W : World) grid w h path st :
  grid_covers grid w h -> letters_ok W w -> progress_ok w h ->
  exists ws (cache : gmap string nat) st',
    ScriptV2.create_excel_with_colors W grid w h path st
    = (Ret (Workbook_save W (mkWorkbook ws "manual") path), st')
    /\ saves (events st') = (mkWorkbook ws "manual", path) :: saves (events st)
    /\ (exists new, heap st' = heap st ++ new
                    /\ length new = distinct (color_keys grid w h))
    /\ stdin st' = stdin st
    /\ title ws = "Imagen_Pixeles"%string
    /\ sized W ws w h (3 # 2)%Q 12%Q
    /\ painted grid w h st' ws
    /\ (forall x y p, x < w -> y < h -> pixel_at grid y x = Some p ->
          is_Some (cells ws !! (y + 1, x + 1))
          /\ cells ws !! (y + 1, x + 1) = cache !! rgb_to_hex p)
    /\ (forall r c, is_Some (cells ws !! (r, c)) <-> 1 <= r <= h /\ 1 <= c <= w).
Proof.
  intros Hcov Hok Hprog. unfold ScriptV2.create_excel_with_colors.
  erewrite bind_Ret by reflexivity.
  edestruct (column_loop_run W (3 # 2)%Q w) as (ws1 & Hrun1 & Ht1 & Hr1 & Hc1 & Hcd1);
    [exact Hok | | erewrite bind_Ret by exact Hrun1]; [reflexivity|].
  edestruct (row_loop_sizes 12%Q h ws1) as (ws2 & Hrun2 & Ht2 & Hc2 & Hce2 & Hrd2);
    [| erewrite bind_Ret by exact Hrun2]; [by rewrite Hr1|].
  edestruct (fill_loop_v2 grid) as ([[ws3 cache] processed] & st3 & Hrun3 & Hinv);
    [exact Hcov | exact Hprog | | erewrite bind_Ret by exact Hrun3];
    [by rewrite Hce2, Hc1|].
  pose proof (fill_inv_v2_painted _ _ _ _ _ _ _ _ _ Hinv) as Hpaint.
  pose proof (fill_inv_v2_populated _ _ _ _ _ _ _ _ _ Hinv) as Hpop.
  pose proof (fill_inv_v2_size _ _ _ _ _ _ _ _ Hinv) as Hsize.
  pose proof (fun x y p => fill_inv_v2_shared _ _ _ _ _ _ _ _ _ x y p Hinv) as Hshared.
  destruct Hinv as ((new & Hheap & Hlen) & Hin & (es & Hes & Hf) & Ht3 & Hcd3 & Hrd3 & _).
  erewrite bind_Ret by reflexivity.
  erewrite bind_Ret by reflexivity.
  exists ws3, cache.
  destruct (Workbook_save W {| active := ws3; calcMode := "manual" |} path);
    (eexists; split; [reflexivity|]); cbn [events heap stdin];
    (split_and!;
     [ rewrite ?saves_cons_print, saves_cons_save, saves_cons_print, Hes,
         (saves_prints _ _ Hf); done
     | exists new; split; [exact Hheap | by rewrite Hlen, Hsize]
     | exact Hin
     | by rewrite Ht3, Ht2, Ht1
     | split; [intros k u; rewrite Hcd3, Hc2; apply Hcd1
              | intros r u; rewrite Hrd3; apply Hrd2]
     | exact Hpaint
     | exact Hshared
     | exact Hpop ]).
Qed.

(** Whatever their outcome, the two [create_excel_with_colors] only
    print and save. *)
Lemma create_v1_emits W grid w h path :
  emits is_work_event (Script.create_excel_with_colors W grid w h path).
Proof.
  unfold Script.create_excel_with_colors. solve_emits.
  unfold Script.fill_row. solve_emits.
  unfold Script.fill_cell. solve_emits.
Qed.

Lemma create_v2_emits W grid w h path :
  emits is_work_event (ScriptV2.create_excel_with_colors W grid w h path).
Proof.
  unfold ScriptV2.create_excel_with_colors. solve_emits.
  unfold ScriptV2.fill_row. solve_emits.
  unfold ScriptV2.fill_cell. solve_emits.
  all: unfold ScriptV2.cache_fill, ScriptV2.cache_get; solve_emits.
Qed.

(* ================================================================== *)
(** * The mapper and the deduplicator: the claims *)
(* ================================================================== *)

Lemma row_major_length w h : length (row_major w h) = w * h.
Proof.
  unfold row_major, range. generalize 0 at 2. intros y0. revert y0.
  induction h as [|h IH]; intros y0; cbn [seq flat_map]; [cbn; lia|].
  rewrite length_app, length_map, length_seq, IH. nia.
Qed.

Lemma keys_at_length grid d :
  (forall xy, xy ∈ d -> is_Some (pixel_at grid xy.2 xy.1)) ->
  length (keys_at grid d) = length d.
Proof.
  unfold keys_at. induction d as [|xy d IH]; intros Hd; [done|].
  cbn [omap list_omap]. destruct (Hd xy) as [p Hp]; [left|].
  rewrite Hp. cbn. f_equal. apply IH.
  intros xy' Hin. apply Hd. by right.
Qed.

Lemma color_keys_length grid w h :
  grid_covers grid w h -> length (color_keys grid w h) = w * h.
Proof.
  intros Hcov. unfold color_keys.
  rewrite keys_at_length, row_major_length; [done|].
  intros [x y] Hin. apply row_major_elem in Hin as [Hx Hy]. by apply Hcov.
Qed.

Lemma painted_offset grid w h st ws :
  grid_covers grid w h ->
  painted grid w h st ws ->
  (forall r c, is_Some (cells ws !! (r, c)) <-> 1 <= r <= h /\ 1 <= c <= w) ->
  offset_mapping grid w h st ws.
Proof.
  intros Hcov Hpaint Hpop. split.
  - intros x y Hx Hy. destruct (Hcov y x Hy Hx) as [p Hp].
    exists p. split; [done|].
    rewrite Hpaint. unfold expected_fill.
    rewrite decide_True by lia.
    replace (y + 1 - 1) with y by lia. replace (x + 1 - 1) with x by lia.
    by rewrite Hp.
  - intros r c. rewrite Hpop. split.
    + intros Hin. exists (c - 1), (r - 1). lia.
    + intros (x & y & ? & ? & -> & ->). lia.
Qed.

(** The grid extracted from an image covers the image. *)
Lemma grid_of_covers image :
  grid_covers (grid_of image) (width_of image) (height_of image).
Proof. intros y x Hy Hx. rewrite grid_of_lookup by done. by eexists. Qed.

Lemma column_name_ok w :
  w <= 26 + 26 * 26 + 26 * 26 * 26 ->
  forall col, 1 <= col <= w -> is_Some (column_name col).
Proof.
  intros Hw col Hcol. unfold column_name.
  destruct (1 <=? col) eqn:H1; [|apply Nat.leb_gt in H1; lia].
  destruct (col <=? 26 + 26 * 26 + 26 * 26 * 26) eqn:H2; [by eexists|].
  apply Nat.leb_gt in H2. lia.
Qed.

Lemma one_file_world_letters path image w :
  w <= 26 + 26 * 26 + 26 * 26 * 26 -> letters_ok (one_file_world path image) w.
Proof. intros Hw col Hcol. exact (column_name_ok w Hw col Hcol). Qed.

Lemma grid_2x2_covers : grid_covers grid_2x2 2 2.
Proof.
  intros y x Hy Hx.
  destruct y as [|[|y]], x as [|[|x]]; try lia; by eexists.
Qed.

(** C9.  For every coordinate [(x, y)] of the grid, both scripts bind to
    the cell at row [y + 1], column [x + 1] the fill of the pixel at
    [[y][x]], and bind no cell outside these; a 1x1 image populates
    exactly cell (1,1).  (scriptV2 is considered where its progress
    report does not divide by zero.) *)
Theorem cell_offset (W : World) grid w h path st :
  grid_covers grid w h -> letters_ok W w ->
  (exists b ws st',
     Script.create_excel_with_colors W grid w h path st = (Ret b, st')
     /\ saved_worksheet st' = Some ws
     /\ offset_mapping grid w h st' ws
     /\ (w = 1 -> h = 1 -> forall r c,
           is_Some (cells ws !! (r, c)) <-> (r, c) = (1, 1)))
  /\ (progress_ok w h ->
      exists b ws st',
        ScriptV2.create_excel_with_colors W grid w h path st = (Ret b, st')
        /\ saved_worksheet st' = Some ws
        /\ offset_mapping grid w h st' ws
        /\ (w = 1 -> h = 1 -> forall r c,
              is_Some (cells ws !! (r, c)) <-> (r, c) = (1, 1))).
Proof.
  intros Hcov Hok. split.
  - destruct (create_v1_run W grid w h path st Hcov Hok)
      as (ws & st' & Hrun & Hsave & _ & _ & _ & _ & Hpaint & Hpop).
    eexists _, ws, st'. split_and!; [exact Hrun | | by apply painted_offset |].
    + unfold saved_worksheet. by rewrite Hsave.
    + intros -> -> r c. rewrite Hpop. split; [intros ?; f_equal; lia | intros [= -> ->]; lia].
  - intros Hprog.
    destruct (create_v2_run W grid w h path st Hcov Hok Hprog)
      as (ws & cache & st' & Hrun & Hsave & _ & _ & _ & _ & Hpaint & _ & Hpop).
    eexists _, ws, st'. split_and!; [exact Hrun | | by apply painted_offset |].
    + unfold saved_worksheet. by rewrite Hsave.
    + intros -> -> r c. rewrite Hpop. split; [intros ?; f_equal; lia | intros [= -> ->]; lia].
Qed.

Lemma cell_offset_witness :
  exists b ws st',
    Script.create_excel_with_colors scenario_world grid_2x2 2 2 "image.xlsx" empty_store
    = (Ret b, st')
    /\ saved_worksheet st' = Some ws
    /\ offset_mapping grid_2x2 2 2 st' ws.
Proof.
  destruct (cell_offset scenario_world grid_2x2 2 2 "image.xlsx" empty_store)
    as [(b & ws & st' & Hrun & Hsaved & Hmap & _) _].
  - exact grid_2x2_covers.
  - apply one_file_world_letters. lia.
  - by exists b, ws, st'.
Defined.

(** C1, as stated, fails on script.py: it constructs a fill object for
    every pixel, so two pixels of one colour give two objects for one
    distinct Color Key. *)
Lemma style_count_script_py_counterexample :
  let grid := [[red; red]] in
  let st' := (Script.create_excel_with_colors scenario_world grid 2 1
                "image.xlsx" empty_store).2 in
  length (heap st') = 2 /\ distinct (color_keys grid 2 1) = 1
  /\ length (heap st') <> distinct (color_keys grid 2 1).
Proof. vm_compute. split_and!; [reflexivity | reflexivity | discriminate]. Qed.

(** C1 (amended).  In scriptV2 the fill objects constructed during a run
    are as many as the distinct Color Keys encountered in the grid; cells
    whose pixels have the same key hold the identical handle; resolving a
    key a second time returns the same handle and constructs nothing.
    script.py has no cache and constructs one fill object per pixel. *)
Theorem style_dedup (W : World) grid w h path st :
  grid_covers grid w h -> letters_ok W w -> progress_ok w h ->
  (exists b ws st' new,
     ScriptV2.create_excel_with_colors W grid w h path st = (Ret b, st')
     /\ saved_worksheet st' = Some ws
     /\ heap st' = heap st ++ new
     /\ length new = distinct (color_keys grid w h)
     /\ length new <= w * h
     /\ (forall x y x' y' p p',
           x < w -> y < h -> x' < w -> y' < h ->
           pixel_at grid y x = Some p -> pixel_at grid y' x' = Some p' ->
           rgb_to_hex p = rgb_to_hex p' ->
           is_Some (cells ws !! (y + 1, x + 1))
           /\ cells ws !! (y + 1, x + 1) = cells ws !! (y' + 1, x' + 1)))
  /\ (forall k (cache : gmap string nat) st0,
        exists hd cache1 st1,
          ScriptV2.cache_fill k cache st0 = (Ret cache1, st1)
          /\ ScriptV2.cache_get k cache1 st1 = (Ret hd, st1)
          /\ ScriptV2.cache_fill k cache1 st1 = (Ret cache1, st1))
  /\ (exists b st1,
        Script.create_excel_with_colors W grid w h path st = (Ret b, st1)
        /\ heap st1 = heap st ++ map solid_fill (color_keys grid w h)
        /\ length (heap st1) = length (heap st) + w * h).
Proof.
  intros Hcov Hok Hprog. split_and!.
  - destruct (create_v2_run W grid w h path st Hcov Hok Hprog)
      as (ws & cache & st' & Hrun & Hsave & (new & Hheap & Hlen) & _ & _ & _ & _
          & Hshared & _).
    eexists _, ws, st', new. split_and!; try done.
    + unfold saved_worksheet. by rewrite Hsave.
    + rewrite Hlen. unfold distinct.
      rewrite <- (color_keys_length grid w h Hcov).
      generalize (color_keys grid w h). intros ks.
      induction ks as [|k ks IH]; [done|].
      cbn [list_to_set foldr length].
      destruct (decide (k ∈ (list_to_set ks : gset string))) as [Hin|Hin].
      * rewrite (subseteq_union_1_L (C := gset string) {[k]})
          by (by apply singleton_subseteq_l).
        lia.
      * rewrite size_union by (by apply disjoint_singleton_l).
        rewrite size_singleton. lia.
    + intros x y x' y' p p' Hx Hy Hx' Hy' Hp Hp' Hkey.
      destruct (Hshared x y p Hx Hy Hp) as [Hs ->].
      destruct (Hshared x' y' p' Hx' Hy' Hp') as [_ ->].
      split; [|by rewrite Hkey].
      destruct (Hshared x y p Hx Hy Hp) as [Hs' <-]. done.
  - intros k cache st0. destruct (cache !! k) as [hd|] eqn:Hk.
    + exists hd, cache, st0.
      rewrite (cache_fill_hit _ _ _ _ Hk), (cache_get_hit _ _ _ _ Hk). done.
    + eexists _, _, _. rewrite (cache_fill_miss _ _ _ Hk).
      split_and!; [reflexivity | |].
      * eapply cache_get_hit. apply lookup_insert_eq.
      * eapply cache_fill_hit. apply lookup_insert_eq.
  - destruct (create_v1_run W grid w h path st Hcov Hok)
      as (ws & st' & Hrun & _ & Hheap & _).
    eexists _, st'. split_and!; [exact Hrun | exact Hheap |].
    by rewrite Hheap, length_app, length_map, color_keys_length.
Qed.

Lemma style_dedup_witness :
  exists b ws st' new,
    ScriptV2.create_excel_with_colors scenario_world grid_2x2 2 2 "image.xlsx"
      empty_store = (Ret b, st')
    /\ saved_worksheet st' = Some ws
    /\ heap st' = heap empty_store ++ new
    /\ length new = distinct (color_keys grid_2x2 2 2).
Proof.
  destruct (style_dedup scenario_world grid_2x2 2 2 "image.xlsx" empty_store)
    as [(b & ws & st' & new & Hrun & Hsaved & Hheap & Hlen & _) _].
  - exact grid_2x2_covers.
  - apply one_file_world_letters. lia.
  - left. lia.
  - exists b, ws, st', new. split_and!; assumption.
Defined.

(** C4, as stated, fails on script.py: on the 2x2 scenario it constructs
    four fill objects, one per pixel, the colour FF0000 twice, and not
    three. *)
Lemma scenario_script_py_counterexample :
  let run1 := Script.image_to_excel scenario_world "image.png" empty_store in
  run1.1 = Ret true
  /\ heap run1.2 = [solid_fill "FF0000"; solid_fill "00FF00"; solid_fill "0000FF";
                    solid_fill "FF0000"]
  /\ length (heap run1.2) <> 3.
Proof.
  cbv zeta. split_and!.
  - vm_compute. reflexivity.
  - vm_compute. reflexivity.
  - vm_compute. discriminate.
Qed.

(** C4 (amended).  On the 2x2 grid red, green / blue, red the Color Keys
    are FF0000, 00FF00, 0000FF, FF0000.  scriptV2 converts it
    constructing exactly three fill objects, one per colour, and binds
    the same handle to cells (1,1) and (2,2).  script.py converts it
    constructing four fill objects, one per pixel; its cells (1,1) and
    (2,2) carry fills of the same colour FF0000. *)
Theorem scenario_2x2 :
  let run2 := ScriptV2.image_to_excel scenario_world "image.png" empty_store in
  let run1 := Script.image_to_excel scenario_world "image.png" empty_store in
  color_keys grid_2x2 2 2 = ["FF0000"; "00FF00"; "0000FF"; "FF0000"]%string
  /\ run2.1 = Ret true
  /\ heap run2.2 = [solid_fill "FF0000"; solid_fill "00FF00"; solid_fill "0000FF"]
  /\ (exists ws, saved_worksheet run2.2 = Some ws
                 /\ cells ws !! (1, 1) = Some 0
                 /\ cells ws !! (1, 2) = Some 1
                 /\ cells ws !! (2, 1) = Some 2
                 /\ cells ws !! (2, 2) = Some 0
                 /\ cells ws !! (1, 1) = cells ws !! (2, 2))
  /\ run1.1 = Ret true
  /\ length (heap run1.2) = 4
  /\ (exists ws, saved_worksheet run1.2 = Some ws
                 /\ fill_at run1.2 ws 1 1 = Some (solid_fill "FF0000")
                 /\ fill_at run1.2 ws 1 2 = Some (solid_fill "00FF00")
                 /\ fill_at run1.2 ws 2 1 = Some (solid_fill "0000FF")
                 /\ fill_at run1.2 ws 2 2 = Some (solid_fill "FF0000")).
Proof.
  cbv zeta. split_and!.
  - vm_compute. reflexivity.
  - vm_compute. reflexivity.
  - vm_compute. reflexivity.
  - eexists. split; [vm_compute; reflexivity|].
    vm_compute. split_and!; reflexivity.
  - vm_compute. reflexivity.
  - vm_compute. reflexivity.
  - eexists. split; [vm_compute; reflexivity|].
    vm_compute. split_and!; reflexivity.
Qed.

(** C6, as stated, fails: the two variants size the cells differently
    (column width 2 and row height 15 against 1.5 and 12). *)
Lemma sizing_differs_counterexample :
  exists ws1 ws2,
    saved_worksheet (Script.create_excel_with_colors scenario_world [[red]] 1 1
                       "image.xlsx" empty_store).2 = Some ws1
    /\ saved_worksheet (ScriptV2.create_excel_with_colors scenario_world [[red]] 1 1
                          "image.xlsx" empty_store).2 = Some ws2
    /\ column_dimensions ws1 !! "A"%string = Some 2%Q
    /\ column_dimensions ws2 !! "A"%string = Some (3 # 2)%Q
    /\ row_dimensions ws1 !! 1 = Some 15%Q
    /\ row_dimensions ws2 !! 1 = Some 12%Q
    /\ ~ same_sizing ws1 ws2.
Proof.
  eexists _, _. split; [vm_compute; reflexivity|].
  split; [vm_compute; reflexivity|].
  split_and!; try (vm_compute; reflexivity).
  intros [Hcol _].
  apply (f_equal (fun m => m !! "A"%string)) in Hcol.
  vm_compute in Hcol. discriminate.
Qed.

Lemma sized_same_keys W ws1 ws2 w h cw1 rh1 cw2 rh2 :
  sized W ws1 w h cw1 rh1 -> sized W ws2 w h cw2 rh2 ->
  (forall k, is_Some (column_dimensions ws1 !! k)
             <-> is_Some (column_dimensions ws2 !! k))
  /\ (forall r, is_Some (row_dimensions ws1 !! r)
                <-> is_Some (row_dimensions ws2 !! r)).
Proof.
  intros [Hc1 Hr1] [Hc2 Hr2]. split.
  - intros k. split; intros [u Hu].
    + apply Hc1 in Hu as [_ Hex]. exists cw2. by apply Hc2.
    + apply Hc2 in Hu as [_ Hex]. exists cw1. by apply Hc1.
  - intros r. split; intros [u Hu].
    + apply Hr1 in Hu as [_ Hex]. exists rh2. by apply Hr2.
    + apply Hr2 in Hu as [_ Hex]. exists rh1. by apply Hr1.
Qed.

(** C6 (amended).  On every grid covering the image the two
    [create_excel_with_colors] save workbooks that carry the same fill at
    every cell position and size the same columns and rows, each
    uniformly, but with different values: width 2 and height 15 in
    script.py, width 1.5 and height 12 in scriptV2, which also sets
    [calcMode] to manual.  script.py constructs one fill object per
    pixel, scriptV2 one per distinct colour. *)
Theorem variants_same_colors (W : World) grid w h path st :
  grid_covers grid w h -> letters_ok W w -> progress_ok w h ->
  exists b1 ws1 st1 b2 ws2 st2,
    Script.create_excel_with_colors W grid w h path st = (Ret b1, st1)
    /\ ScriptV2.create_excel_with_colors W grid w h path st = (Ret b2, st2)
    /\ head (saves (events st1)) = Some (mkWorkbook ws1 "auto", path)
    /\ head (saves (events st2)) = Some (mkWorkbook ws2 "manual", path)
    /\ (forall r c, fill_at st1 ws1 r c = fill_at st2 ws2 r c)
    /\ (forall r c, fill_color_at st1 ws1 r c = fill_color_at st2 ws2 r c)
    /\ (forall r c, is_Some (cells ws1 !! (r, c)) <-> is_Some (cells ws2 !! (r, c)))
    /\ title ws1 = title ws2
    /\ sized W ws1 w h 2%Q 15%Q
    /\ sized W ws2 w h (3 # 2)%Q 12%Q
    /\ (forall k, is_Some (column_dimensions ws1 !! k)
                  <-> is_Some (column_dimensions ws2 !! k))
    /\ (forall r, is_Some (row_dimensions ws1 !! r)
                  <-> is_Some (row_dimensions ws2 !! r))
    /\ length (heap st1) = length (heap st) + w * h
    /\ length (heap st2) = length (heap st) + distinct (color_keys grid w h).
Proof.
  intros Hcov Hok Hprog.
  destruct (create_v1_run W grid w h path st Hcov Hok)
    as (ws1 & st1 & Hrun1 & Hsave1 & Hheap1 & _ & Ht1 & Hsz1 & Hpaint1 & Hpop1).
  destruct (create_v2_run W grid w h path st Hcov Hok Hprog)
    as (ws2 & cache & st2 & Hrun2 & Hsave2 & (new & Hheap2 & Hlen2) & _ & Ht2
        & Hsz2 & Hpaint2 & _ & Hpop2).
  destruct (sized_same_keys _ _ _ _ _ _ _ _ _ Hsz1 Hsz2) as [Hcols Hrows].
  eexists _, ws1, st1, _, ws2, st2.
  split; [exact Hrun1|]. split; [exact Hrun2|].
  split; [by rewrite Hsave1|]. split; [by rewrite Hsave2|].
  split; [intros r c; by rewrite Hpaint1, Hpaint2|].
  split; [intros r c; unfold fill_color_at; by rewrite Hpaint1, Hpaint2|].
  split; [intros r c; by rewrite Hpop1, Hpop2|].
  split; [by rewrite Ht1, Ht2|].
  split; [exact Hsz1|]. split; [exact Hsz2|].
  split; [exact Hcols|]. split; [exact Hrows|].
  split.
  - by rewrite Hheap1, length_app, length_map, color_keys_length.
  - by rewrite Hheap2, length_app, Hlen2.
Qed.

Lemma variants_same_colors_witness :
  exists b1 ws1 st1 b2 ws2 st2,
    Script.create_excel_with_colors scenario_world grid_2x2 2 2 "image.xlsx"
      empty_store = (Ret b1, st1)
    /\ ScriptV2.create_excel_with_colors scenario_world grid_2x2 2 2 "image.xlsx"
         empty_store = (Ret b2, st2)
    /\ (forall r c, fill_at st1 ws1 r c = fill_at st2 ws2 r c).
Proof.
  destruct (variants_same_colors scenario_world grid_2x2 2 2 "image.xlsx" empty_store)
    as (b1 & ws1 & st1 & b2 & ws2 & st2 & Hrun1 & Hrun2 & _ & _ & Hfill & _).
  - exact grid_2x2_covers.
  - apply one_file_world_letters. lia.
  - left. lia.
  - exists b1, ws1, st1, b2, ws2, st2. split_and!; assumption.
Defined.

(* ================================================================== *)
(** * The extension test *)
(* ================================================================== *)

Lemma lower_char_not_upper a : uppercase_char (Py.lower_char a) = false.
Proof. destruct a as [[] [] [] [] [] [] [] []]; reflexivity. Qed.

Lemma lower_not_upper s :
  string_forall (fun c => negb (uppercase_char c)) (Py.lower s) = true.
Proof.
  induction s as [|a s IH]; [done|].
  cbn [Py.lower string_forall]. by rewrite lower_char_not_upper, IH.
Qed.

Lemma rev_app_forall P s acc :
  string_forall P (String.rev_app s acc)
  = string_forall P s && string_forall P acc.
Proof.
  revert acc. induction s as [|a s IH]; intros acc; [done|].
  cbn [String.rev_app string_forall]. rewrite IH. cbn [string_forall].
  by destruct (P a), (string_forall P s), (string_forall P acc).
Qed.

Lemma rev_forall P s : string_forall P (String.rev s) = string_forall P s.
Proof. unfold String.rev. rewrite rev_app_forall. cbn. apply andb_true_r. Qed.

Lemma prefix_forall P p s :
  String.prefix p s = true -> string_forall P s = true -> string_forall P p = true.
Proof.
  revert s. induction p as [|a p IH]; intros s; [done|].
  destruct s as [|b s]; [done|]. cbn [String.prefix string_forall].
  destruct (ascii_dec a b) as [->|]; [|done].
  intros Hp [Hb Hs]%andb_true_iff. rewrite Hb. cbn. by eapply IH.
Qed.

Lemma endswith_lower_not_upper s ext :
  Py.endswith (Py.lower s) ext = true ->
  string_forall (fun c => negb (uppercase_char c)) ext = true.
Proof.
  unfold Py.endswith. intros Hp.
  rewrite <- rev_forall. eapply prefix_forall; [exact Hp|].
  rewrite rev_forall. apply lower_not_upper.
Qed.

(** The test of the scripts accepts exactly the paths ending, whatever
    the case, in .png, .jpg or .jpeg: the upper-case entries of
    [valid_extensions] never match the lower-cased path. *)
Lemma has_valid_extension_accepted image_path :
  has_valid_extension image_path = true <-> accepted_extension image_path.
Proof.
  unfold has_valid_extension, accepted_extension, valid_extensions.
  cbn [existsb]. rewrite !orb_true_iff. split.
  - intros [H|[H|[H|[H|[H|[H|H]]]]]]; auto;
      try (apply endswith_lower_not_upper in H; discriminate H).
    discriminate H.
  - intros [H|[H|H]]; auto.
Qed.

Lemma has_valid_extension_rejected image_path :
  ~ accepted_extension image_path -> has_valid_extension image_path = false.
Proof.
  intros Hno. destruct (has_valid_extension image_path) eqn:E; [|done].
  by apply has_valid_extension_accepted in E.
Qed.

(* ================================================================== *)
(** * Reading the event log *)
(* ================================================================== *)

(** Events outside the domain of a projection do not show in it. *)
Lemma omap_frame {A} (f : Event -> option A) (P : Event -> Prop) es es0 :
  (forall e, P e -> f e = None) -> Forall P es ->
  omap f (es ++ es0) = omap f es0.
Proof.
  intros HP. induction 1 as [|e es He _ IH]; [done|].
  cbn [app omap list_omap]. rewrite (HP e He). exact IH.
Qed.

Lemma pixel_visits_frame (P : Event -> Prop) es es0 :
  (forall e, P e -> match e with EvGetPixel _ _ => False | _ => True end) ->
  Forall P es -> pixel_visits (es ++ es0) = pixel_visits es0.
Proof.
  intros HP Hes. unfold pixel_visits. f_equal.
  eapply omap_frame; [|exact Hes].
  intros e He. specialize (HP e He). by destruct e.
Qed.

Lemma printed_app es es0 : printed (es ++ es0) = printed es ++ printed es0.
Proof. unfold printed. apply omap_app. Qed.

Lemma errors_printed_app es es0 :
  errors_printed (es ++ es0) = errors_printed es ++ errors_printed es0.
Proof. unfold errors_printed. by rewrite printed_app, filter_app. Qed.

(* ================================================================== *)
(** * [load_image] and the way to the size guard *)
(* ================================================================== *)

(** [load_image] returns what [decoded] says; the events it logs depend
    on the world and the path only. *)
Lemma load_image_some W path image :
  decoded W path = Some image ->
  exists es,
    Forall is_open_or_convert es
    /\ forall st,
         load_image W path st
         = (Ret (Some image), mkStore (es ++ events st) (heap st) (stdin st)).
Proof.
  unfold decoded, load_image. intros Hd.
  destruct (Image_open W path) as [im|]; [|done].
  destruct (bool_decide (mode im <> "RGB"%string)).
  - exists [EvConvert "RGB"; EvOpen path]. split; [repeat constructor|].
    intros st. do 2 (erewrite bind_Ret by reflexivity). by rewrite Hd.
  - injection Hd as ->. exists [EvOpen path]. split; [repeat constructor|].
    intros st. by erewrite bind_Ret by reflexivity.
Qed.

Lemma load_image_none W path :
  decoded W path = None ->
  exists es,
    Forall is_open_or_convert es
    /\ forall st,
         load_image W path st
         = (Ret None,
            mkStore (EvPrint MsgLoadError :: es ++ events st) (heap st) (stdin st)).
Proof.
  unfold decoded, load_image. intros Hd.
  destruct (Image_open W path) as [im|].
  - destruct (bool_decide (mode im <> "RGB"%string)); [|done].
    exists [EvConvert "RGB"; EvOpen path]. split; [repeat constructor|].
    intros st. do 2 (erewrite bind_Ret by reflexivity). by rewrite Hd.
  - exists [EvOpen path]. split; [repeat constructor|].
    intros st. by erewrite bind_Ret by reflexivity.
Qed.

(** script.py reaches its guard after having read every pixel. *)
Lemma v1_reaches_guard W path image :
  os_path_exists W path = true ->
  has_valid_extension path = true ->
  decoded W path = Some image ->
  exists es,
    Forall is_open_or_convert es
    /\ forall st,
         Script.image_to_excel W path st
         = Script.size_guard W path (grid_of image) (width_of image) (height_of image)
             (mkStore (rev (map (fun xy => EvGetPixel xy.1 xy.2)
                                (row_major (width_of image) (height_of image)))
                         ++ EvPrint (MsgProcessing (width_of image) (height_of image))
                              :: es ++ EvPrint (MsgLoading path) :: EvExists path
                              :: events st)
                      (heap st) (stdin st)).
Proof.
  intros Hex Hext Hd.
  destruct (load_image_some W path image Hd) as (es & Hes & Hload).
  exists es. split; [exact Hes|]. intros st.
  unfold Script.image_to_excel.
  erewrite bind_Ret by reflexivity. rewrite Hex, Hext. cbn [negb].
  erewrite bind_Ret by reflexivity.
  erewrite bind_Ret by apply Hload. cbv beta iota.
  erewrite bind_Ret by apply get_pixel_colors_run.
  reflexivity.
Qed.

(** scriptV2 reaches its guard right after decoding. *)
Lemma v2_reaches_guard W path image :
  os_path_exists W path = true ->
  has_valid_extension path = true ->
  decoded W path = Some image ->
  exists es,
    Forall is_open_or_convert es
    /\ forall st,
         ScriptV2.image_to_excel W path st
         = ScriptV2.size_guard W path image
             (mkStore (es ++ EvPrint (MsgLoading path) :: EvExists path :: events st)
                      (heap st) (stdin st)).
Proof.
  intros Hex Hext Hd.
  destruct (load_image_some W path image Hd) as (es & Hes & Hload).
  exists es. split; [exact Hes|]. intros st.
  unfold ScriptV2.image_to_excel.
  erewrite bind_Ret by reflexivity. rewrite Hex, Hext. cbn [negb].
  erewrite bind_Ret by reflexivity.
  erewrite bind_Ret by apply Hload.
  reflexivity.
Qed.

(* ================================================================== *)
(** * The conversion past the guard *)
(* ================================================================== *)

Lemma convert_v1_emits W path grid w h :
  emits is_work_event (Script.convert W path grid w h).
Proof.
  unfold Script.convert. apply emits_bind; [apply create_v1_emits|].
  intros []; solve_emits.
Qed.

Lemma get_pixel_colors_emits image : emits is_convert_event (get_pixel_colors image).
Proof. unfold get_pixel_colors. solve_emits. Qed.

Lemma convert_v2_emits W path image :
  emits is_convert_event (ScriptV2.convert W path image).
Proof.
  unfold ScriptV2.convert. apply emits_bind; [apply get_pixel_colors_emits|].
  intros [[grid w] h]. apply emits_bind.
  - eapply emits_weaken; [|apply create_v2_emits]. by intros [].
  - intros []; solve_emits.
Qed.

(** What an [input] followed by anything adds to the log: the prompt,
    then the events of what follows. *)
Lemma input_then_events {A} (P : Event -> Prop) p (k : string -> M A) st :
  (forall r, emits P (k r)) ->
  exists es, events (bind (input p) k st).2 = es ++ EvInput p :: events st
             /\ Forall P es.
Proof.
  intros Hk. unfold bind, input.
  destruct (stdin st) as [|line rest]; [by exists []|].
  destruct (Hk line (mkStore (EvInput p :: events st) (heap st) rest))
    as (es & Hes & HP).
  exists es. split; [exact Hes | exact HP].
Qed.

Lemma visits_Forall (d : list (nat * nat)) :
  Forall (fun e => exists x y, e = EvGetPixel x y)
         (rev (map (fun xy => EvGetPixel xy.1 xy.2) d)).
Proof.
  apply Forall_rev, Forall_forall. intros e Hin.
  apply list_elem_of_fmap in Hin as ([x y] & -> & _). by exists x, y.
Qed.

Lemma saves_visits d es0 :
  saves (rev (map (fun xy => EvGetPixel xy.1 xy.2) d) ++ es0) = saves es0.
Proof.
  unfold saves. eapply omap_frame; [|apply visits_Forall].
  by intros e (x & y & ->).
Qed.

(** script.py past the guard, on a grid covering the image. *)
Lemma convert_v1_run W path grid w h st :
  grid_covers grid w h -> letters_ok W w ->
  exists ws st' es,
    Script.convert W path grid w h st
    = (Ret (Workbook_save W (mkWorkbook ws "auto") (output_path_of W path)), st')
    /\ events st' = es ++ events st
    /\ Forall is_work_event es
    /\ saves (events st') = (mkWorkbook ws "auto", output_path_of W path)
                              :: saves (events st)
    /\ stdin st' = stdin st
    /\ painted grid w h st' ws.
Proof.
  intros Hcov Hok.
  destruct (create_v1_run W grid w h (output_path_of W path) st Hcov Hok)
    as (ws & st1 & Hrun & Hsave & _ & Hin & _ & _ & Hpaint & _).
  destruct (convert_v1_emits W path grid w h st) as (es & Hes & HP).
  unfold Script.convert in *. erewrite bind_Ret in * by exact Hrun.
  exists ws.
  destruct (Workbook_save W {| active := ws; calcMode := "auto" |} (output_path_of W path));
    (eexists _, es; split; [reflexivity|]); cbn [events stdin] in *;
    (split_and!; [exact Hes | exact HP | | exact Hin | exact Hpaint]);
    by rewrite ?saves_cons_print.
Qed.

(** scriptV2 past the guard: the image is read, then converted. *)
Lemma convert_v2_run W path image st :
  letters_ok W (width_of image) ->
  progress_ok (width_of image) (height_of image) ->
  exists ws st' es,
    ScriptV2.convert W path image st
    = (Ret (Workbook_save W (mkWorkbook ws "manual") (output_path_of W path)), st')
    /\ events st' = es ++ events st
    /\ Forall is_convert_event es
    /\ saves (events st') = (mkWorkbook ws "manual", output_path_of W path)
                              :: saves (events st)
    /\ stdin st' = stdin st
    /\ painted (grid_of image) (width_of image) (height_of image) st' ws.
Proof.
  intros Hok Hprog.
  destruct (create_v2_run W (grid_of image) (width_of image) (height_of image)
              (output_path_of W path)
              (mkStore (rev (map (fun xy => EvGetPixel xy.1 xy.2)
                               (row_major (width_of image) (height_of image)))
                          ++ EvPrint (MsgProcessing (width_of image) (height_of image))
                               :: events st)
                       (heap st) (stdin st))
              (grid_of_covers image) Hok Hprog)
    as (ws & cache & st1 & Hrun & Hsave & _ & Hin & _ & _ & Hpaint & _).
  cbn [events stdin] in Hsave, Hin.
  rewrite saves_visits, saves_cons_print in Hsave.
  assert (exists st',
    ScriptV2.convert W path image st
    = (Ret (Workbook_save W (mkWorkbook ws "manual") (output_path_of W path)), st')
    /\ saves (events st') = (mkWorkbook ws "manual", output_path_of W path)
                              :: saves (events st)
    /\ stdin st' = stdin st
    /\ painted (grid_of image) (width_of image) (height_of image) st' ws)
    as (st' & Hconv & Hsave' & Hin' & Hpaint').
  { unfold ScriptV2.convert.
    erewrite bind_Ret by apply get_pixel_colors_run. cbv beta iota zeta.
    erewrite bind_Ret by exact Hrun.
    destruct (Workbook_save W {| active := ws; calcMode := "manual" |}
                (output_path_of W path));
      (eexists; split; [reflexivity|]); cbn [events stdin];
      (split_and!; [ | exact Hin | exact Hpaint]);
      by rewrite ?saves_cons_print. }
  destruct (convert_v2_emits W path image st) as (es & Hes & HP).
  rewrite Hconv in Hes. cbn [snd] in Hes.
  by exists ws, st', es.
Qed.

(* ================================================================== *)
(** * The size guards *)
(* ================================================================== *)

Lemma omap_quiet {A} (f : Event -> option A) es :
  Forall (fun e => f e = None) es -> omap f es = [].
Proof.
  induction 1 as [|e es He _ IH]; [done|].
  cbn [omap list_omap]. by rewrite He.
Qed.

Lemma pixel_visits_quiet es :
  Forall (fun e => match e with EvGetPixel _ _ => False | _ => True end) es ->
  pixel_visits es = [].
Proof.
  intros H. unfold pixel_visits. rewrite omap_quiet; [done|].
  eapply Forall_impl; [exact H|]. by intros [].
Qed.

Lemma errors_printed_quiet es :
  Forall (fun e => match e with EvPrint m => is_error_msg m = false | _ => True end) es ->
  errors_printed es = [].
Proof.
  unfold errors_printed, printed.
  induction 1 as [|e es He _ IH]; [done|].
  destruct e; try exact IH. cbn [omap list_omap].
  rewrite filter_cons_False; [exact IH|]. by rewrite He.
Qed.

(** The events logged on the way to a guard, by their kinds. *)
Lemma to_guard_Forall (P : Event -> Prop) es path :
  (forall e, is_open_or_convert e -> P e) ->
  P (EvPrint (MsgLoading path)) -> P (EvExists path) ->
  Forall is_open_or_convert es ->
  Forall P (es ++ [EvPrint (MsgLoading path); EvExists path]).
Proof.
  intros Hoc Hl He Hes. apply Forall_app. split.
  - eapply Forall_impl; [exact Hes | exact Hoc].
  - by repeat constructor.
Qed.

Lemma visits_Forall' (P : Event -> Prop) (d : list (nat * nat)) :
  (forall x y, P (EvGetPixel x y)) ->
  Forall P (rev (map (fun xy => EvGetPixel xy.1 xy.2) d)).
Proof.
  intros HP. eapply Forall_impl; [apply visits_Forall|].
  by intros e (x & y & ->).
Qed.

(** What script.py has logged when it reaches its guard: every pixel
    has been read; nothing was asked, saved or reported as an error. *)
Lemma v1_guard_store W path image :
  os_path_exists W path = true ->
  has_valid_extension path = true ->
  decoded W path = Some image ->
  exists pre,
    (forall st,
       Script.image_to_excel W path st
       = Script.size_guard W path (grid_of image) (width_of image) (height_of image)
           (mkStore (pre ++ events st) (heap st) (stdin st)))
    /\ pixel_visits pre = row_major (width_of image) (height_of image)
    /\ prompts pre = [] /\ saves pre = [] /\ quantizes pre = []
    /\ errors_printed pre = [].
Proof.
  intros Hex Hext Hd.
  destruct (v1_reaches_guard W path image Hex Hext Hd) as (es & Hes & Hrun).
  pose (visits := rev (map (fun xy => EvGetPixel xy.1 xy.2)
                         (row_major (width_of image) (height_of image)))).
  pose (rest := EvPrint (MsgProcessing (width_of image) (height_of image))
                  :: es ++ [EvPrint (MsgLoading path); EvExists path]).
  exists (visits ++ rest).
  split.
  { intros st. rewrite Hrun. do 2 f_equal. unfold visits, rest.
    rewrite <- !app_assoc. cbn [app]. by rewrite <- app_assoc. }
  assert (forall P : Event -> Prop,
            (forall m, ~ is_error_msg m = true -> P (EvPrint m)) ->
            (forall e, is_open_or_convert e -> P e) ->
            (forall p, P (EvExists p)) -> Forall P rest) as Hrest.
  { intros P Hp Hoc Hx. constructor; [by apply Hp|].
    apply to_guard_Forall; [exact Hoc | by apply Hp | apply Hx | exact Hes]. }
  split_and!.
  - rewrite pixel_visits_app, pixel_visits_quiet.
    + apply pixel_visits_rev_map.
    + apply Hrest; [done | by intros [] | done].
  - unfold prompts. rewrite omap_app, !omap_quiet; [done | |].
    + apply Hrest; [done | by intros [] | done].
    + by apply visits_Forall'.
  - unfold saves. rewrite omap_app, !omap_quiet; [done | |].
    + apply Hrest; [done | by intros [] | done].
    + by apply visits_Forall'.
  - unfold quantizes. rewrite omap_app, !omap_quiet; [done | |].
    + apply Hrest; [done | by intros [] | done].
    + by apply visits_Forall'.
  - rewrite errors_printed_app, !errors_printed_quiet; [done | |].
    + apply Hrest; [|by intros [] | done].
      intros m Hm. by destruct (is_error_msg m).
    + by apply visits_Forall'.
Qed.

(** What scriptV2 has logged when it reaches its guard: no pixel has
    been read yet. *)
Lemma v2_guard_store W path image :
  os_path_exists W path = true ->
  has_valid_extension path = true ->
  decoded W path = Some image ->
  exists pre,
    (forall st,
       ScriptV2.image_to_excel W path st
       = ScriptV2.size_guard W path image
           (mkStore (pre ++ events st) (heap st) (stdin st)))
    /\ pixel_visits pre = []
    /\ prompts pre = [] /\ saves pre = [] /\ quantizes pre = []
    /\ errors_printed pre = []
    /\ Forall (fun m => m <> MsgCancelled) (printed pre).
Proof.
  intros Hex Hext Hd.
  destruct (v2_reaches_guard W path image Hex Hext Hd) as (es & Hes & Hrun).
  exists (es ++ [EvPrint (MsgLoading path); EvExists path]).
  split.
  { intros st. rewrite Hrun. do 2 f_equal. by rewrite <- app_assoc. }
  split_and!.
  - apply pixel_visits_quiet, to_guard_Forall; [by intros [] | done..].
  - apply omap_quiet, to_guard_Forall; [by intros [] | done..].
  - apply omap_quiet, to_guard_Forall; [by intros [] | done..].
  - apply omap_quiet, to_guard_Forall; [by intros [] | done..].
  - apply errors_printed_quiet, to_guard_Forall; [by intros [] | done..].
  - unfold printed. rewrite omap_app, omap_quiet.
    + by repeat constructor.
    + eapply Forall_impl; [exact Hes|]. by intros [].
Qed.

(** ** script.py's guard *)

Lemma v1_guard_skip W path grid w h st :
  (Z.of_nat w * Z.of_nat h <= threshold)%Z ->
  Script.size_guard W path grid w h st = Script.convert W path grid w h st.
Proof.
  intros Hle. unfold Script.size_guard.
  by rewrite (proj2 (Z.ltb_ge _ _) Hle).
Qed.

Lemma v1_guard_events W path grid w h st :
  (threshold < Z.of_nat w * Z.of_nat h)%Z ->
  exists es,
    events (Script.size_guard W path grid w h st).2
    = es ++ EvInput (PromptContinue (Z.of_nat w * Z.of_nat h)) :: events st
    /\ Forall is_print_or_save es.
Proof.
  intros Hlt. unfold Script.size_guard.
  rewrite (proj2 (Z.ltb_lt _ _) Hlt).
  apply input_then_events. intros r.
  destruct (bool_decide (Py.lower r <> "s"%string)); [solve_emits|].
  eapply emits_weaken; [|apply convert_v1_emits]. by intros [[]| | | | | | |].
Qed.

Lemma v1_guard_cancel W path grid w h st response rest :
  (threshold < Z.of_nat w * Z.of_nat h)%Z ->
  stdin st = response :: rest ->
  Py.lower response <> "s"%string ->
  Script.size_guard W path grid w h st
  = (Ret false,
     mkStore (EvPrint MsgCancelled
                :: EvInput (PromptContinue (Z.of_nat w * Z.of_nat h)) :: events st)
             (heap st) rest).
Proof.
  intros Hlt Hin Hno. unfold Script.size_guard.
  rewrite (proj2 (Z.ltb_lt _ _) Hlt).
  unfold bind at 1, input. rewrite Hin.
  by rewrite bool_decide_eq_true_2.
Qed.

(** ** scriptV2's guard *)

Lemma v2_guard_skip W path image st :
  (total_pixels_of image <= threshold)%Z ->
  ScriptV2.size_guard W path image st = ScriptV2.convert W path image st.
Proof.
  intros Hle. unfold ScriptV2.size_guard, total_pixels_of in *.
  by rewrite (proj2 (Z.ltb_ge _ _) Hle).
Qed.

Lemma reduce_colors_emits W image n : emits no_prompt (ScriptV2.reduce_colors W image n).
Proof. unfold ScriptV2.reduce_colors. solve_emits. Qed.

Lemma v2_guard_events W path image st :
  (threshold < total_pixels_of image)%Z ->
  exists es,
    events (ScriptV2.size_guard W path image st).2
    = es ++ EvInput PromptChoice :: menu (total_pixels_of image) ++ events st
    /\ Forall no_prompt es.
Proof.
  intros Hlt. unfold ScriptV2.size_guard, total_pixels_of in *.
  rewrite (proj2 (Z.ltb_lt _ _) Hlt).
  do 5 (erewrite bind_Ret by reflexivity).
  apply (input_then_events no_prompt). intros r. cbv zeta.
  assert (forall im, emits no_prompt (ScriptV2.convert W path im)) as Hconv.
  { intros im. eapply emits_weaken; [|apply convert_v2_emits]. by intros []. }
  destruct (bool_decide (Py.strip r = "1"%string)).
  - apply emits_bind; [apply reduce_colors_emits | exact Hconv].
  - destruct (bool_decide (Py.strip r = "3"%string)); [solve_emits | apply Hconv].
Qed.

Lemma v2_guard_cancel W path image st response rest :
  (threshold < total_pixels_of image)%Z ->
  stdin st = response :: rest ->
  Py.strip response = "3"%string ->
  ScriptV2.size_guard W path image st
  = (Ret false,
     mkStore (EvPrint MsgCancelled :: EvInput PromptChoice
                :: menu (total_pixels_of image) ++ events st)
             (heap st) rest).
Proof.
  intros Hlt Hin H3. unfold ScriptV2.size_guard, total_pixels_of in *.
  rewrite (proj2 (Z.ltb_lt _ _) Hlt).
  do 5 (erewrite bind_Ret by reflexivity).
  unfold bind at 1, input. cbn [stdin events heap]. rewrite Hin.
  cbv zeta. rewrite H3. reflexivity.
Qed.

Lemma v2_guard_other W path image st response rest :
  (threshold < total_pixels_of image)%Z ->
  stdin st = response :: rest ->
  Py.strip response <> "1"%string ->
  Py.strip response <> "3"%string ->
  ScriptV2.size_guard W path image st
  = ScriptV2.convert W path image
      (mkStore (EvInput PromptChoice :: menu (total_pixels_of image) ++ events st)
               (heap st) rest).
Proof.
  intros Hlt Hin H1 H3. unfold ScriptV2.size_guard, total_pixels_of in *.
  rewrite (proj2 (Z.ltb_lt _ _) Hlt).
  do 5 (erewrite bind_Ret by reflexivity).
  unfold bind at 1, input. cbn [stdin events heap]. rewrite Hin.
  cbv zeta. by rewrite !bool_decide_eq_false_2.
Qed.

(* ================================================================== *)
(** * The size guard: the claims *)
(* ================================================================== *)

Lemma prompts_app es es0 : prompts (es ++ es0) = prompts es ++ prompts es0.
Proof. unfold prompts. apply omap_app. Qed.

Lemma saves_app es es0 : saves (es ++ es0) = saves es ++ saves es0.
Proof. unfold saves. apply omap_app. Qed.

Lemma prompts_no_prompt es : Forall no_prompt es -> prompts es = [].
Proof.
  intros H. apply omap_quiet. eapply Forall_impl; [exact H|]. by intros [].
Qed.

Lemma prompts_quiet (P : Event -> Prop) es :
  (forall e, P e -> no_prompt e) -> Forall P es -> prompts es = [].
Proof.
  intros HP H. apply prompts_no_prompt. eapply Forall_impl; [exact H | exact HP].
Qed.

Lemma work_no_prompt e : is_work_event e -> no_prompt e.
Proof. by destruct e as [[]| | | | | | |]. Qed.

Lemma convert_no_prompt e : is_convert_event e -> no_prompt e.
Proof. by destruct e as [[]| | | | | | |]. Qed.

Lemma print_or_save_no_prompt e : is_print_or_save e -> no_prompt e.
Proof. by destruct e. Qed.

Lemma v1_prompts W path st image :
  os_path_exists W path = true ->
  has_valid_extension path = true ->
  decoded W path = Some image ->
  prompts (events (Script.image_to_excel W path st).2)
  = (if (threshold <? total_pixels_of image)%Z
     then [PromptContinue (total_pixels_of image)] else [])
    ++ prompts (events st).
Proof.
  intros Hex Hext Hd.
  destruct (v1_guard_store W path image Hex Hext Hd)
    as (pre & Hrun & _ & Hpr & _).
  rewrite Hrun.
  unfold total_pixels_of.
  destruct (threshold <? Z.of_nat (width_of image) * Z.of_nat (height_of image))%Z
    eqn:Hcmp.
  - apply Z.ltb_lt in Hcmp.
    edestruct v1_guard_events as (es & -> & Hes); [exact Hcmp|].
    cbn [events]. rewrite prompts_app.
    change (prompts (EvInput ?p :: ?l)) with (p :: prompts l).
    by rewrite prompts_app, Hpr, (prompts_quiet _ _ print_or_save_no_prompt Hes).
  - apply Z.ltb_ge in Hcmp. rewrite v1_guard_skip by exact Hcmp.
    destruct (convert_v1_emits W path (grid_of image) (width_of image)
                (height_of image) (mkStore (pre ++ events st) (heap st) (stdin st)))
      as (es & -> & Hes).
    cbn [events].
    by rewrite !prompts_app, Hpr, (prompts_quiet _ _ work_no_prompt Hes).
Qed.

Lemma v2_prompts W path st image :
  os_path_exists W path = true ->
  has_valid_extension path = true ->
  decoded W path = Some image ->
  prompts (events (ScriptV2.image_to_excel W path st).2)
  = (if (threshold <? total_pixels_of image)%Z then [PromptChoice] else [])
    ++ prompts (events st).
Proof.
  intros Hex Hext Hd.
  destruct (v2_guard_store W path image Hex Hext Hd)
    as (pre & Hrun & _ & Hpr & _).
  rewrite Hrun.
  destruct (threshold <? total_pixels_of image)%Z eqn:Hcmp.
  - apply Z.ltb_lt in Hcmp.
    edestruct v2_guard_events as (es & -> & Hes); [exact Hcmp|].
    cbn [events]. rewrite prompts_app.
    change (prompts (EvInput ?p :: ?l)) with (p :: prompts l).
    by rewrite !prompts_app, Hpr, prompts_no_prompt.
  - apply Z.ltb_ge in Hcmp. rewrite v2_guard_skip by exact Hcmp.
    destruct (convert_v2_emits W path image
                (mkStore (pre ++ events st) (heap st) (stdin st)))
      as (es & -> & Hes).
    cbn [events].
    by rewrite !prompts_app, Hpr, (prompts_quiet _ _ convert_no_prompt Hes).
Qed.

(** At or below the threshold the conversion goes straight through. *)
Lemma v1_direct W path st image :
  os_path_exists W path = true ->
  has_valid_extension path = true ->
  decoded W path = Some image ->
  (total_pixels_of image <= threshold)%Z ->
  letters_ok W (width_of image) ->
  exists wb st',
    Script.image_to_excel W path st
    = (Ret (Workbook_save W wb (output_path_of W path)), st')
    /\ saves (events st') = (wb, output_path_of W path) :: saves (events st)
    /\ stdin st' = stdin st
    /\ painted (grid_of image) (width_of image) (height_of image) st' (active wb).
Proof.
  intros Hex Hext Hd Hle Hok.
  destruct (v1_guard_store W path image Hex Hext Hd)
    as (pre & Hrun0 & _ & _ & Hsv & _).
  rewrite Hrun0.
  rewrite v1_guard_skip by exact Hle.
  destruct (convert_v1_run W path (grid_of image) (width_of image) (height_of image)
              (mkStore (pre ++ events st) (heap st) (stdin st))
              (grid_of_covers image) Hok)
    as (ws & st' & es & Hrun & _ & _ & Hsave & Hin & Hpaint).
  exists (mkWorkbook ws "auto"), st'. split_and!; try done.
  rewrite Hsave. cbn [events]. by rewrite saves_app, Hsv.
Qed.

Lemma v2_direct W path st image :
  os_path_exists W path = true ->
  has_valid_extension path = true ->
  decoded W path = Some image ->
  (total_pixels_of image <= threshold)%Z ->
  letters_ok W (width_of image) ->
  progress_ok (width_of image) (height_of image) ->
  exists wb st',
    ScriptV2.image_to_excel W path st
    = (Ret (Workbook_save W wb (output_path_of W path)), st')
    /\ saves (events st') = (wb, output_path_of W path) :: saves (events st)
    /\ stdin st' = stdin st
    /\ painted (grid_of image) (width_of image) (height_of image) st' (active wb).
Proof.
  intros Hex Hext Hd Hle Hok Hprog.
  destruct (v2_guard_store W path image Hex Hext Hd)
    as (pre & Hrun0 & _ & _ & Hsv & _).
  rewrite Hrun0.
  rewrite v2_guard_skip by exact Hle.
  destruct (convert_v2_run W path image
              (mkStore (pre ++ events st) (heap st) (stdin st)) Hok Hprog)
    as (ws & st' & es & Hrun & _ & _ & Hsave & Hin & Hpaint).
  exists (mkWorkbook ws "manual"), st'. split_and!; try done.
  rewrite Hsave. cbn [events]. by rewrite saves_app, Hsv.
Qed.

(** C5.  In both scripts the size guard asks the user exactly when the
    pixel count exceeds 10,000: an image of exactly 10,000 pixels is not
    asked about and is converted directly, an image of 10,001 pixels is
    asked about. *)
Theorem size_guard_boundary (v : Variant) (W : World) path st image :
  os_path_exists W path = true ->
  accepted_extension path ->
  decoded W path = Some image ->
  let st' := (image_to_excel_of v W path st).2 in
  let total := total_pixels_of image in
  prompts (events st')
  = (if (threshold <? total)%Z then [guard_prompt v total] else [])
    ++ prompts (events st)
  /\ (total = 10000%Z -> prompts (events st') = prompts (events st))
  /\ (total = 10001%Z -> prompts (events st') = guard_prompt v total :: prompts (events st))
  /\ ((total <= threshold)%Z ->
      letters_ok W (width_of image) ->
      progress_ok (width_of image) (height_of image) ->
      exists wb,
        image_to_excel_of v W path st
        = (Ret (Workbook_save W wb (output_path_of W path)), st')
        /\ saves (events st') = (wb, output_path_of W path) :: saves (events st)
        /\ stdin st' = stdin st
        /\ painted (grid_of image) (width_of image) (height_of image) st' (active wb)).
Proof.
  intros Hex Hext%has_valid_extension_accepted Hd st' total.
  assert (prompts (events st')
          = (if (threshold <? total)%Z then [guard_prompt v total] else [])
            ++ prompts (events st)) as Hp.
  { subst st' total. destruct v; [by apply v1_prompts | by apply v2_prompts]. }
  split_and!.
  - exact Hp.
  - intros Ht. by rewrite Hp, Ht.
  - intros Ht. by rewrite Hp, Ht.
  - intros Hle Hok Hprog. subst st' total. destruct v.
    + destruct (v1_direct W path st image Hex Hext Hd Hle Hok)
        as (wb & st1 & Hrun & ?). exists wb. cbn [image_to_excel_of].
      by rewrite Hrun.
    + destruct (v2_direct W path st image Hex Hext Hd Hle Hok Hprog)
        as (wb & st1 & Hrun & ?). exists wb. cbn [image_to_excel_of].
      by rewrite Hrun.
Qed.

Lemma size_guard_boundary_witness :
  total_pixels_of (solid_image 100 100 red) = 10000%Z
  /\ prompts (events (image_to_excel_of V2 threshold_world "image.png" empty_store).2)
     = prompts (events empty_store).
Proof.
  split; [reflexivity|].
  apply (size_guard_boundary V2 threshold_world "image.png" empty_store
           (solid_image 100 100 red)).
  - reflexivity.
  - left. reflexivity.
  - reflexivity.
  - reflexivity.
Defined.





(* ================================================================== *)
(** * Reported failures *)
(* ================================================================== *)

Lemma saves_to_load path st :
  forall es, Forall is_open_or_convert es ->
    saves (EvPrint MsgLoadError :: es ++ EvPrint (MsgLoading path)
             :: EvExists path :: events st) = saves (events st).
Proof.
  intros es Hes. rewrite saves_cons_print, saves_app.
  unfold saves at 1. rewrite omap_quiet; [done|].
  eapply Forall_impl; [exact Hes|]. by intros [].
Qed.

Lemma not_found_run (v : Variant) W path st :
  os_path_exists W path = false ->
  image_to_excel_of v W path st
  = (Ret false,
     mkStore (EvPrint (MsgNotExist path) :: EvExists path :: events st)
             (heap st) (stdin st)).
Proof.
  intros Hex.
  destruct v; cbn [image_to_excel_of];
    unfold Script.image_to_excel, ScriptV2.image_to_excel;
    (erewrite bind_Ret by reflexivity); by rewrite Hex.
Qed.

Lemma bad_extension_run (v : Variant) W path st :
  os_path_exists W path = true ->
  has_valid_extension path = false ->
  image_to_excel_of v W path st
  = (Ret false,
     mkStore (EvPrint MsgBadExtension :: EvExists path :: events st)
             (heap st) (stdin st)).
Proof.
  intros Hex Hext.
  destruct v; cbn [image_to_excel_of];
    unfold Script.image_to_excel, ScriptV2.image_to_excel;
    (erewrite bind_Ret by reflexivity); by rewrite Hex, Hext.
Qed.

Lemma load_failure_run (v : Variant) W path st :
  os_path_exists W path = true ->
  has_valid_extension path = true ->
  decoded W path = None ->
  exists es,
    Forall is_open_or_convert es
    /\ image_to_excel_of v W path st
       = (Ret false,
          mkStore (EvPrint MsgLoadError :: es ++ EvPrint (MsgLoading path)
                     :: EvExists path :: events st)
                  (heap st) (stdin st)).
Proof.
  intros Hex Hext Hd.
  destruct (load_image_none W path Hd) as (es & Hes & Hload).
  exists es. split; [exact Hes|].
  destruct v; cbn [image_to_excel_of];
    unfold Script.image_to_excel, ScriptV2.image_to_excel;
    (erewrite bind_Ret by reflexivity); rewrite Hex, Hext; cbn [negb];
    (erewrite bind_Ret by reflexivity);
    (erewrite bind_Ret by apply Hload); reflexivity.
Qed.

Lemma cancelled_run (v : Variant) W path st image response rest :
  os_path_exists W path = true ->
  has_valid_extension path = true ->
  decoded W path = Some image ->
  (threshold < total_pixels_of image)%Z ->
  stdin st = response :: rest ->
  cancels v response ->
  exists pre,
    image_to_excel_of v W path st
    = (Ret false,
       mkStore (EvPrint MsgCancelled :: EvInput (guard_prompt v (total_pixels_of image))
                  :: pre ++ events st)
               (heap st) rest)
    /\ saves pre = [] /\ errors_printed pre = [].
Proof.
  intros Hex Hext Hd Hlt Hin Hc. destruct v; cbn [image_to_excel_of cancels] in *.
  - destruct (v1_guard_store W path image Hex Hext Hd)
      as (pre & Hrun & _ & _ & Hsv & _ & Herr).
    exists pre. split; [|done].
    rewrite Hrun. by erewrite v1_guard_cancel.
  - destruct (v2_guard_store W path image Hex Hext Hd)
      as (pre & Hrun & _ & _ & Hsv & _ & Herr & _).
    exists (menu (total_pixels_of image) ++ pre). split_and!.
    + rewrite Hrun. erewrite v2_guard_cancel by done. cbn [events heap]. by rewrite <- app_assoc.
    + by rewrite saves_app, Hsv.
    + by rewrite errors_printed_app, Herr.
Qed.

(** X18.  The failures [image_to_excel] reports.  In both scripts, when
    the path does not exist, when its extension is not .png, .jpg or
    .jpeg (whatever the case), when [load_image] gives up on the file
    ([Image.open] or the conversion to RGB raises inside its [try] and
    it returns [None]), or when the user cancels at the size guard,
    [image_to_excel] returns [False] without raising and saves nothing.
    A missing path and a wrong extension are reported before the file
    is opened; a cancellation is reported by the cancellation notice
    and prints no error message. *)
Theorem reported_failures_return_false (v : Variant) (W : World) path st (f : Failure) :
  failure v W path st f ->
  exists st',
    image_to_excel_of v W path st = (Ret false, st')
    /\ saves (events st') = saves (events st)
    /\ heap st' = heap st
    /\ head (printed (events st')) = Some (report f path)
    /\ (f = NotFound \/ f = BadExtension -> opens (events st') = opens (events st))
    /\ (f = Cancelled -> errors_printed (events st') = errors_printed (events st)).
Proof.
  destruct f; cbn [failure report].
  - intros Hex. rewrite (not_found_run v W path st Hex).
    eexists. split; [reflexivity|]. by split_and!.
  - intros [Hex Hext%has_valid_extension_rejected].
    rewrite (bad_extension_run v W path st Hex Hext).
    eexists. split; [reflexivity|]. by split_and!.
  - intros (Hex & Hext%has_valid_extension_accepted & Hd).
    destruct (load_failure_run v W path st Hex Hext Hd) as (es & Hes & ->).
    eexists. split; [reflexivity|]. cbn [events heap].
    split_and!; try done.
    + by apply saves_to_load.
    + by intros [|].
  - intros (Hex & Hext%has_valid_extension_accepted
            & image & response & rest & Hd & Hlt & Hin & Hc).
    destruct (cancelled_run v W path st image response rest Hex Hext Hd Hlt Hin Hc)
      as (pre & -> & Hsv & Herr).
    eexists. split; [reflexivity|]. cbn [events heap].
    split_and!; try done.
    + change (saves (?a :: ?b :: ?l)) with (saves l). by rewrite saves_app, Hsv.
    + by intros [|].
    + intros _.
      change (errors_printed (?a :: ?b :: ?l)) with (errors_printed l).
      by rewrite errors_printed_app, Herr.
Qed.

Lemma reported_failures_return_false_witness :
  exists st',
    image_to_excel_of V1 scenario_world "missing.png" empty_store = (Ret false, st')
    /\ saves (events st') = saves (events empty_store).
Proof.
  destruct (reported_failures_return_false V1 scenario_world "missing.png" empty_store NotFound)
    as (st' & Hrun & Hsaves & _).
  - reflexivity.
  - exists st'. split; assumption.
Defined.

(* ================================================================== *)
(** * The three-way choice of scriptV2 *)
(* ================================================================== *)

(** C10, as stated, fails: the answer is stripped of surrounding
    whitespace before it is compared, so the response " 3", which is
    neither "3" nor "1", cancels the conversion. *)
Lemma padded_choice_counterexample :
  let run := ScriptV2.image_to_excel big_world "big.png"
               (store_with_input [" 3"%string]) in
  " 3"%string <> "3"%string /\ " 3"%string <> "1"%string
  /\ run.1 = Ret false
  /\ head (printed (events run.2)) = Some MsgCancelled
  /\ saves (events run.2) = []
  /\ pixel_visits (events run.2) = [].
Proof.
  cbv zeta. split; [discriminate|]. split; [discriminate|].
  vm_compute. by split_and!.
Qed.

Lemma quantizes_app es es0 : quantizes (es ++ es0) = quantizes es ++ quantizes es0.
Proof. unfold quantizes. apply omap_app. Qed.

Lemma convert_events_quiet es :
  Forall is_convert_event es ->
  quantizes es = [] /\ prompts es = []
  /\ Forall (fun m => m <> MsgCancelled) (printed es).
Proof.
  intros H. split_and!.
  - apply omap_quiet. eapply Forall_impl; [exact H|]. by intros [[]| | | | | | |].
  - by apply (prompts_quiet _ _ convert_no_prompt).
  - unfold printed. induction H as [|e es He _ IH]; [constructor|].
    destruct e as [m| | | | | | |]; try exact IH.
    cbn [omap list_omap]. constructor; [|exact IH].
    intros ->. exact He.
Qed.

Lemma pixel_visits_cons_print m es :
  pixel_visits (EvPrint m :: es) = pixel_visits es.
Proof. reflexivity. Qed.

(** The [getpixel] calls of a conversion in scriptV2, whatever its
    outcome: the coordinates of the image in row-major order. *)
Lemma convert_v2_visits W path image st :
  pixel_visits (events (ScriptV2.convert W path image st).2)
  = pixel_visits (events st) ++ row_major (width_of image) (height_of image).
Proof.
  unfold ScriptV2.convert.
  erewrite bind_Ret by apply get_pixel_colors_run. cbv beta iota zeta.
  match goal with |- context [bind ?m ?k ?s] =>
    assert (emits is_work_event (bind m k)) as Hem end.
  { apply emits_bind; [apply create_v2_emits|]. intros []; solve_emits. }
  match goal with |- context [bind ?m ?k ?s] =>
    destruct (Hem s) as (es & -> & Hes) end.
  cbn [events]. rewrite pixel_visits_app.
  rewrite (pixel_visits_quiet es).
  - by rewrite app_nil_r, pixel_visits_app, pixel_visits_cons_print,
      pixel_visits_rev_map.
  - eapply Forall_impl; [exact Hes|]. by intros [[]| | | | | | |].
Qed.

(** C10 (amended).  At the three-way prompt of scriptV2, every response
    whose whitespace-stripped form is neither "1" nor "3" -- the empty
    string and any invalid input included -- behaves as the answer "2":
    nothing is quantized, nothing is cancelled, and the image as decoded
    is read and converted. *)
Theorem other_choices_continue (W : World) path st image response rest :
  os_path_exists W path = true ->
  accepted_extension path ->
  decoded W path = Some image ->
  (threshold < total_pixels_of image)%Z ->
  stdin st = response :: rest ->
  Py.strip response <> "1"%string ->
  Py.strip response <> "3"%string ->
  let st' := (ScriptV2.image_to_excel W path st).2 in
  ScriptV2.image_to_excel W path st
  = ScriptV2.image_to_excel W path (mkStore (events st) (heap st) ("2"%string :: rest))
  /\ quantizes (events st') = quantizes (events st)
  /\ (exists es, events st' = es ++ events st
                 /\ Forall (fun m => m <> MsgCancelled) (printed es))
  /\ pixel_visits (events st')
     = pixel_visits (events st) ++ row_major (width_of image) (height_of image)
  /\ (letters_ok W (width_of image) ->
      progress_ok (width_of image) (height_of image) ->
      exists wb,
        ScriptV2.image_to_excel W path st
        = (Ret (Workbook_save W wb (output_path_of W path)), st')
        /\ saves (events st') = (wb, output_path_of W path) :: saves (events st)
        /\ stdin st' = rest
        /\ painted (grid_of image) (width_of image) (height_of image) st' (active wb)).
Proof.
  intros Hex Hext%has_valid_extension_accepted Hd Hlt Hin H1 H3 st'.
  destruct (v2_guard_store W path image Hex Hext Hd)
    as (pre & Hrun & Hvis & Hpr & Hsv & Hq & _ & Hncpre).
  pose (st0 := mkStore (EvInput PromptChoice :: menu (total_pixels_of image)
                          ++ pre ++ events st) (heap st) rest).
  assert (ScriptV2.image_to_excel W path st = ScriptV2.convert W path image st0)
    as Hgo.
  { rewrite Hrun. by erewrite v2_guard_other. }
  assert (events st0 = (EvInput PromptChoice :: menu (total_pixels_of image) ++ pre)
                         ++ events st) as Hst0.
  { unfold st0. cbn [events app]. by rewrite <- app_assoc. }
  destruct (convert_v2_emits W path image st0) as (es & Hes & HP).
  rewrite <- Hgo in Hes. fold st' in Hes.
  destruct (convert_events_quiet es HP) as (Hqes & _ & Hnc).
  split_and!.
  - rewrite Hgo, Hrun.
    by erewrite v2_guard_other; [|exact Hlt|reflexivity|done|done].
  - rewrite Hes, Hst0, !quantizes_app, Hqes.
    change (quantizes (EvInput ?p :: ?l)) with (quantizes l).
    by rewrite quantizes_app, Hq.
  - exists (es ++ EvInput PromptChoice :: menu (total_pixels_of image) ++ pre).
    split; [by rewrite Hes, Hst0, app_assoc|].
    rewrite printed_app. apply Forall_app. split; [exact Hnc|].
    change (printed (EvInput ?p :: ?l)) with (printed l).
    rewrite printed_app. apply Forall_app. split; [by repeat constructor|].
    exact Hncpre.
  - subst st'. rewrite Hgo, convert_v2_visits, Hst0, pixel_visits_app.
    assert (pixel_visits (EvInput PromptChoice :: menu (total_pixels_of image) ++ pre)
            = []) as Hz.
    { change (pixel_visits (EvInput ?p :: menu ?t ++ ?l))
        with (pixel_visits (menu t ++ l)).
      rewrite pixel_visits_app, Hvis. reflexivity. }
    by rewrite Hz, app_nil_r.
  - intros Hok Hprog.
    destruct (convert_v2_run W path image st0 Hok Hprog)
      as (ws & st1 & es1 & Hconv & _ & _ & Hsave & Hstdin & Hpaint).
    exists (mkWorkbook ws "manual"). subst st'. rewrite Hgo, Hconv. cbn [snd].
    split_and!; try done.
    rewrite Hsave, Hst0, saves_app.
    change (saves (EvInput ?p :: menu ?t ++ ?l)) with (saves l).
    by rewrite Hsv.
Qed.

Lemma other_choices_continue_witness :
  let st := store_with_input [""%string] in
  quantizes (events (ScriptV2.image_to_excel big_world "big.png" st).2)
  = quantizes (events st).
Proof.
  apply (other_choices_continue big_world "big.png" (store_with_input [""%string])
           (solid_image 101 100 red) ""%string []).
  - reflexivity.
  - left. reflexivity.
  - reflexivity.
  - reflexivity.
  - reflexivity.
  - vm_compute. discriminate.
  - vm_compute. discriminate.
Defined.

(* ================================================================== *)
(** * Two remarks *)
(* ================================================================== *)

(** A file [Image.open] raises on: both scripts report the error and
    return [False] without saving. *)
Lemma undecodable_file_example :
  let run1 := Script.image_to_excel (broken_file_world "photo.jpg") "photo.jpg"
                empty_store in
  let run2 := ScriptV2.image_to_excel (broken_file_world "photo.jpg") "photo.jpg"
                empty_store in
  run1 = run2
  /\ run1.1 = Ret false
  /\ printed (events run1.2) = [MsgLoadError; MsgLoading "photo.jpg"]
  /\ saves (events run1.2) = [].
Proof. vm_compute. by split_and!. Qed.

(** The progress report of scriptV2 divides by [width * height]: called
    with width 0 and ten rows, scriptV2's [create_excel_with_colors]
    raises [ZeroDivisionError] at the tenth row, where script.py's
    returns normally.  This is why [progress_ok] is assumed above. *)
Lemma progress_report_divides_by_zero :
  (ScriptV2.create_excel_with_colors scenario_world [] 0 10 "image.xlsx"
     empty_store).1 = Raise ZeroDivisionError
  /\ (Script.create_excel_with_colors scenario_world [] 0 10 "image.xlsx"
        empty_store).1 = Ret true.
Proof. vm_compute. by split. Qed.

(* ================================================================== *)
(** * Loops that raise *)
(* ================================================================== *)

Lemma for_app_Ret {S : Type} (body : nat -> S -> M S) xs ys s st s1 st1 :
  for_ xs body s st = (Ret s1, st1) ->
  for_ (xs ++ ys) body s st = for_ ys body s1 st1.
Proof.
  revert s st. induction xs as [|x xs IH]; intros s st Hrun.
  - by injection Hrun as -> ->.
  - cbn [for_ app] in *. unfold bind in *.
    destruct (body x s st) as [[s'|e] st']; [by apply IH | discriminate].
Qed.

(** A loop whose iterations succeed up to an element on which the body
    raises ends with that exception. *)
Lemma for_raise_at {S : Type} (body : nat -> S -> M S) pre x post s st s1 st1 e st2 :
  for_ pre body s st = (Ret s1, st1) ->
  body x s1 st1 = (Raise e, st2) ->
  for_ (pre ++ x :: post) body s st = (Raise e, st2).
Proof.
  intros Hpre Hx. rewrite (for_app_Ret _ _ _ _ _ _ _ Hpre).
  cbn [for_]. by rewrite (bind_Raise _ _ _ _ _ Hx).
Qed.

(** The first element of a list on which a decidable property fails. *)
Lemma first_failure (P : nat -> Prop) `{!forall x, Decision (P x)} (xs : list nat) :
  Forall P xs
  \/ exists pre x post, xs = pre ++ x :: post /\ Forall P pre /\ ~ P x.
Proof.
  induction xs as [|a xs IH]; [left; constructor|].
  destruct (decide (P a)) as [Ha|Ha].
  - destruct IH as [Hall|(pre & x & post & -> & Hpre & Hx)].
    + left. by constructor.
    + right. exists (a :: pre), x, post. split_and!; [done | by constructor | done].
  - right. exists [], a, xs. split_and!; [done | constructor | done].
Qed.

Lemma index2_raise grid y x st :
  pixel_at grid y x = None -> index2 grid y x st = (Raise IndexError, st).
Proof.
  unfold pixel_at, index2. destruct (grid !! y) as [row|]; [|done].
  cbn. by intros ->.
Qed.

(** A grid that does not cover the image has a first uncovered row, and
    that row a first missing entry. *)
Lemma uncovered_row grid w h :
  ~ grid_covers grid w h ->
  exists pre y post,
    range h = pre ++ y :: post
    /\ (forall y', y' ∈ pre -> forall x, x < w -> is_Some (pixel_at grid y' x))
    /\ exists prex x postx,
         range w = prex ++ x :: postx
         /\ (forall x', x' ∈ prex -> is_Some (pixel_at grid y x'))
         /\ pixel_at grid y x = None.
Proof.
  intros Hno.
  destruct (first_failure
              (fun y => Forall (fun x => is_Some (pixel_at grid y x)) (range w))
              (range h)) as [Hall|(pre & y & post & Hsplit & Hpre & Hy)].
  - exfalso. apply Hno. intros y x Hy Hx.
    rewrite Forall_forall in Hall. specialize (Hall y ltac:(by apply range_elem)).
    rewrite Forall_forall in Hall. apply Hall. by apply range_elem.
  - exists pre, y, post. split; [done|]. split.
    + intros y' Hy' x Hx. rewrite Forall_forall in Hpre.
      specialize (Hpre y' Hy'). rewrite Forall_forall in Hpre.
      apply Hpre. by apply range_elem.
    + destruct (first_failure (fun x => is_Some (pixel_at grid y x)) (range w))
        as [Hall|(prex & x & postx & Hsplitx & Hprex & Hx)]; [done|].
      exists prex, x, postx. split; [done|]. split.
      * intros x' Hx'. rewrite Forall_forall in Hprex. by apply Hprex.
      * destruct (pixel_at grid y x); [|done]. exfalso. apply Hx. by eexists.
Qed.

Lemma fill_loop_v1_raise grid st0 ws0 w h :
  ~ grid_covers grid w h ->
  cells ws0 = ∅ ->
  exists st' es,
    for_ (range h) (Script.fill_row grid w h) ws0 st0 = (Raise IndexError, st')
    /\ events st' = es ++ events st0 /\ Forall is_print es.
Proof.
  intros Hno Hempty.
  destruct (uncovered_row grid w h Hno)
    as (pre & y & post & -> & Hpre & prex & x & postx & Hsplitx & Hprex & Hx).
  (* the rows before the uncovered one *)
  pose (I := fun (dy : list nat) (ws' : Worksheet) (st' : Store) =>
    fill_inv_v1 grid st0 ws0
      (flat_map (fun y => map (fun x => (x, y)) (range w)) dy) ws' st').
  destruct (for_invariant I (Script.fill_row grid w h) pre) with (d := @nil nat)
    (s := ws0) (st := st0) as (ws1 & st1 & Hrun1 & HI1).
  { intros dy y' ws' st' Hy' HI.
    destruct (fill_row_v1 grid st0 ws0 _ w h y' ws' st' HI (Hpre y' Hy'))
      as (ws2 & st2 & Hrun & HI2).
    exists ws2, st2. split; [done|].
    unfold I. rewrite flat_map_app. cbn [flat_map]. by rewrite app_nil_r. }
  { unfold I, fill_inv_v1. cbn [flat_map keys_at omap map].
    split_and!; try done.
    - by rewrite app_nil_r.
    - by exists [].
    - intros r c hd. by rewrite Hempty, lookup_empty.
    - intros x' y' Hxy. by apply elem_of_nil in Hxy. }
  unfold I in HI1. cbn [app] in HI1.
  (* the cells of the uncovered row before the missing entry *)
  pose (J := fun (dx : list nat) (ws' : Worksheet) (st' : Store) =>
    fill_inv_v1 grid st0 ws0
      (flat_map (fun y => map (fun x => (x, y)) (range w)) pre
         ++ map (fun x => (x, y)) dx) ws' st').
  destruct (for_invariant J (Script.fill_cell grid y) prex) with (d := @nil nat)
    (s := ws1) (st := st1) as (ws2 & st2 & Hrun2 & HI2).
  { intros dx x' ws' st' Hx' HJ.
    destruct (Hprex x' Hx') as [p Hp].
    destruct (fill_cell_v1 _ _ _ _ _ _ _ _ _ HJ Hp) as (ws3 & st3 & Hrun & HI3).
    exists ws3, st3. split; [done|].
    unfold J. by rewrite map_app, app_assoc. }
  { unfold J. cbn [map]. by rewrite app_nil_r. }
  destruct HI2 as (_ & _ & (es & Hes & Hpr) & _).
  exists st2, es. split; [|done].
  eapply for_raise_at; [exact Hrun1|].
  unfold Script.fill_row. rewrite Hsplitx.
  apply bind_Raise. eapply for_raise_at; [exact Hrun2|].
  unfold Script.fill_cell. apply bind_Raise. by apply index2_raise.
Qed.

Lemma fill_loop_v2_raise grid st0 ws0 w h :
  ~ grid_covers grid w h ->
  cells ws0 = ∅ ->
  exists st' es,
    for_ (range h) (ScriptV2.fill_row grid w h (w * h)) (ws0, ∅, 0) st0
    = (Raise IndexError, st')
    /\ events st' = es ++ events st0 /\ Forall is_print es.
Proof.
  intros Hno Hempty.
  assert (0 < w * h) as Hpos.
  { destruct (decide (0 < w * h)) as [|Hz]; [done|]. exfalso. apply Hno.
    intros y x Hy Hx. nia. }
  destruct (uncovered_row grid w h Hno)
    as (pre & y & post & -> & Hpre & prex & x & postx & Hsplitx & Hprex & Hx).
  pose (I := fun (dy : list nat) (l : Locals) (st' : Store) =>
    fill_inv_v2 grid st0 ws0
      (flat_map (fun y => map (fun x => (x, y)) (range w)) dy) l st').
  destruct (for_invariant I (ScriptV2.fill_row grid w h (w * h)) pre)
    with (d := @nil nat) (s := (ws0, (∅ : gmap string nat), 0)) (st := st0)
    as (l1 & st1 & Hrun1 & HI1).
  { intros dy y' l' st' Hy' HI.
    destruct (fill_row_v2 grid st0 ws0 _ w h (w * h) y' l' st' HI (Hpre y' Hy'))
      as (l2 & st2 & Hrun & HI2); [lia|].
    exists l2, st2. split; [done|].
    unfold I. rewrite flat_map_app. cbn [flat_map]. by rewrite app_nil_r. }
  { unfold I, fill_inv_v2. cbn [flat_map keys_at omap map length].
    split_and!; try done.
    - exists []. by rewrite app_nil_r, map_size_empty.
    - by exists [].
    - intros k. rewrite lookup_empty. split; [by intros [? ?] | by intros ?%elem_of_nil].
    - intros r c hd. by rewrite Hempty, lookup_empty.
    - intros x' y' Hxy. by apply elem_of_nil in Hxy. }
  unfold I in HI1. cbn [app] in HI1.
  pose (J := fun (dx : list nat) (l : Locals) (st' : Store) =>
    fill_inv_v2 grid st0 ws0
      (flat_map (fun y => map (fun x => (x, y)) (range w)) pre
         ++ map (fun x => (x, y)) dx) l st').
  destruct (for_invariant J (ScriptV2.fill_cell grid y) prex) with (d := @nil nat)
    (s := l1) (st := st1) as (l2 & st2 & Hrun2 & HI2).
  { intros dx x' l' st' Hx' HJ.
    destruct (Hprex x' Hx') as [p Hp].
    destruct (fill_cell_v2 _ _ _ _ _ _ _ _ _ HJ Hp) as (l3 & st3 & Hrun & HI3).
    exists l3, st3. split; [done|].
    unfold J. by rewrite map_app, app_assoc. }
  { unfold J. cbn [map]. by rewrite app_nil_r. }
  destruct l2 as [[ws2 cache2] processed2].
  destruct HI2 as (_ & _ & (es & Hes & Hpr) & _).
  exists st2, es. split; [|done].
  eapply for_raise_at; [exact Hrun1|].
  unfold ScriptV2.fill_row. rewrite Hsplitx.
  apply bind_Raise. eapply for_raise_at; [exact Hrun2|].
  unfold ScriptV2.fill_cell. apply bind_Raise. by apply index2_raise.
Qed.

(* ================================================================== *)
(** * [create_excel_with_colors]: the ways it raises *)
(* ================================================================== *)

Lemma saves_quiet (P : Event -> Prop) es :
  (forall e, P e -> match e with EvSave _ _ => False | _ => True end) ->
  Forall P es -> saves es = [].
Proof.
  intros HP H. apply omap_quiet. eapply Forall_impl; [exact H|].
  intros e He. specialize (HP e He). by destruct e.
Qed.

(** X1.  A grid with a missing entry.  When [pixel_colors] has no entry at
    some coordinate of the [width] by [height] rectangle, both
    [create_excel_with_colors] raise [IndexError] (the indexing
    [pixel_colors[y][x]] is not guarded), and nothing is saved. *)
Theorem short_grid_raises (W : World) grid w h path st :
  letters_ok W w ->
  ~ grid_covers grid w h ->
  (exists st',
     Script.create_excel_with_colors W grid w h path st = (Raise IndexError, st')
     /\ saves (events st') = saves (events st))
  /\ (exists st',
        ScriptV2.create_excel_with_colors W grid w h path st = (Raise IndexError, st')
        /\ saves (events st') = saves (events st)).
Proof.
  intros Hok Hno. split.
  - unfold Script.create_excel_with_colors.
    erewrite bind_Ret by reflexivity.
    edestruct (column_loop_run W 2%Q w) as (ws1 & Hrun1 & Ht1 & Hr1 & Hc1 & Hcd1);
      [exact Hok | | erewrite bind_Ret by exact Hrun1]; [reflexivity|].
    edestruct (row_loop_sizes 15%Q h ws1) as (ws2 & Hrun2 & Ht2 & Hc2 & Hce2 & Hrd2);
      [| erewrite bind_Ret by exact Hrun2]; [by rewrite Hr1|].
    edestruct (fill_loop_v1_raise grid) as (st' & es & Hrun3 & Hes & Hpr);
      [exact Hno | | erewrite bind_Raise by exact Hrun3]; [by rewrite Hce2, Hc1|].
    exists st'. split; [done|].
    rewrite Hes. cbn [events]. rewrite saves_app, saves_cons_print.
    rewrite (saves_quiet is_print); [done | by intros [] | done].
  - unfold ScriptV2.create_excel_with_colors.
    erewrite bind_Ret by reflexivity.
    edestruct (column_loop_run W (3 # 2)%Q w) as (ws1 & Hrun1 & Ht1 & Hr1 & Hc1 & Hcd1);
      [exact Hok | | erewrite bind_Ret by exact Hrun1]; [reflexivity|].
    edestruct (row_loop_sizes 12%Q h ws1) as (ws2 & Hrun2 & Ht2 & Hc2 & Hce2 & Hrd2);
      [| erewrite bind_Ret by exact Hrun2]; [by rewrite Hr1|].
    edestruct (fill_loop_v2_raise grid) as (st' & es & Hrun3 & Hes & Hpr);
      [exact Hno | | erewrite bind_Raise by exact Hrun3]; [by rewrite Hce2, Hc1|].
    exists st'. split; [done|].
    rewrite Hes. cbn [events]. rewrite saves_app, saves_cons_print.
    rewrite (saves_quiet is_print); [done | by intros [] | done].
Qed.

Lemma short_grid_raises_witness :
  exists st',
    Script.create_excel_with_colors scenario_world [[red]] 2 1 "image.xlsx" empty_store
    = (Raise IndexError, st')
    /\ saves (events st') = saves (events empty_store).
Proof.
  destruct (short_grid_raises scenario_world [[red]] 2 1 "image.xlsx" empty_store)
    as [Hv1 _].
  - apply one_file_world_letters. lia.
  - intros Hcov. destruct (Hcov 0 1) as [p Hp]; [lia | lia | discriminate].
  - exact Hv1.
Defined.

(** The sizing loop stops at the first column openpyxl cannot name. *)
Lemma column_loop_raise (W : World) (v : Q) (w : nat) (ws : Worksheet) (st : Store) :
  ~ letters_ok W w ->
  for_ (range1 w) (fun col ws =>
    letter <- column_letter W col ;;
    ret (set_column_width ws letter v)) ws st = (Raise ValueError, st).
Proof.
  intros Hno.
  destruct (first_failure (fun col => is_Some (get_column_letter W col)) (range1 w))
    as [Hall|(pre & col & post & -> & Hpre & Hcol)].
  - exfalso. apply Hno. intros col Hcol.
    rewrite Forall_forall in Hall. by apply Hall, range1_elem.
  - pose (I := fun (d : list nat) (ws' : Worksheet) (st' : Store) => st' = st).
    edestruct (for_invariant I) with (d := @nil nat) (xs := pre) (s := ws) (st := st)
      as (ws1 & st1 & Hrun & HI); last first.
    + unfold I in HI. subst st1.
      eapply for_raise_at; [exact Hrun|].
      unfold column_letter.
      destruct (get_column_letter W col) eqn:E; [|done].
      exfalso. apply Hcol. by eexists.
    + done.
    + intros d c ws' st' Hc ->.
      rewrite Forall_forall in Hpre. destruct (Hpre c Hc) as [letter Hl].
      eexists _, _. split; [|done].
      unfold column_letter. by rewrite Hl.
Qed.

(** X2.  A column that cannot be named.  When [get_column_letter] raises
    for a column within the width, both [create_excel_with_colors] raise
    [ValueError] in their first loop: no fill object has been
    constructed and nothing is saved. *)
Theorem unnamed_column_raises (W : World) grid w h path st :
  ~ letters_ok W w ->
  Script.create_excel_with_colors W grid w h path st
  = (Raise ValueError,
     mkStore (EvPrint MsgCreating :: events st) (heap st) (stdin st))
  /\ ScriptV2.create_excel_with_colors W grid w h path st
     = (Raise ValueError,
        mkStore (EvPrint MsgCreating :: events st) (heap st) (stdin st)).
Proof.
  intros Hno. split.
  - unfold Script.create_excel_with_colors.
    erewrite bind_Ret by reflexivity.
    erewrite bind_Raise; [reflexivity|]. by apply column_loop_raise.
  - unfold ScriptV2.create_excel_with_colors.
    erewrite bind_Ret by reflexivity.
    erewrite bind_Raise; [reflexivity|]. by apply column_loop_raise.
Qed.

Lemma unnamed_column_raises_witness :
  (Script.create_excel_with_colors (nameless_world "image.png" (solid_image 1 1 red))
     [[red]] 1 1 "image.xlsx" empty_store).1 = Raise ValueError.
Proof.
  destruct (unnamed_column_raises (nameless_world "image.png" (solid_image 1 1 red))
              [[red]] 1 1 "image.xlsx" empty_store) as [-> _].
  - intros Hok. destruct (Hok 1) as [l Hl]; [lia | discriminate].
  - reflexivity.
Defined.

(** X3.  The progress report of scriptV2.  Its percentage divides by
    [width * height]; with width 0 and at least ten rows, whatever the
    grid, scriptV2's [create_excel_with_colors] raises
    [ZeroDivisionError] at its tenth row, having constructed and saved
    nothing, where script.py's returns what saving answers. *)
Theorem empty_rows_divide_by_zero (W : World) grid h path st :
  10 <= h ->
  ScriptV2.create_excel_with_colors W grid 0 h path st
  = (Raise ZeroDivisionError,
     mkStore (EvPrint MsgCreating :: events st) (heap st) (stdin st))
  /\ exists wb st',
       Script.create_excel_with_colors W grid 0 h path st
       = (Ret (Workbook_save W wb path), st')
       /\ saves (events st') = (wb, path) :: saves (events st)
       /\ heap st' = heap st.
Proof.
  intros Hh. split.
  - unfold ScriptV2.create_excel_with_colors.
    erewrite bind_Ret by reflexivity. cbn [range1 seq for_].
    erewrite bind_Ret by reflexivity.
    edestruct (row_loop_sizes 12%Q h) as (ws2 & Hrun2 & _);
      [| erewrite bind_Ret by exact Hrun2]; [reflexivity|].
    cbv zeta. erewrite bind_Raise; [reflexivity|].
    unfold range. replace h with (9 + S (h - 10)) by lia.
    rewrite seq_app. cbn [seq Nat.add].
    eapply for_raise_at; reflexivity.
  - destruct (create_v1_run W grid 0 h path st) as (ws & st' & Hrun & Hsave & Hheap & _).
    + intros y x _ Hx. lia.
    + intros col Hcol. lia.
    + exists (mkWorkbook ws "auto"), st'. split_and!; [done | done |].
      rewrite Hheap. unfold color_keys, row_major, range. cbn [seq map].
      replace (flat_map _ _) with (@nil (nat * nat)).
      * cbn. by rewrite app_nil_r.
      * symmetry. induction (seq 0 h); [done|]. cbn. done.
Qed.

Lemma empty_rows_divide_by_zero_witness :
  (ScriptV2.create_excel_with_colors scenario_world [] 0 10 "image.xlsx"
     empty_store).1 = Raise ZeroDivisionError.
Proof.
  destruct (empty_rows_divide_by_zero scenario_world [] 10 "image.xlsx" empty_store)
    as [-> _]; [lia | reflexivity].
Defined.

(* ================================================================== *)
(** * More on the codec and on the extension test *)
(* ================================================================== *)

Lemma string_length_app a b :
  String.length (a +:+ b) = String.length a + String.length b.
Proof.
  induction a as [|c a IH]; [done|].
  change (S (String.length (a +:+ b)) = S (String.length a + String.length b)).
  by rewrite IH.
Qed.

Lemma string_forall_app P a b :
  string_forall P (a +:+ b) = string_forall P a && string_forall P b.
Proof.
  induction a as [|c a IH]; [done|].
  change (P c && string_forall P (a +:+ b)
          = P c && string_forall P a && string_forall P b).
  rewrite IH. by destruct (P c).
Qed.

Lemma concat_length (l : list string) :
  String.length (String.concat "" l) = sum_list (map String.length l).
Proof.
  induction l as [|x [|y ys] IH]; [done | cbn; lia |].
  change (String.concat "" (x :: y :: ys))
    with (x +:+ "" +:+ String.concat "" (y :: ys)).
  rewrite !string_length_app, IH. reflexivity.
Qed.

Lemma zeros_length k :
  String.length (String.concat "" (replicate k "0"%string)) = k.
Proof.
  rewrite concat_length. induction k as [|k IH]; [done|].
  cbn. by rewrite IH.
Qed.

Lemma zfill_length w s :
  String.length (Py.zfill w s) = (w - String.length s) + String.length s.
Proof. unfold Py.zfill. by rewrite string_length_app, zeros_length. Qed.

Section HexLength.
Open Scope Z_scope.

Lemma to_hex_go_length fuel n acc :
  (String.length acc <= String.length (Py.to_hex_go fuel n acc))%nat.
Proof.
  revert n acc. induction fuel as [|fuel IH]; intros n acc; [done|].
  cbn [Py.to_hex_go]. destruct (n / 16 =? 0).
  - cbn. lia.
  - etrans; [|apply IH]. cbn. lia.
Qed.

Lemma to_hex_long n :
  256 <= n -> (3 <= String.length (Py.to_hex n))%nat.
Proof.
  intros Hn. unfold Py.to_hex.
  assert (8 <= Z.log2 n) as Hlog by (apply (Z.log2_le_pow2 n 8); lia).
  destruct (Z.to_nat (Z.log2 n)) as [|[|f]] eqn:E; [lia | lia |].
  cbn [Py.to_hex_go].
  assert (16 <= n / 16) as H16 by (apply Z.div_le_lower_bound; lia).
  assert (1 <= n / 16 / 16) as H1 by (apply Z.div_le_lower_bound; lia).
  destruct (n / 16 =? 0) eqn:E1; [apply Z.eqb_eq in E1; lia|].
  destruct (n / 16 / 16 =? 0) eqn:E2; [apply Z.eqb_eq in E2; lia|].
  destruct (n / 16 / 16 / 16 =? 0).
  - cbn. lia.
  - etrans; [|apply to_hex_go_length]. cbn. lia.
Qed.

Lemma format_02X_negative n :
  n < 0 -> string_forall is_upper_hex (Py.format_02X n) = false.
Proof.
  intros Hn. unfold Py.format_02X.
  by rewrite (proj2 (Z.ltb_lt _ _) Hn).
Qed.

Lemma format_02X_length_ge n :
  0 <= n -> (2 <= String.length (Py.format_02X n))%nat.
Proof.
  intros Hn. unfold Py.format_02X.
  rewrite (proj2 (Z.ltb_ge _ _) Hn), zfill_length. lia.
Qed.

Lemma format_02X_long n :
  256 <= n -> (3 <= String.length (Py.format_02X n))%nat.
Proof.
  intros Hn. unfold Py.format_02X.
  rewrite (proj2 (Z.ltb_ge n 0)) by lia.
  rewrite zfill_length. pose proof (to_hex_long n Hn). lia.
Qed.

End HexLength.

(** X4.  Valid Color Keys.  [rgb_to_hex] does not check its argument: the
    string it returns is a six-digit upper-case hexadecimal key exactly
    when every channel lies in [0,255]; a negative channel puts a minus
    sign in the key and a channel above 255 makes it longer. *)
Theorem rgb_to_hex_valid_iff (r g b : Z) :
  valid_key (rgb_to_hex (r, g, b))
  <-> channel_ok r /\ channel_ok g /\ channel_ok b.
Proof.
  split.
  - intros [Hlen Hhex]. unfold rgb_to_hex in *.
    rewrite !string_forall_app, !andb_true_iff in Hhex.
    destruct Hhex as (Hr & Hg & Hb).
    rewrite !string_length_app in Hlen.
    assert (0 <= r)%Z as Hr0.
    { destruct (decide (0 <= r)%Z); [done|].
      rewrite format_02X_negative in Hr by lia. discriminate. }
    assert (0 <= g)%Z as Hg0.
    { destruct (decide (0 <= g)%Z); [done|].
      rewrite format_02X_negative in Hg by lia. discriminate. }
    assert (0 <= b)%Z as Hb0.
    { destruct (decide (0 <= b)%Z); [done|].
      rewrite format_02X_negative in Hb by lia. discriminate. }
    pose proof (format_02X_length_ge r Hr0).
    pose proof (format_02X_length_ge g Hg0).
    pose proof (format_02X_length_ge b Hb0).
    unfold channel_ok. split_and!; try done.
    + destruct (decide (r <= 255)%Z); [done|].
      pose proof (format_02X_long r ltac:(lia)). lia.
    + destruct (decide (g <= 255)%Z); [done|].
      pose proof (format_02X_long g ltac:(lia)). lia.
    + destruct (decide (b <= 255)%Z); [done|].
      pose proof (format_02X_long b ltac:(lia)). lia.
  - intros (Hr & Hg & Hb). unfold valid_key.
    rewrite rgb_to_hex_channels by done. split; [reflexivity|].
    rewrite !string_forall_app, !two_digits_upper_hex by done. done.
Qed.

Lemma lower_char_idemp a : Py.lower_char (Py.lower_char a) = Py.lower_char a.
Proof. destruct a as [[] [] [] [] [] [] [] []]; reflexivity. Qed.

Lemma lower_idemp s : Py.lower (Py.lower s) = Py.lower s.
Proof.
  induction s as [|a s IH]; [done|].
  cbn [Py.lower]. by rewrite lower_char_idemp, IH.
Qed.

(** X5.  The extension test.  Of the six entries of [valid_extensions] the
    three upper-case ones never match, because the path is lower-cased
    first: the test is the test of the three lower-case suffixes, and it
    gives the same answer on a path and on its lower-cased form. *)
Theorem extension_test_ignores_case (image_path : string) :
  has_valid_extension image_path
  = existsb (fun ext => Py.endswith (Py.lower image_path) ext)
            [".png"; ".jpg"; ".jpeg"]%string
  /\ (forall ext, ext ∈ [".PNG"; ".JPG"; ".JPEG"]%string ->
        Py.endswith (Py.lower image_path) ext = false)
  /\ has_valid_extension (Py.lower image_path) = has_valid_extension image_path.
Proof.
  assert (forall ext, ext ∈ [".PNG"; ".JPG"; ".JPEG"]%string ->
            Py.endswith (Py.lower image_path) ext = false) as Hdead.
  { intros ext Hext.
    destruct (Py.endswith (Py.lower image_path) ext) eqn:E; [|done].
    apply endswith_lower_not_upper in E.
    repeat (apply elem_of_cons in Hext as [->|Hext]; [discriminate E|]).
    by apply elem_of_nil in Hext. }
  split_and!.
  - unfold has_valid_extension, valid_extensions. cbn [existsb].
    rewrite (Hdead ".PNG"%string), (Hdead ".JPG"%string), (Hdead ".JPEG"%string)
      by (apply list_elem_of_In; cbn; tauto).
    reflexivity.
  - exact Hdead.
  - unfold has_valid_extension. by rewrite lower_idemp.
Qed.

(* ================================================================== *)
(** * More on the styles of scriptV2 *)
(* ================================================================== *)

Lemma rgb_to_hex_inj (p p' : Z * Z * Z) :
  valid_pixel p -> valid_pixel p' -> rgb_to_hex p = rgb_to_hex p' -> p = p'.
Proof.
  destruct p as [[r g] b], p' as [[r' g'] b'].
  intros (Hr & Hg & Hb) (Hr' & Hg' & Hb') Heq. cbn [fst snd] in *.
  rewrite !rgb_to_hex_channels in Heq by assumption.
  apply (f_equal hex_to_rgb) in Heq.
  rewrite !hex_to_rgb_two_digits in Heq by assumption.
  congruence.
Qed.

(** X6.  One style, one colour.  In the workbook scriptV2 saves, two cells
    of the image hold the same style handle exactly when their pixels
    have the same Color Key; for pixels with channels in [0,255], exactly
    when the pixels are equal.  A style object is never shared by two
    colours. *)
Theorem styles_identify_colors (W : World) grid w h path st :
  grid_covers grid w h -> letters_ok W w -> progress_ok w h ->
  exists b ws st',
    ScriptV2.create_excel_with_colors W grid w h path st = (Ret b, st')
    /\ saved_worksheet st' = Some ws
    /\ forall x y x' y' p p',
         x < w -> y < h -> x' < w -> y' < h ->
         pixel_at grid y x = Some p -> pixel_at grid y' x' = Some p' ->
         (cells ws !! (y + 1, x + 1) = cells ws !! (y' + 1, x' + 1)
          <-> rgb_to_hex p = rgb_to_hex p')
         /\ (valid_pixel p -> valid_pixel p' ->
             (cells ws !! (y + 1, x + 1) = cells ws !! (y' + 1, x' + 1) <-> p = p')).
Proof.
  intros Hcov Hok Hprog.
  destruct (create_v2_run W grid w h path st Hcov Hok Hprog)
    as (ws & cache & st' & Hrun & Hsave & _ & _ & _ & _ & Hpaint & Hshared & _).
  eexists _, ws, st'. split; [exact Hrun|].
  split; [unfold saved_worksheet; by rewrite Hsave|].
  intros x y x' y' p p' Hx Hy Hx' Hy' Hp Hp'.
  assert (cells ws !! (y + 1, x + 1) = cells ws !! (y' + 1, x' + 1)
          <-> rgb_to_hex p = rgb_to_hex p') as Hiff.
  { destruct (Hshared x y p Hx Hy Hp) as [[hd Hhd] Hc].
    destruct (Hshared x' y' p' Hx' Hy' Hp') as [[hd' Hhd'] Hc'].
    split.
    - intros Heq.
      pose proof (Hpaint (y + 1) (x + 1)) as F.
      pose proof (Hpaint (y' + 1) (x' + 1)) as F'.
      unfold fill_at, expected_fill in F, F'.
      rewrite decide_True in F by lia. rewrite decide_True in F' by lia.
      replace (y + 1 - 1) with y in F by lia.
      replace (x + 1 - 1) with x in F by lia.
      replace (y' + 1 - 1) with y' in F' by lia.
      replace (x' + 1 - 1) with x' in F' by lia.
      rewrite Hp in F. rewrite Hp' in F'. rewrite <- Heq in F'.
      rewrite F in F'. cbn in F'. by injection F'.
    - intros Hkey. by rewrite Hc, Hc', Hkey. }
  split; [exact Hiff|].
  intros Hv Hv'. rewrite Hiff. split; [by apply rgb_to_hex_inj | by intros ->].
Qed.

Lemma styles_identify_colors_witness :
  exists b ws st',
    ScriptV2.create_excel_with_colors scenario_world grid_2x2 2 2 "image.xlsx"
      empty_store = (Ret b, st')
    /\ saved_worksheet st' = Some ws.
Proof.
  destruct (styles_identify_colors scenario_world grid_2x2 2 2 "image.xlsx" empty_store)
    as (b & ws & st' & Hrun & Hsaved & _).
  - exact grid_2x2_covers.
  - apply one_file_world_letters. lia.
  - left. lia.
  - exists b, ws, st'. split; assumption.
Defined.

(** X7.  The cache lives for one call.  [fill_cache] is created inside
    [create_excel_with_colors]: converting again, from the store the
    first conversion left, constructs the styles of the grid anew. *)
Theorem cache_is_per_call (W : World) grid w h path path' st :
  grid_covers grid w h -> letters_ok W w -> progress_ok w h ->
  exists b1 st1 b2 st2,
    ScriptV2.create_excel_with_colors W grid w h path st = (Ret b1, st1)
    /\ ScriptV2.create_excel_with_colors W grid w h path' st1 = (Ret b2, st2)
    /\ length (heap st1) = length (heap st) + distinct (color_keys grid w h)
    /\ length (heap st2) = length (heap st) + 2 * distinct (color_keys grid w h).
Proof.
  intros Hcov Hok Hprog.
  destruct (create_v2_run W grid w h path st Hcov Hok Hprog)
    as (ws1 & c1 & st1 & Hrun1 & _ & (new1 & Hheap1 & Hlen1) & _).
  destruct (create_v2_run W grid w h path' st1 Hcov Hok Hprog)
    as (ws2 & c2 & st2 & Hrun2 & _ & (new2 & Hheap2 & Hlen2) & _).
  eexists _, st1, _, st2. split; [exact Hrun1|]. split; [exact Hrun2|].
  rewrite Hheap2, Hheap1, !length_app. lia.
Qed.

Lemma cache_is_per_call_witness :
  exists b1 st1 b2 st2,
    ScriptV2.create_excel_with_colors scenario_world grid_2x2 2 2 "a.xlsx" empty_store
    = (Ret b1, st1)
    /\ ScriptV2.create_excel_with_colors scenario_world grid_2x2 2 2 "b.xlsx" st1
       = (Ret b2, st2)
    /\ length (heap st1) = length (heap empty_store) + distinct (color_keys grid_2x2 2 2).
Proof.
  destruct (cache_is_per_call scenario_world grid_2x2 2 2 "a.xlsx" "b.xlsx" empty_store)
    as (b1 & st1 & b2 & st2 & H1 & H2 & H3 & _).
  - exact grid_2x2_covers.
  - apply one_file_world_letters. lia.
  - left. lia.
  - exists b1, st1, b2, st2. split_and!; assumption.
Defined.

(* ================================================================== *)
(** * [load_image] *)
(* ================================================================== *)

(** X17.  [load_image] never raises.  It opens the file once, converts the
    image to RGB once and only when its mode is not RGB, and touches
    neither the styles nor the input; when opening or converting fails
    it prints the error and returns [None], and it prints nothing
    otherwise. *)
Theorem load_image_never_raises (W : World) path st :
  exists r es,
    load_image W path st
    = (Ret r, mkStore (es ++ events st) (heap st) (stdin st))
    /\ opens es = [path] /\ saves es = [] /\ prompts es = []
    /\ (r = None -> printed es = [MsgLoadError])
    /\ (r <> None -> printed es = [])
    /\ (forall im, Image_open W path = Some im -> mode im = "RGB"%string ->
          r = Some im /\ converts es = [])
    /\ (forall im, Image_open W path = Some im -> mode im <> "RGB"%string ->
          r = Image_convert W im "RGB" /\ converts es = ["RGB"%string])
    /\ (Image_open W path = None -> r = None /\ converts es = []).
Proof.
  unfold load_image. erewrite bind_Ret by reflexivity.
  destruct (Image_open W path) as [im|] eqn:Hopen.
  - destruct (bool_decide (mode im <> "RGB"%string)) eqn:Hmode.
    + apply bool_decide_eq_true_1 in Hmode.
      erewrite bind_Ret by reflexivity.
      destruct (Image_convert W im "RGB") as [im'|] eqn:Hconv.
      * exists (Some im'), [EvConvert "RGB"; EvOpen path].
        split; [reflexivity|]. split_and!; try done.
        all: intros im0 [= <-] Hm; first [by destruct Hmode | by rewrite Hconv].
      * exists None, [EvPrint MsgLoadError; EvConvert "RGB"; EvOpen path].
        split; [reflexivity|]. split_and!; try done.
        all: intros im0 [= <-] Hm; first [by destruct Hmode | by rewrite Hconv].
    + apply bool_decide_eq_false_1 in Hmode.
      exists (Some im), [EvOpen path].
      split; [reflexivity|]. split_and!; try done.
      all: intros im0 [= <-] Hm; first [done | by destruct Hmode].
  - exists None, [EvPrint MsgLoadError; EvOpen path].
    split; [reflexivity|]. split_and!; done.
Qed.

(* ================================================================== *)
(** * The end of a conversion *)
(* ================================================================== *)

Lemma bind_Ret_inv {A B} (m : M A) (k : A -> M B) st b st' :
  bind m k st = (Ret b, st') ->
  exists a st1, m st = (Ret a, st1) /\ k a st1 = (Ret b, st').
Proof.
  unfold bind. destruct (m st) as [[a|e] st1]; [|discriminate].
  intros H. by exists a, st1.
Qed.

(** The last two events of a completed [create_excel_with_colors]. *)
Lemma create_v1_last W grid w h path st b st' :
  Script.create_excel_with_colors W grid w h path st = (Ret b, st') ->
  exists wb es,
    events st' = EvPrint (if b then MsgSaved path else MsgSaveError)
                   :: EvSave wb path :: es
    /\ b = Workbook_save W wb path.
Proof.
  unfold Script.create_excel_with_colors. intros H.
  apply bind_Ret_inv in H as (? & s1 & _ & H).
  apply bind_Ret_inv in H as (ws1 & s2 & _ & H).
  apply bind_Ret_inv in H as (ws2 & s3 & _ & H).
  apply bind_Ret_inv in H as (ws3 & s4 & _ & H).
  apply bind_Ret_inv in H as ([] & s5 & Hemit & H).
  injection Hemit as <-.
  destruct (Workbook_save W {| active := ws3; calcMode := "auto" |} path) eqn:Hs;
    injection H as <- <-; eexists _, _; by rewrite Hs.
Qed.

Lemma create_v2_last W grid w h path st b st' :
  ScriptV2.create_excel_with_colors W grid w h path st = (Ret b, st') ->
  exists wb es,
    events st' = (if b then [EvPrint (MsgNote (w * h)); EvPrint (MsgSaved path)]
                  else [EvPrint MsgSaveError])
                   ++ EvSave wb path :: es
    /\ b = Workbook_save W wb path.
Proof.
  unfold ScriptV2.create_excel_with_colors. intros H.
  apply bind_Ret_inv in H as (? & s1 & _ & H).
  apply bind_Ret_inv in H as (ws1 & s2 & _ & H).
  apply bind_Ret_inv in H as (ws2 & s3 & _ & H).
  apply bind_Ret_inv in H as ([[ws3 cache] processed] & s4 & _ & H).
  apply bind_Ret_inv in H as ([] & s5 & _ & H).
  apply bind_Ret_inv in H as ([] & s6 & Hemit & H).
  injection Hemit as <-.
  destruct (Workbook_save W {| active := ws3; calcMode := "manual" |} path) eqn:Hs;
    injection H as <- <-; eexists _, _; by rewrite Hs.
Qed.

Lemma create_v1_events W grid w h path :
  emits is_create_event (Script.create_excel_with_colors W grid w h path).
Proof.
  unfold Script.create_excel_with_colors. solve_emits.
  unfold Script.fill_row. solve_emits.
  unfold Script.fill_cell. solve_emits.
Qed.

Lemma create_v2_events W grid w h path :
  emits is_create_event (ScriptV2.create_excel_with_colors W grid w h path).
Proof.
  unfold ScriptV2.create_excel_with_colors. solve_emits.
  unfold ScriptV2.fill_row. solve_emits.
  unfold ScriptV2.fill_cell. solve_emits.
  all: unfold ScriptV2.cache_fill, ScriptV2.cache_get; solve_emits.
Qed.

Lemma printed_create es :
  Forall is_create_event es -> MsgDone ∉ printed es.
Proof.
  unfold printed. induction 1 as [|e es He _ IH]; [by intros ?%elem_of_nil|].
  destruct e as [m| | | | | | |]; try exact IH.
  cbn [omap list_omap]. intros [<-|Hin]%elem_of_cons; [exact He | by apply IH].
Qed.

Lemma printed_quiet (P : Event -> Prop) es :
  (forall e, P e -> match e with EvPrint _ => False | _ => True end) ->
  Forall P es -> printed es = [].
Proof.
  intros HP H. apply omap_quiet. eapply Forall_impl; [exact H|].
  intros e He. specialize (HP e He). by destruct e.
Qed.

(** The painted cells in terms of the image's pixels. *)
Lemma painted_pixels image st ws :
  painted (grid_of image) (width_of image) (height_of image) st ws ->
  forall x y, x < width_of image -> y < height_of image ->
    fill_at st ws (y + 1) (x + 1)
    = Some (solid_fill (rgb_to_hex (getpixel image (x, y)))).
Proof.
  intros Hpaint x y Hx Hy. rewrite Hpaint. unfold expected_fill.
  rewrite decide_True by lia.
  replace (y + 1 - 1) with y by lia. replace (x + 1 - 1) with x by lia.
  by rewrite grid_of_lookup.
Qed.

Lemma no_done_printed es :
  Forall (fun e => match e with EvPrint MsgDone => False | _ => True end) es ->
  MsgDone ∉ printed es.
Proof.
  unfold printed. induction 1 as [|e es He _ IH]; [by intros ?%elem_of_nil|].
  destruct e as [m| | | | | | |]; try exact IH.
  cbn [omap list_omap]. intros [<-|Hin]%elem_of_cons; [exact He | by apply IH].
Qed.

Lemma head_of_log (es1 rest es0 : list Event) (m : Msg) (sv : Workbook * string) :
  es1 ++ es0 = EvPrint m :: rest ->
  saves es1 = [sv] ->
  head (printed es1) = Some m.
Proof.
  intros Heq Hs. destruct es1 as [|e es1]; [discriminate Hs|].
  injection Heq as -> _. reflexivity.
Qed.

(** script.py's [create_excel_with_colors] and [convert], with the
    events they log. *)
Lemma convert_v1_outcome W path grid w h st :
  grid_covers grid w h -> letters_ok W w ->
  exists ws st1 es1,
    Script.create_excel_with_colors W grid w h (output_path_of W path) st
    = (Ret (Workbook_save W (mkWorkbook ws "auto") (output_path_of W path)), st1)
    /\ events st1 = es1 ++ events st
    /\ Forall is_create_event es1
    /\ saves es1 = [(mkWorkbook ws "auto", output_path_of W path)]
    /\ head (printed es1)
       = Some (if Workbook_save W (mkWorkbook ws "auto") (output_path_of W path)
               then MsgSaved (output_path_of W path) else MsgSaveError)
    /\ stdin st1 = stdin st
    /\ painted grid w h st1 ws
    /\ Script.convert W path grid w h st
       = (Ret (Workbook_save W (mkWorkbook ws "auto") (output_path_of W path)),
          if Workbook_save W (mkWorkbook ws "auto") (output_path_of W path)
          then mkStore (map EvPrint (completion V1 w h (output_path_of W path))
                          ++ events st1) (heap st1) (stdin st1)
          else st1).
Proof.
  intros Hcov Hok.
  destruct (create_v1_run W grid w h (output_path_of W path) st Hcov Hok)
    as (ws & st1 & Hrun & Hsave & _ & Hin & _ & _ & Hpaint & _).
  destruct (create_v1_last _ _ _ _ _ _ _ _ Hrun) as (wb' & es & Hev & Hb).
  destruct (create_v1_events W grid w h (output_path_of W path) st) as (es1 & Hes & HP).
  rewrite Hrun in Hes. cbn [snd] in Hes.
  assert (saves es1 = [(mkWorkbook ws "auto", output_path_of W path)]) as Hs1.
  { rewrite Hes, saves_app in Hsave.
    change (?a :: saves (events st)) with ([a] ++ saves (events st)) in Hsave.
    by apply app_inv_tail in Hsave. }
  exists ws, st1, es1. split_and!; try done.
  - rewrite Hes in Hev. by eapply head_of_log.
  - unfold Script.convert. erewrite bind_Ret by exact Hrun.
    destruct (Workbook_save W _ (output_path_of W path)); [|done].
    by destruct st1.
Qed.

Lemma convert_v2_outcome W path image st :
  letters_ok W (width_of image) ->
  progress_ok (width_of image) (height_of image) ->
  exists ws st1 es1,
    let w := width_of image in
    let h := height_of image in
    let out := output_path_of W path in
    let st0 := mkStore (rev (map (fun xy => EvGetPixel xy.1 xy.2) (row_major w h))
                          ++ EvPrint (MsgProcessing w h) :: events st)
                       (heap st) (stdin st) in
    ScriptV2.create_excel_with_colors W (grid_of image) w h out st0
    = (Ret (Workbook_save W (mkWorkbook ws "manual") out), st1)
    /\ events st1 = es1 ++ events st0
    /\ Forall is_create_event es1
    /\ saves es1 = [(mkWorkbook ws "manual", out)]
    /\ head (printed es1)
       = Some (if Workbook_save W (mkWorkbook ws "manual") out
               then MsgNote (w * h) else MsgSaveError)
    /\ stdin st1 = stdin st
    /\ painted (grid_of image) w h st1 ws
    /\ ScriptV2.convert W path image st
       = (Ret (Workbook_save W (mkWorkbook ws "manual") out),
          if Workbook_save W (mkWorkbook ws "manual") out
          then mkStore (map EvPrint (completion V2 w h out) ++ events st1)
                       (heap st1) (stdin st1)
          else st1).
Proof.
  intros Hok Hprog. cbv zeta.
  destruct (create_v2_run W (grid_of image) (width_of image) (height_of image)
              (output_path_of W path)
              (mkStore (rev (map (fun xy => EvGetPixel xy.1 xy.2)
                               (row_major (width_of image) (height_of image)))
                          ++ EvPrint (MsgProcessing (width_of image) (height_of image))
                               :: events st)
                       (heap st) (stdin st))
              (grid_of_covers image) Hok Hprog)
    as (ws & cache & st1 & Hrun & Hsave & _ & Hin & _ & _ & Hpaint & _).
  destruct (create_v2_last _ _ _ _ _ _ _ _ Hrun) as (wb' & es & Hev & Hb).
  match type of Hrun with ?m ?s = _ =>
    destruct (create_v2_events W (grid_of image) (width_of image) (height_of image)
                (output_path_of W path) s) as (es1 & Hes & HP) end.
  rewrite Hrun in Hes. cbn [snd] in Hes.
  assert (saves es1 = [(mkWorkbook ws "manual", output_path_of W path)]) as Hs1.
  { rewrite Hes, saves_app in Hsave.
    change (?a :: saves ?l) with ([a] ++ saves l) in Hsave.
    by apply app_inv_tail in Hsave. }
  exists ws, st1, es1. split_and!; try done.
  - rewrite Hes in Hev.
    destruct (Workbook_save W _ (output_path_of W path)); cbn [app] in Hev;
      by eapply head_of_log.
  - unfold ScriptV2.convert.
    erewrite bind_Ret by apply get_pixel_colors_run. cbv beta iota zeta.
    erewrite bind_Ret by exact Hrun.
    destruct (Workbook_save W _ (output_path_of W path)); [|done].
    by destruct st1.
Qed.

Lemma printed_prints (ms : list Msg) es :
  printed (map EvPrint ms ++ es) = ms ++ printed es.
Proof. induction ms as [|m ms IH]; [done|]. cbn. by rewrite <- IH. Qed.

Lemma saves_prints_map (ms : list Msg) es : saves (map EvPrint ms ++ es) = saves es.
Proof. induction ms as [|m ms IH]; [done|]. exact IH. Qed.

(** What both scripts have logged when a conversion that was not
    stopped at the guard calls [create_excel_with_colors]. *)
Lemma before_create_facts esl path w h :
  Forall is_open_or_convert esl ->
  let pre := rev (map (fun xy => EvGetPixel xy.1 xy.2) (row_major w h))
               ++ EvPrint (MsgProcessing w h)
                    :: esl ++ [EvPrint (MsgLoading path); EvExists path] in
  saves pre = [] /\ MsgDone ∉ printed pre.
Proof.
  intros Hesl pre.
  assert (Forall (fun e => match e with
                           | EvPrint MsgDone | EvSave _ _ => False
                           | _ => True
                           end) pre) as Hall.
  { apply Forall_app. split; [by apply visits_Forall'|].
    constructor; [done|]. apply to_guard_Forall; [|done..].
    intros e He. by destruct e as [[]| | | | | | |]. }
  split.
  - eapply saves_quiet; [|exact Hall]. intros e He. by destruct e as [[]| | | | | | |].
  - apply no_done_printed. eapply Forall_impl; [exact Hall|].
    by intros [[]| | | | | | |].
Qed.

(** Both scripts, for an image at or below the threshold, up to the
    outcome of saving. *)
Lemma small_image_outcome (v : Variant) W path st image :
  os_path_exists W path = true ->
  has_valid_extension path = true ->
  decoded W path = Some image ->
  (total_pixels_of image <= threshold)%Z ->
  letters_ok W (width_of image) ->
  progress_ok (width_of image) (height_of image) ->
  exists ws st1 es1 pre,
    let w := width_of image in
    let h := height_of image in
    let out := output_path_of W path in
    let wb := mkWorkbook ws match v with V1 => "auto" | V2 => "manual" end in
    image_to_excel_of v W path st
    = (Ret (Workbook_save W wb out),
       if Workbook_save W wb out
       then mkStore (map EvPrint (completion v w h out) ++ events st1)
                    (heap st1) (stdin st1)
       else st1)
    /\ events st1 = es1 ++ pre ++ events st
    /\ Forall is_create_event es1
    /\ saves es1 = [(wb, out)]
    /\ (Workbook_save W wb out = false -> head (printed es1) = Some MsgSaveError)
    /\ saves pre = [] /\ (MsgDone ∉ printed pre)
    /\ stdin st1 = stdin st
    /\ painted (grid_of image) w h st1 ws.
Proof.
  intros Hex Hext Hd Hle Hok Hprog. destruct v; cbn [image_to_excel_of].
  - destruct (v1_reaches_guard W path image Hex Hext Hd) as (esl & Hesl & Hrun).
    destruct (before_create_facts esl path (width_of image) (height_of image) Hesl)
      as [Hsv Hnd].
    rewrite Hrun, v1_guard_skip by exact Hle.
    match goal with |- context [Script.convert _ _ _ _ _ ?s] =>
      destruct (convert_v1_outcome W path (grid_of image) (width_of image)
                  (height_of image) s (grid_of_covers image) Hok)
        as (ws & st1 & es1 & _ & Hes & HP & Hs1 & Hhead & Hin & Hpaint & Hconv) end.
    eexists ws, st1, es1, _. cbv zeta.
    split; [exact Hconv|]. split_and!; try done.
    + rewrite Hes. cbn [events]. f_equal.
      rewrite <- !app_assoc. cbn [app]. by rewrite <- app_assoc.
    + intros Hf. by rewrite Hf in Hhead.
  - destruct (v2_reaches_guard W path image Hex Hext Hd) as (esl & Hesl & Hrun).
    destruct (before_create_facts esl path (width_of image) (height_of image) Hesl)
      as [Hsv Hnd].
    rewrite Hrun, v2_guard_skip by exact Hle.
    match goal with |- context [ScriptV2.convert _ _ _ ?s] =>
      destruct (convert_v2_outcome W path image s Hok Hprog)
        as (ws & st1 & es1 & _ & Hes & HP & Hs1 & Hhead & Hin & Hpaint & Hconv) end.
    cbv zeta in *.
    eexists ws, st1, es1, _.
    split; [exact Hconv|]. split_and!; try done.
    + rewrite Hes. cbn [events]. f_equal.
      rewrite <- !app_assoc. cbn [app]. by rewrite <- app_assoc.
    + intros Hf. by rewrite Hf in Hhead.
Qed.

(** X8.  A small image, saved.  For an image at or below the threshold in
    a world where the columns can be named and saving succeeds, both
    scripts return [True], save one workbook at the path of the image
    with its extension replaced by .xlsx, end with their completion
    messages, and the saved cell at row [y + 1], column [x + 1] carries
    the solid fill of the colour of the image's pixel [(x, y)]. *)
Theorem small_image_is_converted (v : Variant) (W : World) path st image :
  os_path_exists W path = true ->
  accepted_extension path ->
  decoded W path = Some image ->
  (total_pixels_of image <= threshold)%Z ->
  letters_ok W (width_of image) ->
  progress_ok (width_of image) (height_of image) ->
  save_succeeds W (output_path_of W path) ->
  exists wb st' older,
    image_to_excel_of v W path st = (Ret true, st')
    /\ saves (events st') = (wb, output_path_of W path) :: saves (events st)
    /\ printed (events st')
       = completion v (width_of image) (height_of image) (output_path_of W path)
           ++ older
    /\ (forall x y, x < width_of image -> y < height_of image ->
          fill_at st' (active wb) (y + 1) (x + 1)
          = Some (solid_fill (rgb_to_hex (getpixel image (x, y)))))
    /\ stdin st' = stdin st.
Proof.
  intros Hex Hext%has_valid_extension_accepted Hd Hle Hok Hprog Hsave.
  destruct (small_image_outcome v W path st image Hex Hext Hd Hle Hok Hprog)
    as (ws & st1 & es1 & pre & Hrun & Hes & _ & Hs1 & _ & Hsv & _ & Hin & Hpaint).
  cbv zeta in *. rewrite Hsave in Hrun.
  eexists _, _, _. split; [exact Hrun|]. cbn [events stdin active].
  split_and!.
  - by rewrite saves_prints_map, Hes, !saves_app, Hs1, Hsv.
  - by rewrite printed_prints.
  - intros x y Hx Hy. by apply (painted_pixels image st1 ws Hpaint).
  - exact Hin.
Qed.

Lemma small_image_is_converted_witness :
  exists wb st',
    image_to_excel_of V1 scenario_world "image.png" empty_store = (Ret true, st')
    /\ saves (events st') = [(wb, "image.xlsx"%string)].
Proof.
  destruct (small_image_is_converted V1 scenario_world "image.png" empty_store
              (image_of_grid 2 2 grid_2x2))
    as (wb & st' & older & Hrun & Hsaves & _).
  - reflexivity.
  - left. reflexivity.
  - reflexivity.
  - vm_compute. discriminate.
  - apply one_file_world_letters. cbn. lia.
  - left. cbn. lia.
  - intros wb. reflexivity.
  - exists wb, st'. split; assumption.
Defined.

(** X9.  A failed save.  When [workbook.save] raises, both scripts catch
    the exception: for an image at or below the threshold they return
    [False] after the one attempt to save, the last message printed is
    the error on saving, and the completion message is never printed. *)
Theorem failed_save_returns_false (v : Variant) (W : World) path st image :
  os_path_exists W path = true ->
  accepted_extension path ->
  decoded W path = Some image ->
  (total_pixels_of image <= threshold)%Z ->
  letters_ok W (width_of image) ->
  progress_ok (width_of image) (height_of image) ->
  save_fails W (output_path_of W path) ->
  exists wb st' es,
    image_to_excel_of v W path st = (Ret false, st')
    /\ events st' = es ++ events st
    /\ saves es = [(wb, output_path_of W path)]
    /\ head (printed es) = Some MsgSaveError
    /\ (MsgDone ∉ printed es)
    /\ stdin st' = stdin st.
Proof.
  intros Hex Hext%has_valid_extension_accepted Hd Hle Hok Hprog Hfail.
  destruct (small_image_outcome v W path st image Hex Hext Hd Hle Hok Hprog)
    as (ws & st1 & es1 & pre & Hrun & Hes & HP & Hs1 & Hhead & Hsv & Hnd & Hin & _).
  cbv zeta in *. rewrite Hfail in Hrun. specialize (Hhead (Hfail _)).
  eexists _, st1, (es1 ++ pre). split; [exact Hrun|].
  split_and!.
  - by rewrite Hes, app_assoc.
  - by rewrite saves_app, Hs1, Hsv.
  - rewrite printed_app. by destruct (printed es1).
  - rewrite printed_app. intros [Hin1|Hin2]%elem_of_app.
    + by apply (printed_create es1 HP).
    + by apply Hnd.
  - exact Hin.
Qed.

Lemma failed_save_returns_false_witness :
  exists st',
    image_to_excel_of V2 (readonly_world "image.png" (image_of_grid 2 2 grid_2x2))
      "image.png" empty_store = (Ret false, st').
Proof.
  destruct (failed_save_returns_false V2
              (readonly_world "image.png" (image_of_grid 2 2 grid_2x2))
              "image.png" empty_store (image_of_grid 2 2 grid_2x2))
    as (wb & st' & es & Hrun & _).
  - reflexivity.
  - left. reflexivity.
  - reflexivity.
  - vm_compute. discriminate.
  - intros col Hcol. apply (column_name_ok 2); [lia | exact Hcol].
  - left. cbn. lia.
  - intros wb. reflexivity.
  - by exists st'.
Defined.

(* ================================================================== *)
(** * Answers at the size guard *)
(* ================================================================== *)

Lemma lower_char_is_s a : Py.lower_char a = "s"%char <-> a = "s"%char \/ a = "S"%char.
Proof.
  split.
  - destruct a as [[] [] [] [] [] [] [] []]; cbv; intros H;
      first [discriminate H | by left | by right].
  - by intros [-> | ->].
Qed.

Lemma lower_is_s response :
  Py.lower response = "s"%string <-> response = "s"%string \/ response = "S"%string.
Proof.
  split.
  - destruct response as [|a [|b r]]; cbn [Py.lower]; [done| |done].
    intros [= [-> | ->]%lower_char_is_s]; [by left | by right].
  - by intros [-> | ->].
Qed.

Lemma v1_guard_yes W path grid w h st response rest :
  (threshold < Z.of_nat w * Z.of_nat h)%Z ->
  stdin st = response :: rest ->
  Py.lower response = "s"%string ->
  Script.size_guard W path grid w h st
  = Script.convert W path grid w h
      (mkStore (EvInput (PromptContinue (Z.of_nat w * Z.of_nat h)) :: events st)
               (heap st) rest).
Proof.
  intros Hlt Hin Hs. unfold Script.size_guard.
  rewrite (proj2 (Z.ltb_lt _ _) Hlt).
  unfold bind at 1, input. rewrite Hin.
  rewrite bool_decide_eq_false_2; [done|]. by intros H.
Qed.

Lemma prompts_work es : Forall is_work_event es -> prompts es = [].
Proof.
  intros H. apply omap_quiet. eapply Forall_impl; [exact H|]. by intros [].
Qed.

(** X10.  The answers of script.py.  At the prompt of script.py the
    conversion continues on exactly two answers, "s" and "S": the image
    is then converted as a small one is, after the one prompt.  Every
    other answer, an answer with a space around the letter included,
    cancels: [False] is returned and nothing is saved. *)
Theorem yes_answer_continues (W : World) path st image response rest :
  os_path_exists W path = true ->
  accepted_extension path ->
  decoded W path = Some image ->
  (threshold < total_pixels_of image)%Z ->
  stdin st = response :: rest ->
  letters_ok W (width_of image) ->
  (response = "s"%string \/ response = "S"%string ->
   exists wb st',
     Script.image_to_excel W path st
     = (Ret (Workbook_save W wb (output_path_of W path)), st')
     /\ saves (events st') = (wb, output_path_of W path) :: saves (events st)
     /\ prompts (events st')
        = PromptContinue (total_pixels_of image) :: prompts (events st)
     /\ stdin st' = rest
     /\ painted (grid_of image) (width_of image) (height_of image) st' (active wb))
  /\ (response <> "s"%string -> response <> "S"%string ->
      exists st',
        Script.image_to_excel W path st = (Ret false, st')
        /\ saves (events st') = saves (events st)
        /\ head (printed (events st')) = Some MsgCancelled
        /\ stdin st' = rest).
Proof.
  intros Hex Hext%has_valid_extension_accepted Hd Hlt Hin Hok.
  destruct (v1_guard_store W path image Hex Hext Hd)
    as (pre & Hrun & _ & Hpr & Hsv & _ & _).
  rewrite Hrun. split.
  - intros Hs%lower_is_s.
    match goal with |- context [Script.size_guard _ _ _ _ _ ?s] =>
      rewrite (v1_guard_yes W path _ _ _ s response rest Hlt Hin Hs) end.
    match goal with |- context [Script.convert _ _ _ _ _ ?s] =>
      destruct (convert_v1_run W path (grid_of image) (width_of image)
                  (height_of image) s (grid_of_covers image) Hok)
        as (ws & st' & es & Hconv & Hes & Hwork & Hsaves & Hstdin & Hpaint) end.
    exists (mkWorkbook ws "auto"), st'. split; [exact Hconv|].
    cbn [events stdin active] in *. split_and!; try done.
    + rewrite Hsaves. cbn. by rewrite saves_app, Hsv.
    + rewrite Hes, prompts_app, (prompts_work es Hwork). cbn.
      by rewrite prompts_app, Hpr.
  - intros Hs HS.
    assert (Py.lower response <> "s"%string) as Hno.
    { intros [?|?]%lower_is_s; congruence. }
    match goal with |- context [Script.size_guard _ _ _ _ _ ?s] =>
      rewrite (v1_guard_cancel W path _ _ _ s response rest Hlt Hin Hno) end.
    eexists. split; [reflexivity|]. cbn [events stdin].
    split_and!; try done. cbn. by rewrite saves_app, Hsv.
Qed.

Lemma yes_answer_continues_witness :
  exists wb st',
    Script.image_to_excel big_world "big.png" (store_with_input ["S"%string])
    = (Ret (Workbook_save big_world wb (output_path_of big_world "big.png")), st')
    /\ stdin st' = [].
Proof.
  destruct (yes_answer_continues big_world "big.png" (store_with_input ["S"%string])
              (solid_image 101 100 red) "S" [])
    as [Hyes _].
  - reflexivity.
  - left. reflexivity.
  - reflexivity.
  - vm_compute. reflexivity.
  - reflexivity.
  - apply one_file_world_letters. cbn. lia.
  - destruct Hyes as (wb & st' & Hrun & _ & _ & Hin & _); [by right|].
    exists wb, st'. split; assumption.
Defined.

(* ================================================================== *)
(** * The end of standard input at the guard *)
(* ================================================================== *)

(** X11.  No answer.  When standard input is at its end at the prompt of
    the size guard, [input] raises [EOFError], which neither script
    catches: [image_to_excel] raises it, with the prompt as the last
    thing it did and nothing saved. *)
Theorem no_answer_raises (v : Variant) (W : World) path st image :
  os_path_exists W path = true ->
  accepted_extension path ->
  decoded W path = Some image ->
  (threshold < total_pixels_of image)%Z ->
  stdin st = [] ->
  exists st',
    image_to_excel_of v W path st = (Raise EOFError, st')
    /\ head (events st') = Some (EvInput (guard_prompt v (total_pixels_of image)))
    /\ saves (events st') = saves (events st)
    /\ heap st' = heap st.
Proof.
  intros Hex Hext%has_valid_extension_accepted Hd Hlt Hin.
  destruct v; cbn [image_to_excel_of guard_prompt].
  - destruct (v1_guard_store W path image Hex Hext Hd)
      as (pre & Hrun & _ & _ & Hsv & _ & _).
    rewrite Hrun. unfold Script.size_guard. fold (total_pixels_of image).
    rewrite (proj2 (Z.ltb_lt _ _) Hlt).
    unfold bind at 1, input. cbn [stdin events heap]. rewrite Hin.
    eexists. split; [reflexivity|]. cbn [events heap].
    split_and!; try done. cbn. by rewrite saves_app, Hsv.
  - destruct (v2_guard_store W path image Hex Hext Hd)
      as (pre & Hrun & _ & _ & Hsv & _ & _).
    rewrite Hrun. unfold ScriptV2.size_guard. fold (total_pixels_of image).
    rewrite (proj2 (Z.ltb_lt _ _) Hlt).
    do 5 (erewrite bind_Ret by reflexivity).
    unfold bind at 1, input. cbn [stdin events heap]. rewrite Hin.
    eexists. split; [reflexivity|]. cbn [events heap].
    split_and!; try done. cbn. by rewrite saves_app, Hsv.
Qed.

Lemma no_answer_raises_witness :
  exists st',
    image_to_excel_of V2 big_world "big.png" empty_store = (Raise EOFError, st').
Proof.
  destruct (no_answer_raises V2 big_world "big.png" empty_store
              (solid_image 101 100 red))
    as (st' & Hrun & _).
  - reflexivity.
  - left. reflexivity.
  - reflexivity.
  - vm_compute. reflexivity.
  - reflexivity.
  - by exists st'.
Defined.

(* ================================================================== *)
(** * The choice "1" of scriptV2: [reduce_colors] *)
(* ================================================================== *)

Lemma v2_guard_reduce W path image st response rest :
  (threshold < total_pixels_of image)%Z ->
  stdin st = response :: rest ->
  Py.strip response = "1"%string ->
  ScriptV2.size_guard W path image st
  = bind (ScriptV2.reduce_colors W image 256) (ScriptV2.convert W path)
      (mkStore (EvInput PromptChoice :: menu (total_pixels_of image) ++ events st)
               (heap st) rest).
Proof.
  intros Hlt Hin H1. unfold ScriptV2.size_guard, total_pixels_of in *.
  rewrite (proj2 (Z.ltb_lt _ _) Hlt).
  do 5 (erewrite bind_Ret by reflexivity).
  unfold bind at 1, input. cbn [stdin events heap]. rewrite Hin.
  cbv zeta. by rewrite H1.
Qed.

Lemma reduce_colors_some W image n image' st :
  reduced W image n = Some image' ->
  exists es,
    ScriptV2.reduce_colors W image n st
    = (Ret image', mkStore (es ++ events st) (heap st) (stdin st))
    /\ quantizes es = (if bool_decide (mode image <> "P"%string) then [n] else [])
    /\ saves es = [] /\ pixel_visits es = [].
Proof.
  unfold reduced, ScriptV2.reduce_colors. intros Hr.
  erewrite bind_Ret by reflexivity.
  destruct (bool_decide (mode image <> "P"%string)).
  - destruct (Image_quantize W image n) as [q|]; [|done].
    do 2 (erewrite bind_Ret by reflexivity). rewrite Hr.
    by exists [EvConvert "RGB"; EvQuantize n; EvPrint (MsgReducing n)].
  - injection Hr as <-. destruct st. by exists [EvPrint (MsgReducing n)].
Qed.

Lemma reduce_colors_none W image n st :
  reduced W image n = None ->
  exists es,
    ScriptV2.reduce_colors W image n st
    = (Raise LibraryError, mkStore (es ++ events st) (heap st) (stdin st))
    /\ quantizes es = [n] /\ saves es = [] /\ pixel_visits es = [].
Proof.
  unfold reduced, ScriptV2.reduce_colors. intros Hr.
  erewrite bind_Ret by reflexivity.
  destruct (bool_decide (mode image <> "P"%string)); [|done].
  erewrite bind_Ret by reflexivity.
  destruct (Image_quantize W image n) as [q|].
  - erewrite bind_Ret by reflexivity. rewrite Hr.
    by exists [EvConvert "RGB"; EvQuantize n; EvPrint (MsgReducing n)].
  - by exists [EvQuantize n; EvPrint (MsgReducing n)].
Qed.

(** X12.  The choice "1".  When the user answers "1" at the prompt of
    scriptV2 and the reduction succeeds, it is the reduced image that is
    read and converted: its pixels are visited in row-major order and
    fill the workbook saved.  An image that is not a palette image is
    quantized once, to 256 colours; a palette image is taken as it is. *)
Theorem choice_one_reduces (W : World) path st image image' response rest :
  os_path_exists W path = true ->
  accepted_extension path ->
  decoded W path = Some image ->
  (threshold < total_pixels_of image)%Z ->
  stdin st = response :: rest ->
  Py.strip response = "1"%string ->
  reduced W image 256 = Some image' ->
  letters_ok W (width_of image') ->
  progress_ok (width_of image') (height_of image') ->
  exists wb st',
    ScriptV2.image_to_excel W path st
    = (Ret (Workbook_save W wb (output_path_of W path)), st')
    /\ quantizes (events st')
       = (if bool_decide (mode image <> "P"%string) then [256] else [])
           ++ quantizes (events st)
    /\ pixel_visits (events st')
       = pixel_visits (events st) ++ row_major (width_of image') (height_of image')
    /\ saves (events st') = (wb, output_path_of W path) :: saves (events st)
    /\ stdin st' = rest
    /\ painted (grid_of image') (width_of image') (height_of image') st' (active wb).
Proof.
  intros Hex Hext%has_valid_extension_accepted Hd Hlt Hin H1 Hred Hok Hprog.
  destruct (v2_guard_store W path image Hex Hext Hd)
    as (pre & Hrun & Hvis & _ & Hsv & Hq & _ & _).
  rewrite Hrun.
  match goal with |- context [ScriptV2.size_guard _ _ _ ?s] =>
    rewrite (v2_guard_reduce W path image s response rest Hlt Hin H1) end.
  match goal with |- context [bind _ _ ?s] =>
    destruct (reduce_colors_some W image 256 image' s Hred)
      as (esr & Hr & Hqr & Hsr & Hvr) end.
  erewrite bind_Ret by exact Hr.
  match goal with |- context [ScriptV2.convert _ _ _ ?s] =>
    pose proof (convert_v2_visits W path image' s) as Hvisits;
    destruct (convert_v2_run W path image' s Hok Hprog)
      as (ws & st' & es & Hconv & Hes & Hce & Hsaves & Hstdin & Hpaint) end.
  rewrite Hconv in Hvisits. cbn [snd events] in Hvisits.
  destruct (convert_events_quiet es Hce) as (Hqe & _ & _).
  exists (mkWorkbook ws "manual"), st'. split; [exact Hconv|].
  cbn [events stdin active] in *. split_and!; try done.
  - rewrite Hes, !quantizes_app, Hqe, Hqr. cbn [app].
    change (quantizes (EvInput PromptChoice :: ?l)) with (quantizes l).
    by rewrite !quantizes_app, Hq.
  - rewrite Hvisits, pixel_visits_app, Hvr, app_nil_r.
    change (pixel_visits (EvInput PromptChoice :: ?l)) with (pixel_visits l).
    rewrite !pixel_visits_app, Hvis.
    change (pixel_visits (menu _)) with (@nil (nat * nat)).
    by rewrite !app_nil_r.
  - rewrite Hsaves, saves_app, Hsr. cbn [app].
    change (saves (EvInput PromptChoice :: ?l)) with (saves l).
    by rewrite !saves_app, Hsv.
Qed.

Lemma choice_one_reduces_witness :
  exists wb st',
    ScriptV2.image_to_excel big_world "big.png" (store_with_input [" 1 "%string])
    = (Ret (Workbook_save big_world wb (output_path_of big_world "big.png")), st')
    /\ quantizes (events st') = [256].
Proof.
  destruct (choice_one_reduces big_world "big.png" (store_with_input [" 1 "%string])
              (solid_image 101 100 red)
              (mkImage "RGB" (101, 100) (fun _ => red)) " 1 " [])
    as (wb & st' & Hrun & Hq & _).
  - reflexivity.
  - left. reflexivity.
  - reflexivity.
  - vm_compute. reflexivity.
  - reflexivity.
  - reflexivity.
  - reflexivity.
  - apply one_file_world_letters. cbn. lia.
  - left. cbn. lia.
  - exists wb, st'. split; assumption.
Defined.

(** X13.  A reduction that fails.  When the user answers "1" and
    [quantize] or the conversion back to RGB raises, scriptV2 does not
    catch the exception: [image_to_excel] raises it, after the one call
    to [quantize], with no pixel read and nothing saved. *)
Theorem failed_reduction_raises (W : World) path st image response rest :
  os_path_exists W path = true ->
  accepted_extension path ->
  decoded W path = Some image ->
  (threshold < total_pixels_of image)%Z ->
  stdin st = response :: rest ->
  Py.strip response = "1"%string ->
  reduced W image 256 = None ->
  exists st',
    ScriptV2.image_to_excel W path st = (Raise LibraryError, st')
    /\ quantizes (events st') = 256 :: quantizes (events st)
    /\ pixel_visits (events st') = pixel_visits (events st)
    /\ saves (events st') = saves (events st)
    /\ stdin st' = rest.
Proof.
  intros Hex Hext%has_valid_extension_accepted Hd Hlt Hin H1 Hred.
  destruct (v2_guard_store W path image Hex Hext Hd)
    as (pre & Hrun & Hvis & _ & Hsv & Hq & _ & _).
  rewrite Hrun.
  match goal with |- context [ScriptV2.size_guard _ _ _ ?s] =>
    rewrite (v2_guard_reduce W path image s response rest Hlt Hin H1) end.
  match goal with |- context [bind _ _ ?s] =>
    destruct (reduce_colors_none W image 256 s Hred)
      as (esr & Hr & Hqr & Hsr & Hvr) end.
  erewrite bind_Raise by exact Hr.
  eexists. split; [reflexivity|]. cbn [events stdin].
  split_and!; try done.
  - rewrite quantizes_app, Hqr. cbn [app]. f_equal.
    change (quantizes (EvInput PromptChoice :: ?l)) with (quantizes l).
    by rewrite !quantizes_app, Hq.
  - rewrite pixel_visits_app, Hvr, app_nil_r.
    change (pixel_visits (EvInput PromptChoice :: ?l)) with (pixel_visits l).
    rewrite !pixel_visits_app, Hvis.
    change (pixel_visits (menu _)) with (@nil (nat * nat)).
    by rewrite !app_nil_r.
  - rewrite saves_app, Hsr. cbn [app].
    change (saves (EvInput PromptChoice :: ?l)) with (saves l).
    by rewrite !saves_app, Hsv.
Qed.

Lemma failed_reduction_raises_witness :
  exists st',
    ScriptV2.image_to_excel (unquantizable_world "big.png" (solid_image 101 100 red))
      "big.png" (store_with_input ["1"%string])
    = (Raise LibraryError, st').
Proof.
  destruct (failed_reduction_raises
              (unquantizable_world "big.png" (solid_image 101 100 red))
              "big.png" (store_with_input ["1"%string])
              (solid_image 101 100 red) "1" [])
    as (st' & Hrun & _).
  - reflexivity.
  - left. reflexivity.
  - reflexivity.
  - vm_compute. reflexivity.
  - reflexivity.
  - reflexivity.
  - reflexivity.
  - by exists st'.
Defined.

(* ================================================================== *)
(** * [main] *)
(* ================================================================== *)

Lemma failure_run (v : Variant) W path st f :
  failure v W path st f ->
  exists st',
    image_to_excel_of v W path st = (Ret false, st')
    /\ saves (events st') = saves (events st).
Proof.
  destruct f; cbn [failure].
  - intros Hex. rewrite (not_found_run v W path st Hex). by eexists.
  - intros [Hex Hext%has_valid_extension_rejected].
    rewrite (bad_extension_run v W path st Hex Hext). by eexists.
  - intros (Hex & Hext%has_valid_extension_accepted & Hd).
    destruct (load_failure_run v W path st Hex Hext Hd) as (es & Hes & ->).
    eexists. split; [reflexivity|]. by apply saves_to_load.
  - intros (Hex & Hext%has_valid_extension_accepted
            & image & response & rest & Hd & Hlt & Hin & Hc).
    destruct (cancelled_run v W path st image response rest Hex Hext Hd Hlt Hin Hc)
      as (pre & -> & Hsv & _).
    eexists. split; [reflexivity|]. cbn. by rewrite saves_app, Hsv.
Qed.

(** X14.  The result is dropped.  [main] calls [image_to_excel] and
    ignores what it returns: when [image_to_excel] reports a failure by
    returning [False] -- the file is missing, has a wrong extension,
    [load_image] gives up on it and returns [None], or the user cancels
    -- [main] returns as it does after a success, in the store
    [image_to_excel] left, with nothing saved. *)
Theorem main_hides_failures (v : Variant) (W : World)
    (parse_args : list string -> option string) argv path st (f : Failure) :
  length argv <> 1 ->
  parse_args argv = Some path ->
  failure v W path st f ->
  exists st',
    main v W parse_args argv st = (MainReturn, [], st')
    /\ image_to_excel_of v W path st = (Ret false, st')
    /\ saves (events st') = saves (events st).
Proof.
  intros Hlen Hargs Hf.
  destruct (failure_run v W path st f Hf) as (st' & Hrun & Hsv).
  exists st'. split_and!; [|exact Hrun|exact Hsv].
  unfold main. rewrite (proj2 (Nat.eqb_neq _ _) Hlen), Hargs.
  unfold call_image_to_excel. by rewrite Hrun.
Qed.

Lemma main_hides_failures_witness :
  exists st',
    main V1 scenario_world one_argument ["script.py"; "missing.png"]%string empty_store
    = (MainReturn, [], st').
Proof.
  destruct (main_hides_failures V1 scenario_world one_argument
              ["script.py"; "missing.png"]%string "missing.png" empty_store NotFound)
    as (st' & Hmain & _).
  - cbn. lia.
  - reflexivity.
  - reflexivity.
  - by exists st'.
Defined.

(** X15.  The interactive path.  Started without arguments, [main] reads
    the path from standard input and strips it.  A blank line ends the
    program before anything is looked up.  A line naming a small image,
    with or without spaces around the name, has the image converted and
    saved beside it, and leaves the rest of standard input unread. *)
Theorem interactive_path_is_stripped (v : Variant) (W : World)
    (parse_args : list string -> option string) prog line rest st :
  stdin st = line :: rest ->
  let path := Py.strip line in
  let banner := [MainAskPath; MainBanner 2; MainBanner 1; MainBanner 0] in
  (path = ""%string ->
   main v W parse_args [prog] st
   = (MainReturn, MainNoPath :: banner, mkStore (events st) (heap st) rest))
  /\ (forall image,
        path <> ""%string ->
        os_path_exists W path = true ->
        accepted_extension path ->
        decoded W path = Some image ->
        (total_pixels_of image <= threshold)%Z ->
        letters_ok W (width_of image) ->
        progress_ok (width_of image) (height_of image) ->
        exists wb st',
          main v W parse_args [prog] st = (MainReturn, banner, st')
          /\ saves (events st') = (wb, output_path_of W path) :: saves (events st)
          /\ stdin st' = rest).
Proof.
  intros Hin path banner. unfold main. cbn [length Nat.eqb].
  rewrite Hin. fold path. split.
  - intros ->. reflexivity.
  - intros image Hne Hex Hext%has_valid_extension_accepted Hd Hle Hok Hprog.
    rewrite bool_decide_eq_false_2 by exact Hne.
    unfold call_image_to_excel.
    destruct (small_image_outcome v W path (mkStore (events st) (heap st) rest)
                image Hex Hext Hd Hle Hok Hprog)
      as (ws & st1 & es1 & pre & Hrun & Hes & _ & Hs1 & _ & Hsv & _ & Hstdin & _).
    cbv zeta in Hrun. rewrite Hrun.
    eexists _, _. split; [reflexivity|]. cbn [events stdin] in *.
    assert (saves (events st1) = saves es1 ++ saves (events st)) as Hsaves.
    { by rewrite Hes, !saves_app, Hsv. }
    rewrite Hs1 in Hsaves.
    destruct (Workbook_save W _ _); cbn [events stdin]; split; try done.
    by rewrite saves_prints_map.
Qed.

Lemma interactive_path_is_stripped_witness :
  main V2 scenario_world one_argument ["scriptV2.py"%string]
       (store_with_input ["   "%string])
  = (MainReturn,
     [MainNoPath; MainAskPath; MainBanner 2; MainBanner 1; MainBanner 0],
     empty_store)
  /\ exists wb st',
       main V2 scenario_world one_argument ["scriptV2.py"%string]
            (store_with_input [" image.png "%string])
       = (MainReturn, [MainAskPath; MainBanner 2; MainBanner 1; MainBanner 0], st')
       /\ saves (events st') = [(wb, "image.xlsx"%string)].
Proof.
  split.
  - destruct (interactive_path_is_stripped V2 scenario_world one_argument
                "scriptV2.py" "   " [] (store_with_input ["   "%string]))
      as [Hblank _].
    + reflexivity.
    + apply Hblank. reflexivity.
  - destruct (interactive_path_is_stripped V2 scenario_world one_argument
                "scriptV2.py" " image.png " []
                (store_with_input [" image.png "%string]))
      as [_ Hconv].
    + reflexivity.
    + destruct (Hconv (image_of_grid 2 2 grid_2x2))
        as (wb & st' & Hmain & Hsaves & _).
      * discriminate.
      * reflexivity.
      * left. reflexivity.
      * reflexivity.
      * vm_compute. discriminate.
      * apply one_file_world_letters. cbn. lia.
      * left. cbn. lia.
      * exists wb, st'. split; assumption.
Defined.

(* ================================================================== *)
(** * The progress reports *)
(* ================================================================== *)

(** A loop over [range h] with an invariant indexed by the number of
    iterations done. *)
Lemma for_range_invariant {T : Type} (I : nat -> T -> Store -> Prop)
    (body : nat -> T -> M T) (h : nat) :
  (forall y s st, y < h -> I y s st ->
     exists s' st', body y s st = (Ret s', st') /\ I (y + 1) s' st') ->
  forall s st, I 0 s st ->
    exists s' st', for_ (range h) body s st = (Ret s', st') /\ I h s' st'.
Proof.
  intros Hbody. unfold range.
  assert (forall n a s st, a + n <= h -> I a s st ->
            exists s' st', for_ (seq a n) body s st = (Ret s', st') /\ I (a + n) s' st')
    as Hgen.
  { induction n as [|n IH]; intros a s st Hle HI.
    - exists s, st. by rewrite Nat.add_0_r.
    - destruct (Hbody a s st) as (s1 & st1 & Hrun & HI1); [lia | done |].
      destruct (IH (a + 1) s1 st1) as (s2 & st2 & Hrun2 & HI2); [lia | done |].
      exists s2, st2. split.
      + cbn [seq for_]. erewrite bind_Ret by exact Hrun.
        by rewrite <- Nat.add_1_r.
      + by replace (a + S n) with (a + 1 + n) by lia. }
  intros s st HI. by apply (Hgen h 0 s st).
Qed.

(** A loop whose body leaves the log alone leaves the log alone. *)
Lemma for_events_same {T : Type} (body : nat -> T -> M T) xs :
  (forall x s st s' st', body x s st = (Ret s', st') -> events st' = events st) ->
  forall s st s' st', for_ xs body s st = (Ret s', st') -> events st' = events st.
Proof.
  intros Hbody. induction xs as [|x xs IH]; intros s st s' st'; cbn [for_].
  - by intros [= _ <-].
  - intros (s1 & st1 & Hrun & Hrest)%bind_Ret_inv.
    rewrite (IH _ _ _ _ Hrest). by eapply Hbody.
Qed.

Lemma fill_cell_v1_quiet grid y x ws st ws' st' :
  Script.fill_cell grid y x ws st = (Ret ws', st') -> events st' = events st.
Proof.
  unfold Script.fill_cell, index2, bind, new_PatternFill, ret, raise.
  destruct (grid !! y) as [row|]; [|done].
  destruct (row !! x) as [p|]; [|done].
  by intros [= _ <-].
Qed.

Lemma fill_cell_v2_quiet grid y x l st l' st' :
  ScriptV2.fill_cell grid y x l st = (Ret l', st') -> events st' = events st.
Proof.
  destruct l as [[ws cache] processed].
  unfold ScriptV2.fill_cell, index2, bind, ret, raise.
  destruct (grid !! y) as [row|]; [|done].
  destruct (row !! x) as [p|]; [|done].
  unfold ScriptV2.cache_fill, ScriptV2.cache_get, bind, new_PatternFill, ret, raise.
  destruct (cache !! rgb_to_hex p) as [hd|] eqn:Hc.
  - rewrite Hc. by intros [= _ <-].
  - cbn [events heap stdin]. rewrite lookup_insert_eq. by intros [= _ <-].
Qed.

Lemma fill_row_v1_log grid w h y ws st ws' st' :
  Script.fill_row grid w h y ws st = (Ret ws', st') ->
  events st'
  = (if (y + 1) mod 10 =? 0 then [EvPrint (MsgRows (y + 1) h)] else [])
      ++ events st.
Proof.
  unfold Script.fill_row.
  intros (ws1 & st1 & Hrun & Hrest)%bind_Ret_inv.
  apply (for_events_same _ _ (fill_cell_v1_quiet grid y)) in Hrun.
  rewrite <- Hrun.
  destruct ((y + 1) mod 10 =? 0); cbn [when] in Hrest;
    by injection Hrest as _ <-.
Qed.

Lemma fill_row_v2_log grid w h total y l st ws' cache' processed' st' :
  ScriptV2.fill_row grid w h total y l st = (Ret (ws', cache', processed'), st') ->
  events st'
  = (if (y + 1) mod 10 =? 0
     then [EvPrint (MsgRowsUnique (y + 1) h processed' total (size cache'))]
     else [])
      ++ events st.
Proof.
  unfold ScriptV2.fill_row.
  intros ([[ws1 cache1] processed1] & st1 & Hrun & Hrest)%bind_Ret_inv.
  apply (for_events_same _ _ (fill_cell_v2_quiet grid y)) in Hrun.
  rewrite <- Hrun.
  destruct ((y + 1) mod 10 =? 0).
  - destruct (total =? 0); [done|]. by injection Hrest as <- <- <- <-.
  - by injection Hrest as _ _ _ <-.
Qed.

Lemma progress_reports_app es es0 :
  progress_reports (es ++ es0) = progress_reports es0 ++ progress_reports es.
Proof.
  unfold progress_reports. by rewrite printed_app, filter_app, rev_app_distr.
Qed.

Lemma tenth_rows_S (f : nat -> Msg) y :
  map f (tenth_rows (y + 1))
  = map f (tenth_rows y) ++ (if (y + 1) mod 10 =? 0 then [f (y + 1)] else []).
Proof.
  unfold tenth_rows. rewrite !Nat.add_1_r, seq_S, filter_app, map_app.
  f_equal. change (1 + y) with (S y).
  destruct (S y mod 10 =? 0) eqn:Hten.
  - apply Nat.eqb_eq in Hten.
    rewrite filter_cons_True by exact Hten. by rewrite filter_nil.
  - apply Nat.eqb_neq in Hten.
    rewrite filter_cons_False by exact Hten. by rewrite filter_nil.
Qed.

Lemma row_major_S w y :
  row_major w (y + 1) = row_major w y ++ map (fun x => (x, y)) (range w).
Proof.
  unfold row_major, range. rewrite Nat.add_1_r, seq_S, flat_map_app.
  cbn [flat_map Nat.add]. by rewrite app_nil_r.
Qed.

(** script.py: the fill loops report after every tenth row. *)
Lemma fill_loop_v1_progress grid st0 ws0 w h ws' st' :
  for_ (range h) (Script.fill_row grid w h) ws0 st0 = (Ret ws', st') ->
  progress_reports (events st')
  = progress_reports (events st0) ++ map (fun n => MsgRows n h) (tenth_rows h).
Proof.
  unfold range, tenth_rows.
  assert (forall n a ws st,
            for_ (seq a n) (Script.fill_row grid w h) ws st = (Ret ws', st') ->
            progress_reports (events st')
            = progress_reports (events st)
                ++ map (fun n => MsgRows n h)
                       (filter (fun n => n mod 10 = 0) (seq (a + 1) n))) as Hgen.
  { induction n as [|n IH]; intros a ws st; cbn [seq for_].
    - intros [= _ <-]. by rewrite app_nil_r.
    - intros (ws1 & st1 & Hrow & Hrest)%bind_Ret_inv.
      rewrite (IH _ _ _ Hrest).
      rewrite (fill_row_v1_log _ _ _ _ _ _ _ _ Hrow), progress_reports_app.
      rewrite <- app_assoc. f_equal.
      replace (S a + 1) with (S (a + 1)) by lia.
      destruct ((a + 1) mod 10 =? 0) eqn:Hten.
      + apply Nat.eqb_eq in Hten. by rewrite filter_cons_True by exact Hten.
      + apply Nat.eqb_neq in Hten. by rewrite filter_cons_False by exact Hten. }
  intros Hrun. exact (Hgen h 0 ws0 st0 Hrun).
Qed.

(** scriptV2: the fill loops report after every tenth row, with the
    count of cells processed and of colours met so far. *)
Lemma fill_loop_v2_progress grid st0 ws0 w h :
  grid_covers grid w h ->
  progress_ok w h ->
  cells ws0 = ∅ ->
  exists locals' st',
    for_ (range h) (ScriptV2.fill_row grid w h (w * h)) (ws0, ∅, 0) st0
    = (Ret locals', st')
    /\ progress_reports (events st')
       = progress_reports (events st0) ++ map (report_v2 grid w h) (tenth_rows h).
Proof.
  intros Hcov Hprog Hempty.
  pose (I := fun (y : nat) (l : Locals) (st' : Store) =>
    fill_inv_v2 grid st0 ws0 (row_major w y) l st'
    /\ progress_reports (events st')
       = progress_reports (events st0) ++ map (report_v2 grid w h) (tenth_rows y)).
  destruct (for_range_invariant I (ScriptV2.fill_row grid w h (w * h)) h)
    with (s := (ws0, (∅ : gmap string nat), 0)) (st := st0)
    as (l1 & st1 & Hrun & _ & Hlog).
  - intros y l st Hy [HI Hlog].
    destruct (fill_row_v2 grid st0 ws0 _ w h (w * h) y l st HI)
      as ([[ws2 cache2] processed2] & st2 & Hrun & HI2).
    { intros x Hx. by apply Hcov. }
    { intros Hten. destruct Hprog as [Hw|Hh]; [nia|].
      assert (y + 1 < 10) as Hlt by lia.
      rewrite Nat.mod_small in Hten by done. lia. }
    exists (ws2, cache2, processed2), st2. split; [done|].
    unfold I. rewrite row_major_S. split; [exact HI2|].
    rewrite (fill_row_v2_log _ _ _ _ _ _ _ _ _ _ _ Hrun), progress_reports_app.
    rewrite Hlog, tenth_rows_S, <- app_assoc. f_equal.
    destruct ((y + 1) mod 10 =? 0); [|done].
    pose proof (fill_inv_v2_size _ _ _ _ _ _ _ _ HI2) as Hsize.
    destruct HI2 as (_ & _ & _ & _ & _ & _ & Hproc & _).
    rewrite <- row_major_S in Hsize, Hproc.
    rewrite row_major_length in Hproc.
    unfold report_v2, color_keys. by rewrite Hsize, Hproc.
  - unfold I. split; [|by rewrite app_nil_r].
    unfold fill_inv_v2. cbn [row_major range seq flat_map keys_at omap map length].
    split_and!; try done.
    + exists []. by rewrite app_nil_r, map_size_empty.
    + by exists [].
    + intros k. rewrite lookup_empty. split; [by intros [? ?] | by intros ?%elem_of_nil].
    + intros r c hd. by rewrite Hempty, lookup_empty.
    + intros x y Hxy. by apply elem_of_nil in Hxy.
  - by exists l1, st1.
Qed.

Lemma progress_reports_cons_print m es :
  is_progress m = false ->
  progress_reports (EvPrint m :: es) = progress_reports es.
Proof.
  intros Hm. unfold progress_reports. cbn [printed omap list_omap].
  fold (printed es). rewrite filter_cons_False; [done|]. by rewrite Hm.
Qed.

Lemma progress_reports_cons_save wb p es :
  progress_reports (EvSave wb p :: es) = progress_reports es.
Proof. reflexivity. Qed.

(** X16.  The progress reports.  While filling the cells both scripts
    report after every tenth row and at no other time.  script.py
    reports the rows done; scriptV2 reports with them the cells
    processed so far, which are the width times the rows done, out of
    width times height, and the number of distinct Color Keys met in
    the rows done. *)
Theorem progress_every_tenth_row (W : World) grid w h path st :
  grid_covers grid w h ->
  letters_ok W w ->
  progress_reports (events (Script.create_excel_with_colors W grid w h path st).2)
  = progress_reports (events st) ++ map (fun n => MsgRows n h) (tenth_rows h)
  /\ (progress_ok w h ->
      progress_reports (events (ScriptV2.create_excel_with_colors W grid w h path st).2)
      = progress_reports (events st) ++ map (report_v2 grid w h) (tenth_rows h)).
Proof.
  intros Hcov Hok. split.
  - unfold Script.create_excel_with_colors.
    erewrite bind_Ret by reflexivity.
    edestruct (column_loop_run W 2%Q w) as (ws1 & Hrun1 & _ & Hr1 & Hc1 & _);
      [exact Hok | | erewrite bind_Ret by exact Hrun1]; [reflexivity|].
    edestruct (row_loop_sizes 15%Q h ws1) as (ws2 & Hrun2 & _ & _ & Hce2 & _);
      [| erewrite bind_Ret by exact Hrun2]; [by rewrite Hr1|].
    edestruct (fill_loop_v1 grid) as (ws3 & st3 & Hrun3 & _);
      [exact Hcov | | erewrite bind_Ret by exact Hrun3]; [by rewrite Hce2, Hc1|].
    apply fill_loop_v1_progress in Hrun3. cbn [events] in Hrun3.
    rewrite progress_reports_cons_print in Hrun3 by done.
    erewrite bind_Ret by reflexivity.
    destruct (Workbook_save W _ path);
      (erewrite bind_Ret by reflexivity); cbn [ret snd events];
      by rewrite progress_reports_cons_print, progress_reports_cons_save.
  - intros Hprog. unfold ScriptV2.create_excel_with_colors.
    erewrite bind_Ret by reflexivity.
    edestruct (column_loop_run W (3 # 2)%Q w) as (ws1 & Hrun1 & _ & Hr1 & Hc1 & _);
      [exact Hok | | erewrite bind_Ret by exact Hrun1]; [reflexivity|].
    edestruct (row_loop_sizes 12%Q h ws1) as (ws2 & Hrun2 & _ & _ & Hce2 & _);
      [| erewrite bind_Ret by exact Hrun2]; [by rewrite Hr1|].
    edestruct (fill_loop_v2_progress grid)
      as ([[ws3 cache] processed] & st3 & Hrun3 & Hlog);
      [exact Hcov | exact Hprog | | erewrite bind_Ret by exact Hrun3];
      [by rewrite Hce2, Hc1|].
    cbn [events] in Hlog.
    rewrite progress_reports_cons_print in Hlog by done.
    cbv beta iota.
    erewrite bind_Ret by reflexivity.
    erewrite bind_Ret by reflexivity.
    destruct (Workbook_save W _ path);
      repeat (erewrite bind_Ret by reflexivity); cbn [ret snd events];
      by rewrite ?progress_reports_cons_print, progress_reports_cons_save,
           progress_reports_cons_print.
Qed.

Lemma progress_every_tenth_row_witness :
  progress_reports
    (events (ScriptV2.create_excel_with_colors threshold_world
               (grid_of (solid_image 1 20 red)) 1 20 "out.xlsx" empty_store).2)
  = progress_reports (events empty_store)
      ++ map (report_v2 (grid_of (solid_image 1 20 red)) 1 20) (tenth_rows 20).
Proof.
  apply (progress_every_tenth_row threshold_world
           (grid_of (solid_image 1 20 red)) 1 20 "out.xlsx" empty_store).
  - apply (grid_of_covers (solid_image 1 20 red)).
  - apply one_file_world_letters. cbn. lia.
  - left. lia.
Defined.

(* ================================================================== *)
(** * A file whose pixel data cannot be read *)
(* ================================================================== *)

(** When the pixel data of every image can be read, the functions of
    [Lazy] are the functions above. *)
Lemma lazy_get_pixel_colors_total image :
  Lazy.get_pixel_colors (fun _ => true) image = get_pixel_colors image.
Proof. reflexivity. Qed.

Lemma lazy_image_to_excel_total (v : Variant) W path :
  Lazy.image_to_excel_of (fun _ => true) v W path = image_to_excel_of v W path.
Proof. destruct v; reflexivity. Qed.

(** On an image with at least one pixel whose data cannot be read, the
    first [getpixel] raises and [get_pixel_colors] with it. *)
Lemma lazy_get_pixel_colors_raises pixels_load image st :
  pixels_load image = false ->
  0 < width_of image -> 0 < height_of image ->
  Lazy.get_pixel_colors pixels_load image st
  = (Raise LibraryError,
     mkStore (EvGetPixel 0 0
                :: EvPrint (MsgProcessing (width_of image) (height_of image))
                :: events st)
             (heap st) (stdin st)).
Proof.
  unfold Lazy.get_pixel_colors, width_of, height_of.
  destruct (image_size image) as [w h] eqn:Hsize. cbn [fst snd].
  intros Hload Hw Hh.
  destruct w as [|w]; [lia|]. destruct h as [|h]; [lia|].
  erewrite bind_Ret by reflexivity.
  erewrite bind_Raise; [reflexivity|].
  cbn [range seq for_].
  erewrite bind_Raise; [reflexivity|].
  erewrite bind_Raise; [reflexivity|].
  erewrite bind_Raise; [reflexivity|].
  unfold Lazy.get_pixel, bind, emit, raise. cbn [events heap stdin].
  by rewrite Hload.
Qed.

Lemma load_image_rgb W path image st :
  Image_open W path = Some image ->
  mode image = "RGB"%string ->
  load_image W path st
  = (Ret (Some image), mkStore (EvOpen path :: events st) (heap st) (stdin st)).
Proof.
  intros Hopen Hmode. unfold load_image.
  erewrite bind_Ret by reflexivity. rewrite Hopen.
  rewrite bool_decide_eq_false_2; [done|]. by intros H.
Qed.

(** C8.  A file PIL opens but whose pixel data it cannot read: an RGB
    file with at least one pixel that is truncated after its header.
    [load_image] returns the image, since nothing reads the data inside
    its [try]; the first [getpixel] of [get_pixel_colors] raises, and no
    [try] encloses it.  [image_to_excel] of both scripts raises the
    exception: it neither returns [False] nor prints an error message.
    In scriptV2 the guard comes first, so the image is taken at or
    below the threshold. *)
Theorem truncated_file_raises (v : Variant) (pixels_load : Image -> bool)
    (W : World) path st image :
  os_path_exists W path = true ->
  accepted_extension path ->
  Image_open W path = Some image ->
  mode image = "RGB"%string ->
  pixels_load image = false ->
  0 < width_of image -> 0 < height_of image ->
  (v = V2 -> (total_pixels_of image <= threshold)%Z) ->
  Lazy.image_to_excel_of pixels_load v W path st
  = (Raise LibraryError,
     mkStore (EvGetPixel 0 0
                :: EvPrint (MsgProcessing (width_of image) (height_of image))
                :: EvOpen path :: EvPrint (MsgLoading path) :: EvExists path
                :: events st)
             (heap st) (stdin st))
  /\ forall b st', Lazy.image_to_excel_of pixels_load v W path st <> (Ret b, st').
Proof.
  intros Hex Hext%has_valid_extension_accepted Hopen Hmode Hload Hw Hh Hle.
  assert (Lazy.image_to_excel_of pixels_load v W path st
          = (Raise LibraryError,
             mkStore (EvGetPixel 0 0
                        :: EvPrint (MsgProcessing (width_of image) (height_of image))
                        :: EvOpen path :: EvPrint (MsgLoading path) :: EvExists path
                        :: events st)
                     (heap st) (stdin st))) as Hrun.
  { destruct v; cbn [Lazy.image_to_excel_of].
    - unfold Lazy.Script.image_to_excel.
      erewrite bind_Ret by reflexivity. rewrite Hex, Hext. cbn [negb].
      erewrite bind_Ret by reflexivity.
      erewrite bind_Ret by (by apply load_image_rgb). cbv beta iota.
      erewrite bind_Raise; [reflexivity|].
      by rewrite lazy_get_pixel_colors_raises.
    - unfold Lazy.ScriptV2.image_to_excel.
      erewrite bind_Ret by reflexivity. rewrite Hex, Hext. cbn [negb].
      erewrite bind_Ret by reflexivity.
      erewrite bind_Ret by (by apply load_image_rgb). cbv beta iota.
      unfold Lazy.ScriptV2.size_guard. fold (total_pixels_of image).
      rewrite (proj2 (Z.ltb_ge _ _) (Hle eq_refl)).
      unfold Lazy.ScriptV2.convert.
      erewrite bind_Raise; [reflexivity|].
      by rewrite lazy_get_pixel_colors_raises. }
  split; [exact Hrun|]. intros b st'. by rewrite Hrun.
Qed.

Lemma truncated_file_raises_witness :
  Lazy.image_to_excel_of truncated V1 scenario_world "image.png" empty_store
  = (Raise LibraryError,
     mkStore [EvGetPixel 0 0; EvPrint (MsgProcessing 2 2); EvOpen "image.png";
              EvPrint (MsgLoading "image.png"); EvExists "image.png"] [] []).
Proof.
  apply (truncated_file_raises V1 truncated scenario_world "image.png" empty_store
           (image_of_grid 2 2 grid_2x2)).
  - reflexivity.
  - left. reflexivity.
  - reflexivity.
  - reflexivity.
  - reflexivity.
  - cbn. lia.
  - cbn. lia.
  - discriminate.
Defined.
